(** * The A2A message protocol and the coordinator workflow engine

    A shallow embedding of the message models ([shared/a2a_models.py]), the
    agent dispatch ([agents/a2a_base_agent.py] and the five agents) and the
    coordinator ([coordinator/coordinator_a2a.py]).

    Python values that travel as JSON are values of [json]; a [Dict[str, Any]]
    inside a message is the list of its items, the task record kept in Redis
    is a [gmap string json].  Exceptions are values of [exn]; every effectful
    function threads the world explicitly and returns either a value or the
    exception it raised. *)

From Stdlib Require Import ZArith List String Ascii Bool Lia.
From Stdlib Require Import Uint63 PrimFloat FloatOps FloatAxioms SpecFloat.
From stdpp Require Import base option list gmap strings.
Import ListNotations.

(* The decimal literals of the source (0.8, 0.15, ...) denote the nearest
   binary64 values, as they do in Python. *)
Set Warnings "-inexact-float".

Local Open Scope string_scope.
Local Open Scope Z_scope.

(** ** JSON values and the Python operations the program applies to them *)

#[warnings="-register-all"]
Inductive json : Type :=
| JNull
| JBool (b : bool)
| JInt (z : Z)
| JFloat (f : float)
| JStr (s : string)
| JArr (items : list json)
| JObj (items : list (string * json)).

(** A Python [dict] with string keys, as its items in insertion order. *)
Abbreviation dict := (list (string * json)).

Fixpoint dict_get (k : string) (d : dict) : option json :=
  match d with
  | [] => None
  | (k', v) :: d' => if String.eqb k k' then Some v else dict_get k d'
  end.

(** [d.get(k)]: [None] when the key is absent. *)
Definition get_or_none (k : string) (d : dict) : json :=
  match dict_get k d with Some v => v | None => JNull end.

(** [d.get(k, dflt)] *)
Definition get_or (k : string) (dflt : json) (d : dict) : json :=
  match dict_get k d with Some v => v | None => dflt end.

(** [d[k] = v]: replaces the value of an existing key in place, appends a new
    key at the end. *)
Fixpoint dict_set (k : string) (v : json) (d : dict) : dict :=
  match d with
  | [] => [(k, v)]
  | (k', v') :: d' =>
      if String.eqb k k' then (k', v) :: d' else (k', v') :: dict_set k v d'
  end.

(** Truth value of a Python object. *)
Definition py_truthy (v : json) : bool :=
  match v with
  | JNull => false
  | JBool b => b
  | JInt z => negb (z =? 0)
  | JFloat f => negb (PrimFloat.eqb f 0%float)
  | JStr s => negb (String.eqb s "")
  | JArr l => match l with [] => false | _ => true end
  | JObj d => match d with [] => false | _ => true end
  end.

(** [a or b] *)
Definition py_or (a b : json) : json := if py_truthy a then a else b.

(** What [json.loads(model_dump_json(...))] leaves of a value: Pydantic writes
    a float that is an infinity or a NaN as [null]. *)
Fixpoint to_jsonable (v : json) : json :=
  match v with
  | JFloat f => if PrimFloat.is_finite f then JFloat f else JNull
  | JArr l => JArr (map to_jsonable l)
  | JObj d => JObj (map (fun kv => let '(k, x) := kv in (k, to_jsonable x)) d)
  | _ => v
  end.

(** A value that holds finite numbers only, that is one JSON can write. *)
Fixpoint json_compatible (v : json) : bool :=
  match v with
  | JFloat f => PrimFloat.is_finite f
  | JArr l => forallb json_compatible l
  | JObj d => forallb (fun kv => let '(_, x) := kv in json_compatible x) d
  | _ => true
  end.

Definition dict_compatible (d : dict) : bool := json_compatible (JObj d).

(** ** [shared/a2a_models.py]: the message models *)

Inductive MessageStatus : Type := PENDING | PROCESSING | COMPLETED | FAILED.

Definition status_value (s : MessageStatus) : string :=
  match s with
  | PENDING => "pending"
  | PROCESSING => "processing"
  | COMPLETED => "completed"
  | FAILED => "failed"
  end.

Record A2ACapability : Type := {
  cap_name : string;
  cap_description : string;
  cap_parameters : dict;
  cap_returns : dict
}.

Record A2AAgent : Type := {
  agent_info_id : string;
  agent_info_name : string;
  agent_info_version : string;
  agent_info_capabilities : list A2ACapability;
  agent_info_metadata : dict
}.

(** The content union.  The [type] field of every class is a [Literal] with
    one value, [content_tag] below, so it is not stored. *)
Inductive A2AContent : Type :=
| A2AActionRequest (action : string) (parameters context : dict)
| A2AActionResponse (action : string) (result : dict) (status : MessageStatus)
    (error : option string) (metadata : dict)
| A2ACapabilityRequest
| A2ACapabilityResponse (capabilities : list A2ACapability) (agent : A2AAgent)
| A2AError (code message : string) (details : option dict)
| A2AStatusUpdate (status : MessageStatus) (progress : option float)
    (message : option string).

Definition content_tag (c : A2AContent) : string :=
  match c with
  | A2AActionRequest _ _ _ => "ActionRequest"
  | A2AActionResponse _ _ _ _ _ => "ActionResponse"
  | A2ACapabilityRequest => "CapabilityRequest"
  | A2ACapabilityResponse _ _ => "CapabilityResponse"
  | A2AError _ _ _ => "Error"
  | A2AStatusUpdate _ _ _ => "StatusUpdate"
  end.

(** The six values of [MessageType]. *)
Definition message_types : list string :=
  ["ActionRequest"; "ActionResponse"; "CapabilityRequest";
   "CapabilityResponse"; "Error"; "StatusUpdate"].

(** [A2AMessage]; its [type] is the literal ["Message"]. *)
Record A2AMessage : Type := {
  id : string;
  to : string;
  from_agent : string;
  content : A2AContent;
  reply_to : option string;
  timestamp : string;
  metadata : dict
}.

(** *** Serialisation: [model_dump] *)

(** The keyword arguments of [model_dump] the models are dumped with. *)
Record dump_kwargs : Type := { by_alias : bool; exclude_none : bool }.

Definition type_key (kw : dump_kwargs) : string :=
  if by_alias kw then "@type" else "type".

(** A field of type [Optional[...]]: left out under [exclude_none] when it is
    [None]. *)
Definition dump_optional (kw : dump_kwargs) (k : string) (v : option json) : dict :=
  match v with
  | Some x => [(k, x)]
  | None => if exclude_none kw then [] else [(k, JNull)]
  end.

Definition dump_capability (c : A2ACapability) : json :=
  JObj [("name", JStr (cap_name c));
        ("description", JStr (cap_description c));
        ("parameters", JObj (cap_parameters c));
        ("returns", JObj (cap_returns c))].

Definition dump_agent (a : A2AAgent) : json :=
  JObj [("id", JStr (agent_info_id a));
        ("name", JStr (agent_info_name a));
        ("version", JStr (agent_info_version a));
        ("capabilities", JArr (map dump_capability (agent_info_capabilities a)));
        ("metadata", JObj (agent_info_metadata a))].

(** [content.model_dump] with the same keyword arguments, of each content class. *)
Definition content_model_dump (kw : dump_kwargs) (c : A2AContent) : dict :=
  (type_key kw, JStr (content_tag c)) ::
  match c with
  | A2AActionRequest a p ctx =>
      [("action", JStr a); ("parameters", JObj p); ("context", JObj ctx)]
  | A2AActionResponse a r s e md =>
      [("action", JStr a); ("result", JObj r); ("status", JStr (status_value s))]
      ++ dump_optional kw "error" (JStr <$> e)
      ++ [("metadata", JObj md)]
  | A2ACapabilityRequest => []
  | A2ACapabilityResponse caps ag =>
      [("capabilities", JArr (map dump_capability caps)); ("agent", dump_agent ag)]
  | A2AError c m d =>
      [("code", JStr c); ("message", JStr m)] ++ dump_optional kw "details" (JObj <$> d)
  | A2AStatusUpdate s p m =>
      [("status", JStr (status_value s))]
      ++ dump_optional kw "progress" (JFloat <$> p)
      ++ dump_optional kw "message" (JStr <$> m)
  end.

(** [BaseModel.model_dump] of [A2AMessage], the method the class overrides. *)
Definition super_model_dump (kw : dump_kwargs) (m : A2AMessage) : dict :=
  [(type_key kw, JStr "Message");
   ("id", JStr (id m));
   ("to", JStr (to m));
   (if by_alias kw then "from" else "from_agent", JStr (from_agent m));
   ("content", JObj (content_model_dump kw (content m)))]
  ++ dump_optional kw "reply_to" (JStr <$> reply_to m)
  ++ [("timestamp", JStr (timestamp m)); ("metadata", JObj (metadata m))].

(** [A2AMessage.model_dump]: the base dump with the content dumped again by
    its own class and stored under ["content"]. *)
Definition model_dump (kw : dump_kwargs) (m : A2AMessage) : dict :=
  let data := super_model_dump kw m in
  dict_set "content" (JObj (content_model_dump kw (content m))) data.

(** [json.loads(content.model_dump_json(by_alias=True, exclude_none=True))] *)
Definition content_model_dump_json (c : A2AContent) : dict :=
  map (fun kv => let '(k, x) := kv in (k, to_jsonable x))
      (content_model_dump {| by_alias := true; exclude_none := true |} c).

(** The [message_dict] that [A2ACoordinator.send_message] posts. *)
Definition message_dict (m : A2AMessage) : dict :=
  [("@type", JStr "Message");
   ("id", JStr (id m));
   ("to", JStr (to m));
   ("from", JStr (from_agent m));
   ("content", JObj (content_model_dump_json (content m)));
   ("timestamp", JStr (timestamp m));
   ("metadata", JObj (metadata m))]
  ++ match reply_to m with
     | Some r => if py_truthy (JStr r) then [("reply_to", JStr r)] else []
     | None => []
     end.

(** ** Exceptions and results *)

Inductive exn_class : Type :=
| ValueError | TypeError | AttributeError | ValidationError
| ConnectError | HTTPStatusError | Exception.

(** An exception: its class and [str(e)]. *)
Record exn : Type := Exn { exn_class_of : exn_class; exn_str : string }.

Inductive res (A : Type) : Type :=
| Ok (a : A)
| Raise (e : exn).
Arguments Ok {A} a.
Arguments Raise {A} e.

(** ** Pydantic validation *)

Inductive loc_item : Type := Key (k : string) | Idx (i : nat).

Inductive error_type : Type :=
| missing | string_type | dict_type | list_type | float_type | enum_error
| literal_error | model_type | less_than_equal | greater_than_equal
| value_error (msg : string).

Record line_error : Type := { loc : list loc_item; err_type : error_type }.

(** The outcome of validating a value: the value, or every error found. *)
Inductive validation (A : Type) : Type :=
| Valid (a : A)
| Invalid (errs : list line_error).
Arguments Valid {A} a.
Arguments Invalid {A} errs.

Definition vmap {A B} (f : A -> B) (x : validation A) : validation B :=
  match x with Valid a => Valid (f a) | Invalid e => Invalid e end.

(** Fields are validated one after the other and their errors collected. *)
Definition vap {A B} (f : validation (A -> B)) (x : validation A) : validation B :=
  match f, x with
  | Valid g, Valid a => Valid (g a)
  | Valid _, Invalid e => Invalid e
  | Invalid e, Valid _ => Invalid e
  | Invalid e1, Invalid e2 => Invalid (e1 ++ e2)
  end.

Notation "f <*> x" := (vap f x) (at level 61, left associativity).

Definition fail_with {A} (t : error_type) : validation A :=
  Invalid [ {| loc := []; err_type := t |} ].

Definition at_loc {A} (i : loc_item) (x : validation A) : validation A :=
  match x with
  | Valid a => Valid a
  | Invalid errs =>
      Invalid (map (fun e => {| loc := i :: loc e; err_type := err_type e |}) errs)
  end.

(** A prompt handed to the language model: which of the f-strings of the
    agents it is, and the values that the f-string formats. *)
Inductive prompt : Type :=
| RefineTopicPrompt (topic : json)
| GenerateQuestionsPrompt (topic iteration : json)
| OptimizeQueryPrompt (query : json)
| AnalyzeResultsPrompt (topic search_results : json)
| GenerateReportPrompt (state : gmap string json).

(** The externals of the program: the Python runtime and the services it
    calls.  Nothing is assumed of them.  Those that may answer differently
    from one call to the next take the time of the call, a counter that every
    such call advances. *)
Class Externals : Type := {
  (** [str(v)] of a value that is not a string *)
  py_repr : json -> string;
  (** [str(e)] of a Pydantic [ValidationError] with the given errors *)
  validation_error_text : list line_error -> string;
  (** the body of the 422 response FastAPI makes of these errors *)
  validation_error_detail : list line_error -> json;
  (** [str(e)] of the error [raise_for_status] raises for a status and a URL *)
  http_status_text : Z -> string -> string;
  (** [str(uuid.uuid4())] *)
  uuid4 : nat -> string;
  (** [datetime.utcnow().isoformat()] and [datetime.now().isoformat()] *)
  isoformat_now : nat -> string;
  (** [invoke_llm]: formats the prompt, calls the model with the system
      prompt and the temperature of the agent, returns the text of the
      answer; it raises when the formatting or the model does. *)
  llm_invoke : nat -> string -> float -> prompt -> res string;
  (** [DDGS().text(question, max_results=max_results)] *)
  ddgs_text : nat -> json -> json -> res (list dict);
  (** the metadata footer that the report writer formats from the record *)
  report_footer : nat -> gmap string json -> res string;
  (** whether [_get_agent_services] finds a local environment *)
  local_environment : bool;
  (** [str(content)] of a content object *)
  content_text : A2AContent -> string;
  (** the network: the exception, if any, that a POST to the URL raises
      before the request is delivered, and after the service has answered *)
  connect_fault : nat -> string -> option exn;
  response_fault : nat -> string -> option exn
}.

Section Models.
Context `{Externals}.

(** [str(v)], as an f-string formats a value. *)
Definition py_str (v : json) : string :=
  match v with JStr s => s | _ => py_repr v end.

(** A field is read by its alias or, as the models set [populate_by_name], by
    its name. *)
Definition field (d : dict) (alias name : string) : option json :=
  match dict_get alias d with
  | Some v => Some v
  | None => dict_get name d
  end.

Definition required {A} (d : dict) (alias name : string)
    (val : json -> validation A) : validation A :=
  match field d alias name with
  | Some v => at_loc (Key alias) (val v)
  | None => at_loc (Key alias) (fail_with missing)
  end.

Definition with_default {A} (d : dict) (alias name : string) (dflt : A)
    (val : json -> validation A) : validation A :=
  match field d alias name with
  | Some v => at_loc (Key alias) (val v)
  | None => Valid dflt
  end.

Definition str_val (v : json) : validation string :=
  match v with JStr s => Valid s | _ => fail_with string_type end.

Definition dict_val (v : json) : validation dict :=
  match v with JObj d => Valid d | _ => fail_with dict_type end.

Definition literal_val (expected : string) (v : json) : validation unit :=
  match v with
  | JStr s => if String.eqb s expected then Valid tt else fail_with literal_error
  | _ => fail_with literal_error
  end.

Definition optional_val {A} (val : json -> validation A) (v : json)
    : validation (option A) :=
  match v with JNull => Valid None | _ => vmap Some (val v) end.

Definition status_val (v : json) : validation MessageStatus :=
  match v with
  | JStr s =>
      if String.eqb s "pending" then Valid PENDING
      else if String.eqb s "processing" then Valid PROCESSING
      else if String.eqb s "completed" then Valid COMPLETED
      else if String.eqb s "failed" then Valid FAILED
      else fail_with enum_error
  | _ => fail_with enum_error
  end.

(** [float] with [ge=0.0, le=1.0].  An integer is converted; the only ones in
    range are 0 and 1.  Other kinds of value are rejected here (strings that
    spell a number, which the lax mode would parse, are outside the model). *)
Definition progress_val (v : json) : validation float :=
  match v with
  | JFloat f =>
      if negb (PrimFloat.leb f 1%float) then fail_with less_than_equal
      else if negb (PrimFloat.leb 0%float f) then fail_with greater_than_equal
      else Valid f
  | JInt z =>
      if negb (z <=? 1) then fail_with less_than_equal
      else if negb (0 <=? z) then fail_with greater_than_equal
      else Valid (if z =? 0 then 0%float else 1%float)
  | _ => fail_with float_type
  end.

Fixpoint list_items {A} (val : json -> validation A) (i : nat) (l : list json)
    : validation (list A) :=
  match l with
  | [] => Valid []
  | x :: l' => Valid cons <*> at_loc (Idx i) (val x) <*> list_items val (S i) l'
  end.

Definition list_val {A} (val : json -> validation A) (v : json)
    : validation (list A) :=
  match v with JArr l => list_items val 0 l | _ => fail_with list_type end.

Definition capability_val (v : json) : validation A2ACapability :=
  match v with
  | JObj d =>
      Valid Build_A2ACapability
      <*> required d "name" "name" str_val
      <*> required d "description" "description" str_val
      <*> with_default d "parameters" "parameters" [] dict_val
      <*> with_default d "returns" "returns" [] dict_val
  | _ => fail_with model_type
  end.

Definition agent_val (v : json) : validation A2AAgent :=
  match v with
  | JObj d =>
      Valid Build_A2AAgent
      <*> required d "id" "id" str_val
      <*> required d "name" "name" str_val
      <*> with_default d "version" "version" "1.0.0" str_val
      <*> with_default d "capabilities" "capabilities" [] (list_val capability_val)
      <*> with_default d "metadata" "metadata" [] dict_val
  | _ => fail_with model_type
  end.

(** The [type] field of a content class: a literal with a default. *)
Definition type_field (d : dict) (tag : string) : validation unit :=
  with_default d "@type" "type" tt (literal_val tag).

(** The constructor [A2AActionRequest] applied to the items of [v], and the five other classes. *)
Definition validate_ActionRequest (v : dict) : validation A2AContent :=
  Valid (fun _ => A2AActionRequest)
  <*> type_field v "ActionRequest"
  <*> required v "action" "action" str_val
  <*> with_default v "parameters" "parameters" [] dict_val
  <*> with_default v "context" "context" [] dict_val.

Definition validate_ActionResponse (v : dict) : validation A2AContent :=
  Valid (fun _ => A2AActionResponse)
  <*> type_field v "ActionResponse"
  <*> required v "action" "action" str_val
  <*> required v "result" "result" dict_val
  <*> required v "status" "status" status_val
  <*> with_default v "error" "error" None (optional_val str_val)
  <*> with_default v "metadata" "metadata" [] dict_val.

Definition validate_CapabilityRequest (v : dict) : validation A2AContent :=
  Valid (fun _ => A2ACapabilityRequest)
  <*> type_field v "CapabilityRequest".

Definition validate_CapabilityResponse (v : dict) : validation A2AContent :=
  Valid (fun _ => A2ACapabilityResponse)
  <*> type_field v "CapabilityResponse"
  <*> required v "capabilities" "capabilities" (list_val capability_val)
  <*> required v "agent" "agent" agent_val.

Definition validate_Error (v : dict) : validation A2AContent :=
  Valid (fun _ => A2AError)
  <*> type_field v "Error"
  <*> required v "code" "code" str_val
  <*> required v "message" "message" str_val
  <*> with_default v "details" "details" None (optional_val dict_val).

Definition validate_StatusUpdate (v : dict) : validation A2AContent :=
  Valid (fun _ => A2AStatusUpdate)
  <*> type_field v "StatusUpdate"
  <*> required v "status" "status" status_val
  <*> with_default v "progress" "progress" None (optional_val progress_val)
  <*> with_default v "message" "message" None (optional_val str_val).

(** [content_type == 'ActionRequest'] and the like *)
Definition is_str (v : json) (s : string) : bool :=
  match v with JStr s' => String.eqb s' s | _ => false end.

(** The names of the classes of the union, for the errors of a value that no
    class accepts. *)
Definition union_classes : list string :=
  ["A2AActionRequest"; "A2AActionResponse"; "A2ACapabilityRequest";
   "A2ACapabilityResponse"; "A2AError"; "A2AStatusUpdate"].

(** [v.get('@type') or v.get('type')] *)
Definition discriminator (v : dict) : json :=
  py_or (get_or_none "@type" v) (get_or_none "type" v).

(** [A2AMessage.parse_content], the validator that runs on the raw content
    before the union is validated.  A dict is dispatched on its discriminator;
    any other JSON value is returned as it is and then fits no class. *)
Definition parse_content (v : json) : validation A2AContent :=
  match v with
  | JObj d =>
      let content_type := discriminator d in
      if is_str content_type "ActionRequest" then validate_ActionRequest d
      else if is_str content_type "ActionResponse" then validate_ActionResponse d
      else if is_str content_type "CapabilityRequest" then validate_CapabilityRequest d
      else if is_str content_type "CapabilityResponse" then validate_CapabilityResponse d
      else if is_str content_type "Error" then validate_Error d
      else if is_str content_type "StatusUpdate" then validate_StatusUpdate d
      else fail_with (value_error ("Unknown content type: " ++ py_str content_type))
  | _ =>
      Invalid (map (fun c => {| loc := [Key c]; err_type := model_type |})
                   union_classes)
  end.

(** The constructor [A2AMessage] applied to the items of [data]: the decoding of an envelope.  [now] is what the
    default factory of [timestamp] returns. *)
Definition model_validate (now : string) (data : dict) : validation A2AMessage :=
  Valid (fun _ => Build_A2AMessage)
  <*> with_default data "@type" "type" tt (literal_val "Message")
  <*> required data "id" "id" str_val
  <*> required data "to" "to" str_val
  <*> required data "from" "from_agent" str_val
  <*> required data "content" "content" parse_content
  <*> with_default data "reply_to" "reply_to" None (optional_val str_val)
  <*> with_default data "timestamp" "timestamp" now str_val
  <*> with_default data "metadata" "metadata" [] dict_val.

(** An envelope as the models admit it: the progress of a status update lies
    in [0, 1] (the constraint of the field, checked when the object is
    built). *)
Definition valid_content (c : A2AContent) : bool :=
  match c with
  | A2AStatusUpdate _ (Some f) _ => PrimFloat.leb 0%float f && PrimFloat.leb f 1%float
  | _ => true
  end.

Definition capability_compatible (c : A2ACapability) : bool :=
  dict_compatible (cap_parameters c) && dict_compatible (cap_returns c).

(** A content whose open maps hold values JSON can carry: finite numbers. *)
Definition content_compatible (c : A2AContent) : bool :=
  match c with
  | A2AActionRequest _ p ctx => dict_compatible p && dict_compatible ctx
  | A2AActionResponse _ r _ _ md => dict_compatible r && dict_compatible md
  | A2ACapabilityRequest => true
  | A2ACapabilityResponse caps ag =>
      forallb capability_compatible caps
      && forallb capability_compatible (agent_info_capabilities ag)
      && dict_compatible (agent_info_metadata ag)
  | A2AError _ _ d => match d with Some x => dict_compatible x | None => true end
  | A2AStatusUpdate _ _ _ => true
  end.

(** The discriminator that an encoded envelope carries for its content under
    the key [k]. *)
Definition encoded_tag (k : string) (data : dict) : option json :=
  match dict_get "content" data with
  | Some (JObj c) => dict_get k c
  | _ => None
  end.

End Models.


(** ** More of Python: numbers, comparison, [len] *)

Definition bind_res {A B} (m : res A) (k : A -> res B) : res B :=
  match m with Ok a => k a | Raise e => Raise e end.

#[global] Instance res_ret : MRet res := @Ok.
#[global] Instance res_bind : MBind res := fun A B k m => bind_res m k.

Definition py_type_name (v : json) : string :=
  match v with
  | JNull => "NoneType"
  | JBool _ => "bool"
  | JInt _ => "int"
  | JFloat _ => "float"
  | JStr _ => "str"
  | JArr _ => "list"
  | JObj _ => "dict"
  end.

(** A Python number: [bool] is a subclass of [int]. *)
Inductive num : Type := NInt (z : Z) | NFloat (f : float).

Definition as_num (v : json) : option num :=
  match v with
  | JInt z => Some (NInt z)
  | JBool b => Some (NInt (if b then 1 else 0))
  | JFloat f => Some (NFloat f)
  | _ => None
  end.

(** The exact comparison of a float with an integer, as Python does it;
    [None] for a NaN. *)
Definition float_compare_Z (f : float) (z : Z) : option comparison :=
  match Prim2SF f with
  | S754_zero _ => Some (0 ?= z)
  | S754_infinity s => Some (if s then Lt else Gt)
  | S754_nan => None
  | S754_finite s m e =>
      let v := if s then Z.neg m else Z.pos m in
      Some (if 0 <=? e then (v * 2 ^ e ?= z) else (v ?= z * 2 ^ (- e)))
  end.

(** [a == b], [a >= b] and [a < b] on numbers: integers exactly, floats as
    IEEE 754 has it, an integer and a float by their exact values. *)
Definition num_eq (a b : num) : bool :=
  match a, b with
  | NInt x, NInt y => x =? y
  | NFloat x, NFloat y => PrimFloat.eqb x y
  | NFloat x, NInt y | NInt y, NFloat x =>
      match float_compare_Z x y with Some Eq => true | _ => false end
  end.

Definition num_ge (a b : num) : bool :=
  match a, b with
  | NInt x, NInt y => y <=? x
  | NFloat x, NFloat y => PrimFloat.leb y x
  | NFloat x, NInt y =>
      match float_compare_Z x y with Some Eq | Some Gt => true | _ => false end
  | NInt x, NFloat y =>
      match float_compare_Z y x with Some Eq | Some Lt => true | _ => false end
  end.

Definition num_lt (a b : num) : bool :=
  match a, b with
  | NInt x, NInt y => x <? y
  | NFloat x, NFloat y => PrimFloat.ltb x y
  | NFloat x, NInt y =>
      match float_compare_Z x y with Some Lt => true | _ => false end
  | NInt x, NFloat y =>
      match float_compare_Z y x with Some Gt => true | _ => false end
  end.

(** [a == b] *)
Fixpoint py_eq (a b : json) {struct a} : bool :=
  match a, b with
  | JNull, JNull => true
  | JStr s1, JStr s2 => String.eqb s1 s2
  | JArr l1, JArr l2 =>
      (fix eq_list (l1 l2 : list json) {struct l1} : bool :=
         match l1, l2 with
         | [], [] => true
         | x :: l1', y :: l2' => py_eq x y && eq_list l1' l2'
         | _, _ => false
         end) l1 l2
  | JObj d1, JObj d2 =>
      Nat.eqb (length d1) (length d2)
      && (fix sub (d : dict) : bool :=
            match d with
            | [] => true
            | (k, x) :: d' =>
                match dict_get k d2 with
                | Some y => py_eq x y
                | None => false
                end && sub d'
            end) d1
  | _, _ =>
      match as_num a, as_num b with
      | Some x, Some y => num_eq x y
      | _, _ => false
      end
  end.

Definition not_supported (op : string) (a b : json) : exn :=
  Exn TypeError ("'" ++ op ++ "' not supported between instances of '"
                 ++ py_type_name a ++ "' and '" ++ py_type_name b ++ "'").

(** [a >= b]: numbers among themselves, strings among themselves, lists
    among themselves by their first pair of unequal items; a [TypeError]
    otherwise. *)
Fixpoint py_ge (a b : json) {struct a} : res bool :=
  match a, b with
  | JStr s1, JStr s2 => Ok (String.leb s2 s1)
  | JArr l1, JArr l2 =>
      (fix ge_list (l1 l2 : list json) {struct l1} : res bool :=
         match l1, l2 with
         | [], [] => Ok true
         | [], _ :: _ => Ok false
         | _ :: _, [] => Ok true
         | x :: l1', y :: l2' => if py_eq x y then ge_list l1' l2' else py_ge x y
         end) l1 l2
  | _, _ =>
      match as_num a, as_num b with
      | Some x, Some y => Ok (num_ge x y)
      | _, _ => Raise (not_supported ">=" a b)
      end
  end.

(** [i < b] for an [int] [i] *)
Definition py_int_lt (i : Z) (b : json) : res bool :=
  match as_num b with
  | Some y => Ok (num_lt (NInt i) y)
  | None => Raise (not_supported "<" (JInt i) b)
  end.

(** [len(v)]; the length of a string is counted in the characters of the
    model, which are bytes. *)
Definition py_len (v : json) : res Z :=
  match v with
  | JStr s => Ok (Z.of_nat (String.length s))
  | JArr l => Ok (Z.of_nat (length l))
  | JObj d => Ok (Z.of_nat (length d))
  | _ => Raise (Exn TypeError ("object of type '" ++ py_type_name v
                               ++ "' has no len()"))
  end.

(** ** The state store

    Redis holds, under the key ["task:<task_id>"], the JSON text of the task
    record; [json.dumps] and [json.loads] are inverse on records, so the store
    is modelled as holding the records themselves. *)

Definition task_key (task_id : string) : string := "task:" ++ task_id.

(** [get_state] of [A2ACoordinator] and of [A2ABaseAgent]: the record, or
    [None] when the key is absent. *)
Definition get_state (redis : gmap string (gmap string json)) (task_id : string)
    : option (gmap string json) :=
  redis !! task_key task_id.

(** [self.get_state(task_id) or {}] *)
Definition state_or_empty (redis : gmap string (gmap string json))
    (task_id : string) : gmap string json :=
  match get_state redis task_id with
  | Some state => state
  | None => ∅
  end.

(** [update_state], the same method in [A2ACoordinator] and in
    [A2ABaseAgent]: read the record (or start from an empty one),
    [state.update(updates)], write it back. *)
Definition update_state (redis : gmap string (gmap string json))
    (task_id : string) (updates : gmap string json)
    : gmap string (gmap string json) :=
  let state := state_or_empty redis task_id in
  let state := updates ∪ state in
  <[task_key task_id := state]> redis.

(** [state.get(k, dflt)] on a task record *)
Definition state_get (state : gmap string json) (k : string) (dflt : json) : json :=
  match state !! k with Some v => v | None => dflt end.

(** [A2ACoordinator.should_continue].  A missing record makes [state] [None],
    and [state.get] raises. *)
Definition none_has_no_get : exn :=
  Exn AttributeError "'NoneType' object has no attribute 'get'".

Definition should_continue (redis : gmap string (gmap string json))
    (task_id : string) : res string :=
  match get_state redis task_id with
  | None => Raise none_has_no_get
  | Some state =>
      c1 ← py_ge (state_get state "iteration" (JInt 0))
                 (state_get state "max_iterations" (JInt 2));
      if c1 : bool then Ok "finalize" else
      c2 ← py_ge (state_get state "quality_score" (JInt 0)) (JFloat 0.8);
      if c2 : bool then Ok "finalize" else
      n ← py_len (state_get state "key_findings" (JArr []));
      if 10 <=? n then Ok "finalize" else
      Ok "continue"
  end.

(** ** [agents/a2a_base_agent.py]: the dispatch of an agent *)

(** What the agents and the coordinator share: the store, and the time of
    the externals. *)
Record Env : Type := { redis : gmap string (gmap string json); clock : nat }.

Definition tick (w : Env) : Env := {| redis := redis w; clock := S (clock w) |}.

Definition set_redis (w : Env) (r : gmap string (gmap string json)) : Env :=
  {| redis := r; clock := clock w |}.

(** The attributes that [A2ABaseAgent.__init__] sets. *)
Record AgentInfo : Type := {
  agent_id : string;
  name : string;
  role : string;
  expertise : string;
  temperature : float
}.

(** An [A2ABaseAgent]: its attributes and its two abstract methods. *)
Record A2ABaseAgent : Type := {
  info :> AgentInfo;
  get_capabilities : res (list A2ACapability);
  handle_action : string -> dict -> dict -> Env -> res dict * Env
}.

(** Effectful code of an agent: it runs in a world and leaves a world, with a
    value or with the exception it raised. *)
Definition M (A : Type) : Type := Env -> res A * Env.

Definition ret {A} (a : A) : M A := fun w => (Ok a, w).

Definition raise {A} (e : exn) : M A := fun w => (Raise e, w).

Definition bind {A B} (m : M A) (k : A -> M B) : M B :=
  fun w => match m w with
           | (Ok a, w') => k a w'
           | (Raise e, w') => (Raise e, w')
           end.

#[global] Instance M_ret : MRet M := @ret.
#[global] Instance M_bind : MBind M := fun A B k m => bind m k.

(** A pure computation that may raise. *)
Definition lift {A} (r : res A) : M A := fun w => (r, w).

Section Agent.
Context `{Externals}.

(** The helpers of [a2a_models.py] that build an envelope.  The constructor
    of [A2AMessage] takes [timestamp] from its default factory. *)
Definition new_message (message_id to_ from_ : string) (c : A2AContent)
    (reply : option string) (w : Env) : A2AMessage * Env :=
  ({| id := message_id; to := to_; from_agent := from_; content := c;
      reply_to := reply; timestamp := isoformat_now (clock w); metadata := [] |},
   tick w).

Definition create_action_request (message_id to_ from_ action : string)
    (parameters context : dict) (reply : option string) (w : Env)
    : A2AMessage * Env :=
  new_message message_id to_ from_ (A2AActionRequest action parameters context)
    reply w.

Definition create_action_response (message_id to_ from_ action : string)
    (result : dict) (status : MessageStatus) (error : option string)
    (reply : option string) (w : Env) : A2AMessage * Env :=
  new_message message_id to_ from_
    (A2AActionResponse action result status error []) reply w.

Definition create_error_message (message_id to_ from_ code message : string)
    (details : option dict) (reply : option string) (w : Env)
    : A2AMessage * Env :=
  new_message message_id to_ from_ (A2AError code message details) reply w.

(** [str(uuid.uuid4())] *)
Definition new_uuid (w : Env) : string * Env := (uuid4 (clock w), tick w).

(** [str(type(message.content))] *)
Definition content_class (c : A2AContent) : string :=
  "<class 'shared.a2a_models.A2A" ++ content_tag c ++ "'>".

Variable self : A2ABaseAgent.

(** [_handle_capability_request] *)
Definition _handle_capability_request (message : A2AMessage) (w : Env)
    : res A2AMessage * Env :=
  match get_capabilities self with
  | Raise e => (Raise e, w)
  | Ok capabilities =>
      let agent_info :=
        {| agent_info_id := agent_id self;
           agent_info_name := name self;
           agent_info_version := "1.0.0";
           agent_info_capabilities := capabilities;
           agent_info_metadata :=
             [("role", JStr (role self));
              ("expertise", JStr (expertise self));
              ("temperature", JFloat (temperature self))] |} in
      let '(message_id, w) := new_uuid w in
      let '(response, w) :=
        new_message message_id (from_agent message) (agent_id self)
          (A2ACapabilityResponse capabilities agent_info) (Some (id message)) w in
      (Ok response, w)
  end.

(** [_handle_action_request]: the handler runs inside [try]; whatever it
    raises is turned into a response with the status [failed]. *)
Definition _handle_action_request (message : A2AMessage) (action : string)
    (parameters context : dict) (w : Env) : res A2AMessage * Env :=
  match handle_action self action parameters context w with
  | (Ok result, w) =>
      let '(message_id, w) := new_uuid w in
      let '(response, w) :=
        create_action_response message_id (from_agent message) (agent_id self)
          action result COMPLETED None (Some (id message)) w in
      (Ok response, w)
  | (Raise e, w) =>
      let '(message_id, w) := new_uuid w in
      let '(response, w) :=
        create_action_response message_id (from_agent message) (agent_id self)
          action [] FAILED (Some (exn_str e)) (Some (id message)) w in
      (Ok response, w)
  end.

(** [process_message], the entry point of the protocol. *)
Definition process_message (message : A2AMessage) (w : Env) : A2AMessage * Env :=
  let '(r, w) :=
    match content message with
    | A2ACapabilityRequest => _handle_capability_request message w
    | A2AActionRequest action parameters context =>
        _handle_action_request message action parameters context w
    | c =>
        let '(message_id, w) := new_uuid w in
        let '(response, w) :=
          create_error_message message_id (from_agent message) (agent_id self)
            "UNSUPPORTED_MESSAGE_TYPE"
            ("Unsupported message content type: " ++ content_class c)
            None (Some (id message)) w in
        (Ok response, w)
    end in
  match r with
  | Ok response => (response, w)
  | Raise e =>
      let '(message_id, w) := new_uuid w in
      create_error_message message_id (from_agent message) (agent_id self)
        "PROCESSING_ERROR" (exn_str e) None (Some (id message)) w
  end.

(** What the HTTP endpoints answer: a status code and a JSON body. *)
Definition http_response : Type := Z * json.

(** The endpoint [POST /message] made by [create_app].  FastAPI validates
    the body as an [A2AMessage] before [receive_message] runs and answers a
    body that is not one with the status 422; the envelope returned is
    serialised by the aliases of its fields. *)
Definition receive_message (body : json) (w : Env) : http_response * Env :=
  let now := isoformat_now (clock w) in
  let w := tick w in
  match body with
  | JObj data =>
      match model_validate now data with
      | Valid message =>
          let '(response, w) := process_message message w in
          ((200, JObj (model_dump {| by_alias := true; exclude_none := false |}
                         response)), w)
      | Invalid errs =>
          ((422, JObj [("detail", validation_error_detail errs)]), w)
      end
  | _ =>
      ((422, JObj [("detail",
                    validation_error_detail
                      [ {| loc := [Key "body"]; err_type := model_type |} ])]), w)
  end.

End Agent.

(** ** The five agents *)

(** *** Strings: [strip], [split], [lstrip] *)

Definition nl : string := String (ascii_of_nat 10) "".

(** The ASCII characters that [str.strip] removes. *)
Definition py_isspace (c : ascii) : bool :=
  let n := nat_of_ascii c in
  (Nat.leb 9 n && Nat.leb n 13) || (Nat.leb 28 n && Nat.leb n 32).

Fixpoint drop_while {A} (p : A -> bool) (l : list A) : list A :=
  match l with
  | [] => []
  | x :: l' => if p x then drop_while p l' else l
  end.

(** [s.strip()] *)
Definition py_strip (s : string) : string :=
  let l := drop_while py_isspace (list_ascii_of_string s) in
  string_of_list_ascii (rev (drop_while py_isspace (rev l))).

(** [s.lstrip(chars)] *)
Definition py_lstrip (chars : string) (s : string) : string :=
  let inside c := existsb (Ascii.eqb c) (list_ascii_of_string chars) in
  string_of_list_ascii (drop_while inside (list_ascii_of_string s)).

Fixpoint split_at (sep : ascii) (cur : list ascii) (l : list ascii)
    : list string :=
  match l with
  | [] => [string_of_list_ascii (rev cur)]
  | c :: l' =>
      if Ascii.eqb c sep then string_of_list_ascii (rev cur) :: split_at sep [] l'
      else split_at sep (c :: cur) l'
  end.

(** [s.split('\n')] *)
Definition py_split_lines (s : string) : list string :=
  split_at (ascii_of_nat 10) [] (list_ascii_of_string s).

(** [[x.strip().lstrip('0123456789. ') for x in lines if x.strip()][:n]] of
    the lines of [response.strip()] *)
Definition numbered_lines (n : nat) (response : string) : list string :=
  let lines := py_split_lines (py_strip response) in
  firstn n (map (fun x => py_lstrip "0123456789. " (py_strip x))
                (filter (fun x => negb (String.eqb (py_strip x) "")) lines)).

(** *** Lists of the record *)

(** [v + l] for a list [l] *)
Definition py_add_list (v : json) (l : list json) : res json :=
  match v with
  | JArr l0 => Ok (JArr (l0 ++ l))
  | _ => Raise (Exn TypeError ("unsupported operand type(s) for +: '"
                               ++ py_type_name v ++ "' and 'list'"))
  end.

(** [v + 1] *)
Definition py_add_one (v : json) : res json :=
  match v with
  | JInt z => Ok (JInt (z + 1))
  | JBool b => Ok (JInt ((if b then 1 else 0) + 1))
  | JFloat f => Ok (JFloat (f + 1)%float)
  | _ => Raise (Exn TypeError ("unsupported operand type(s) for +: '"
                               ++ py_type_name v ++ "' and 'int'"))
  end.

(** [for x in v]: the items of a list, the characters of a string, the keys
    of a dict. *)
Definition py_iter (v : json) : res (list json) :=
  match v with
  | JArr l => Ok l
  | JStr s => Ok (map (fun c => JStr (String c "")) (list_ascii_of_string s))
  | JObj d => Ok (map (fun kv => JStr (fst kv)) d)
  | _ => Raise (Exn TypeError ("'" ++ py_type_name v ++ "' object is not iterable"))
  end.

(** [x in v] *)
Definition py_in (x v : json) : res bool :=
  match v with
  | JArr l => Ok (existsb (py_eq x) l)
  | JStr s =>
      match x with
      | JStr sub => Ok (match String.index 0 sub s with Some _ => true | None => false end)
      | _ => Raise (Exn TypeError ("'in <string>' requires string as left operand, not "
                                   ++ py_type_name x))
      end
  | JObj d =>
      match x with
      | JArr _ | JObj _ =>
          Raise (Exn TypeError ("unhashable type: '" ++ py_type_name x ++ "'"))
      | _ => Ok (existsb (fun kv => py_eq x (JStr (fst kv))) d)
      end
  | _ => Raise (Exn TypeError ("argument of type '" ++ py_type_name v
                               ++ "' is not iterable"))
  end.

Definition no_append (v : json) : exn :=
  Exn AttributeError ("'" ++ py_type_name v ++ "' object has no attribute 'append'").

(** [v.append(x)] *)
Definition py_append (v x : json) : res json :=
  match v with
  | JArr l => Ok (JArr (l ++ [x]))
  | _ => Raise (no_append v)
  end.

Section Agents.
Context `{Externals}.

(** *** What every agent inherits *)

(** [_build_system_prompt] *)
Definition system_prompt (self : AgentInfo) : string :=
  "You are " ++ name self ++ ", a specialized AI agent." ++ nl
  ++ "Role: " ++ role self ++ nl
  ++ "Expertise: " ++ expertise self ++ nl ++ nl
  ++ "You work as part of a multi-agent research system using the A2A protocol. "
  ++ nl ++ "Focus on your specific role and provide high-quality output.".

(** [invoke_llm] *)
Definition invoke_llm (self : AgentInfo) (p : prompt) : M string :=
  fun w => (llm_invoke (clock w) (system_prompt self) (temperature self) p, tick w).

(** [A2ABaseAgent.update_state] *)
Definition agent_update_state (task_id : string) (updates : gmap string json)
    : M unit :=
  fun w => (Ok tt, set_redis w (update_state (redis w) task_id updates)).

(** [add_log]: the entry is appended to [agent_logs] and the whole record is
    written back. *)
Definition add_log (self : AgentInfo) (task_id action : string) (data : dict)
    : M unit :=
  fun w =>
    let state := state_or_empty (redis w) task_id in
    let logs := state_get state "agent_logs" (JArr []) in
    let entry :=
      fold_left (fun d kv => dict_set (fst kv) (snd kv) d) data
        [("agent", JStr (name self));
         ("agent_id", JStr (agent_id self));
         ("action", JStr action);
         ("timestamp", JStr (isoformat_now (clock w)))] in
    let w := tick w in
    match py_append logs (JObj entry) with
    | Raise e => (Raise e, w)
    | Ok logs =>
        let state := <["agent_logs" := logs]> state in
        (Ok tt, set_redis w (<[task_key task_id := state]> (redis w)))
    end.

(** The opening of every action: the task identifier is read from the
    parameters and the record of the task from the store. *)
Definition load_task (parameters : dict) : M (string * gmap string json) :=
  fun w =>
    let task_id := get_or_none "task_id" parameters in
    if negb (py_truthy task_id) then
      (Raise (Exn ValueError "task_id is required"), w)
    else
      match get_state (redis w) (py_str task_id) with
      | Some state =>
          if bool_decide (state = ∅) then
            (Raise (Exn ValueError ("Task not found: " ++ py_str task_id)), w)
          else (Ok (py_str task_id, state), w)
      | None => (Raise (Exn ValueError ("Task not found: " ++ py_str task_id)), w)
      end.

Definition unknown_action {A} (action : string) : M A :=
  raise (Exn ValueError ("Unknown action: " ++ action)).

Definition json_of_len {A} (l : list A) : json := JInt (Z.of_nat (length l)).

(** *** [topic_refiner_a2a.py] *)

Definition topic_refiner_info : AgentInfo :=
  {| agent_id := "agent://topic-refiner";
     name := "Dr. Topic Refiner";
     role := "Research Topic Specialist";
     expertise := "Clarifying research objectives and scoping studies";
     temperature := 0.5 |}.

Definition task_id_parameter : string * json :=
  ("task_id", JObj [("type", JStr "string");
                    ("description", JStr "Unique task identifier");
                    ("required", JBool true)]).

Definition described (type description : string) : json :=
  JObj [("type", JStr type); ("description", JStr description)].

Definition topic_refiner_capabilities : list A2ACapability :=
  [ {| cap_name := "refine_topic";
       cap_description := "Refine and clarify a research topic";
       cap_parameters := [task_id_parameter];
       cap_returns :=
         [("refined_topic",
           described "string" "Refined and focused research topic")] |} ].

Definition _refine_topic (parameters context : dict) : M dict :=
  '(task_id, state) ← load_task parameters;
  let topic := state_get state "topic" (JStr "") in
  text ← invoke_llm topic_refiner_info (RefineTopicPrompt topic);
  let refined_topic := py_strip text in
  agent_update_state task_id
    {[ "topic" := JStr refined_topic;
       "status" := JStr "topic_refined";
       "current_agent" := JStr (name topic_refiner_info) ]};;
  add_log topic_refiner_info task_id "refined_topic"
    [("input", topic); ("output", JStr refined_topic)];;
  ret [("refined_topic", JStr refined_topic); ("original_topic", topic)].

Definition topic_refiner_handle_action (action : string)
    (parameters context : dict) : M dict :=
  if String.eqb action "refine_topic" then _refine_topic parameters context
  else unknown_action action.

Definition TopicRefinerAgent : A2ABaseAgent :=
  {| info := topic_refiner_info;
     get_capabilities := Ok topic_refiner_capabilities;
     handle_action := topic_refiner_handle_action |}.

(** *** [question_architect_a2a.py] *)

Definition question_architect_info : AgentInfo :=
  {| agent_id := "agent://question-architect";
     name := "Prof. Question Architect";
     role := "Research Question Designer";
     expertise := "Formulating precise, investigable research questions";
     temperature := 0.7 |}.

Definition question_architect_capabilities : list A2ACapability :=
  [ {| cap_name := "generate_questions";
       cap_description := "Generate specific research questions for a topic";
       cap_parameters := [task_id_parameter];
       cap_returns :=
         [("questions",
           JObj [("type", JStr "array");
                 ("description", JStr "List of research questions");
                 ("items", JObj [("type", JStr "string")])]);
          ("count", described "integer" "Number of questions generated")] |} ].

Definition _generate_questions (parameters context : dict) : M dict :=
  '(task_id, state) ← load_task parameters;
  let topic := state_get state "topic" (JStr "") in
  let iteration := state_get state "iteration" (JInt 0) in
  response ← invoke_llm question_architect_info
                (GenerateQuestionsPrompt topic iteration);
  let questions := numbered_lines 3 response in
  all_questions ← lift (py_add_list (state_get state "research_questions" (JArr []))
                           (map JStr questions));
  agent_update_state task_id
    {[ "research_questions" := all_questions;
       "status" := JStr "questions_generated";
       "current_agent" := JStr (name question_architect_info) ]};;
  add_log question_architect_info task_id "generated_questions"
    [("count", json_of_len questions); ("questions", JArr (map JStr questions))];;
  total ← lift (py_len all_questions);
  ret [("questions", JArr (map JStr questions));
       ("count", json_of_len questions);
       ("total_questions", JInt total)].

Definition question_architect_handle_action (action : string)
    (parameters context : dict) : M dict :=
  if String.eqb action "generate_questions"
  then _generate_questions parameters context
  else unknown_action action.

Definition QuestionArchitectAgent : A2ABaseAgent :=
  {| info := question_architect_info;
     get_capabilities := Ok question_architect_capabilities;
     handle_action := question_architect_handle_action |}.

(** *** [search_strategist_a2a.py] *)

Definition search_strategist_info : AgentInfo :=
  {| agent_id := "agent://search-strategist";
     name := "Agent Search Strategist";
     role := "Information Retrieval Specialist";
     expertise := "Designing search strategies and executing queries";
     temperature := 0.3 |}.

Definition search_strategist_capabilities : list A2ACapability :=
  [ {| cap_name := "execute_search";
       cap_description := "Execute web searches for research questions";
       cap_parameters :=
         [task_id_parameter;
          ("max_results",
           JObj [("type", JStr "integer");
                 ("description", JStr "Maximum results per query");
                 ("default", JInt 2)])];
       cap_returns :=
         [("results_count", described "integer" "Total number of results found");
          ("queries_processed", described "integer" "Number of queries processed")] |};
    {| cap_name := "optimize_query";
       cap_description := "Optimize a search query for better results";
       cap_parameters :=
         [("query", JObj [("type", JStr "string");
                          ("description", JStr "Query to optimize");
                          ("required", JBool true)])];
       cap_returns :=
         [("optimized_query", described "string" "Optimized search query")] |} ].

Definition _optimize_query (parameters context : dict) : M dict :=
  let query := get_or_none "query" parameters in
  if negb (py_truthy query) then raise (Exn ValueError "query is required") else
  text ← invoke_llm search_strategist_info (OptimizeQueryPrompt query);
  let optimized := py_strip text in
  ret [("optimized_query", JStr optimized); ("original_query", query)].

(** The lists and the counters that the loop of [_execute_search] updates. *)
Record search_progress : Type := {
  search_results : json;
  search_queries : json;
  new_results_count : Z;
  queries_processed : Z
}.

(** The entry that a result of the search leaves in [search_results]. *)
Definition format_result (result : dict) : json :=
  let title := get_or "title" (JStr "") result in
  let body := get_or "body" (JStr "") result in
  JStr ("**" ++ py_str title ++ "**" ++ nl ++ py_str body).

(** The body of the loop for one question.  The test [question not in
    search_queries] is outside the [try]; what the search or an [append]
    raises inside it is caught, and the loop goes on with what had been
    appended until then. *)
Definition search_question (max_results question : json) (p : search_progress)
    : M search_progress :=
  seen ← lift (py_in question (search_queries p));
  if seen : bool then ret p else
  fun w =>
    let found := ddgs_text (clock w) question max_results in
    let w := tick w in
    match found with
    | Raise _ => (Ok p, w)
    | Ok results =>
        match results, search_results p with
        | _ :: _, JArr l =>
            let p1 :=
              {| search_results := JArr (l ++ map format_result results);
                 search_queries := search_queries p;
                 new_results_count :=
                   new_results_count p + Z.of_nat (length results);
                 queries_processed := queries_processed p |} in
            match py_append (search_queries p) question with
            | Raise _ => (Ok p1, w)
            | Ok queries =>
                (Ok {| search_results := search_results p1;
                       search_queries := queries;
                       new_results_count := new_results_count p1;
                       queries_processed := queries_processed p + 1 |}, w)
            end
        | _ :: _, _ => (Ok p, w)
        | [], _ =>
            match py_append (search_queries p) question with
            | Raise _ => (Ok p, w)
            | Ok queries =>
                (Ok {| search_results := search_results p;
                       search_queries := queries;
                       new_results_count := new_results_count p;
                       queries_processed := queries_processed p + 1 |}, w)
            end
        end
    end.

Fixpoint search_questions (max_results : json) (questions : list json)
    (p : search_progress) : M search_progress :=
  match questions with
  | [] => ret p
  | question :: rest =>
      p ← search_question max_results question p;
      search_questions max_results rest p
  end.

Definition _execute_search (parameters context : dict) : M dict :=
  let max_results := get_or "max_results" (JInt 2) parameters in
  '(task_id, state) ← load_task parameters;
  questions ← lift (py_iter (state_get state "research_questions" (JArr [])));
  p ← search_questions max_results questions
        {| search_results := state_get state "search_results" (JArr []);
           search_queries := state_get state "search_queries" (JArr []);
           new_results_count := 0;
           queries_processed := 0 |};
  iteration ← lift (py_add_one (state_get state "iteration" (JInt 0)));
  agent_update_state task_id
    {[ "search_results" := search_results p;
       "search_queries" := search_queries p;
       "iteration" := iteration;
       "status" := JStr "search_completed";
       "current_agent" := JStr (name search_strategist_info) ]};;
  add_log search_strategist_info task_id "executed_searches"
    [("queries_processed", JInt (queries_processed p));
     ("new_results", JInt (new_results_count p))];;
  total ← lift (py_len (search_results p));
  ret [("results_count", JInt (new_results_count p));
       ("queries_processed", JInt (queries_processed p));
       ("total_results", JInt total)].

Definition search_strategist_handle_action (action : string)
    (parameters context : dict) : M dict :=
  if String.eqb action "execute_search" then _execute_search parameters context
  else if String.eqb action "optimize_query" then _optimize_query parameters context
  else unknown_action action.

Definition SearchStrategistAgent : A2ABaseAgent :=
  {| info := search_strategist_info;
     get_capabilities := Ok search_strategist_capabilities;
     handle_action := search_strategist_handle_action |}.

(** *** [data_analyst_a2a.py] *)

Definition data_analyst_info : AgentInfo :=
  {| agent_id := "agent://data-analyst";
     name := "Dr. Data Analyst";
     role := "Research Data Analyst";
     expertise := "Extracting insights and identifying patterns in research data";
     temperature := 0.4 |}.

Definition data_analyst_capabilities : list A2ACapability :=
  [ {| cap_name := "analyze_results";
       cap_description := "Analyze search results and extract key findings";
       cap_parameters := [task_id_parameter];
       cap_returns :=
         [("findings",
           JObj [("type", JStr "array");
                 ("description", JStr "Extracted key findings");
                 ("items", JObj [("type", JStr "string")])]);
          ("quality_score",
           described "number" "Quality score of the research (0-1)");
          ("findings_count",
           described "integer" "Number of findings extracted")] |} ].

(** [float(n)] of a length *)
Definition float_of_len (n : Z) : float := PrimFloat.of_uint63 (Uint63.of_Z n).

(** [min(len(findings) * 0.15 + len(search_results) * 0.02, 1.0)] *)
Definition quality_of (findings results : Z) : float :=
  let x := (float_of_len findings * 0.15 + float_of_len results * 0.02)%float in
  if PrimFloat.ltb 1 x then 1%float else x.

Definition _analyze_results (parameters context : dict) : M dict :=
  '(task_id, state) ← load_task parameters;
  let topic := state_get state "topic" (JStr "") in
  let search_results := state_get state "search_results" (JArr []) in
  '(findings, quality_score) ←
    (if negb (py_truthy search_results) then
       ret (["No data available for analysis"], 0%float)
     else
       response ← invoke_llm data_analyst_info
                    (AnalyzeResultsPrompt topic search_results);
       let findings := numbered_lines 5 response in
       n ← lift (py_len search_results);
       ret (findings, quality_of (Z.of_nat (length findings)) n));
  all_findings ← lift (py_add_list (state_get state "key_findings" (JArr []))
                         (map JStr findings));
  agent_update_state task_id
    {[ "key_findings" := all_findings;
       "quality_score" := JFloat quality_score;
       "status" := JStr "analysis_completed";
       "current_agent" := JStr (name data_analyst_info) ]};;
  add_log data_analyst_info task_id "analyzed_data"
    [("findings_extracted", json_of_len findings);
     ("quality_score", JFloat quality_score)];;
  total ← lift (py_len all_findings);
  ret [("findings", JArr (map JStr findings));
       ("quality_score", JFloat quality_score);
       ("findings_count", json_of_len findings);
       ("total_findings", JInt total)].

Definition data_analyst_handle_action (action : string)
    (parameters context : dict) : M dict :=
  if String.eqb action "analyze_results" then _analyze_results parameters context
  else unknown_action action.

Definition DataAnalystAgent : A2ABaseAgent :=
  {| info := data_analyst_info;
     get_capabilities := Ok data_analyst_capabilities;
     handle_action := data_analyst_handle_action |}.

(** *** [report_writer_a2a.py] *)

Definition report_writer_info : AgentInfo :=
  {| agent_id := "agent://report-writer";
     name := "Dr. Report Writer";
     role := "Research Report Specialist";
     expertise := "Synthesizing findings into clear, structured reports";
     temperature := 0.6 |}.

Definition report_writer_capabilities : list A2ACapability :=
  [ {| cap_name := "generate_report";
       cap_description := "Generate comprehensive research report";
       cap_parameters := [task_id_parameter];
       cap_returns :=
         [("report", described "string" "Formatted research report");
          ("report_length",
           described "integer" "Length of report in characters")] |} ].

Definition _generate_report (parameters context : dict) : M dict :=
  '(task_id, state) ← load_task parameters;
  text ← invoke_llm report_writer_info (GenerateReportPrompt state);
  footer ← (fun w => (report_footer (clock w) state, tick w));
  let report := text ++ footer in
  agent_update_state task_id
    {[ "final_report" := JStr report;
       "status" := JStr "report_completed";
       "current_agent" := JStr (name report_writer_info) ]};;
  add_log report_writer_info task_id "generated_report"
    [("report_length", JInt (Z.of_nat (String.length report)))];;
  ret [("report", JStr report);
       ("report_length", JInt (Z.of_nat (String.length report)))].

Definition report_writer_handle_action (action : string)
    (parameters context : dict) : M dict :=
  if String.eqb action "generate_report" then _generate_report parameters context
  else unknown_action action.

Definition ReportWriterAgent : A2ABaseAgent :=
  {| info := report_writer_info;
     get_capabilities := Ok report_writer_capabilities;
     handle_action := report_writer_handle_action |}.

End Agents.

(** ** [coordinator/coordinator_a2a.py]: the coordinator *)

(** What an observer of the coordinator sees it do, in order. *)
Inductive event : Type :=
| StateWrite (task_id : string) (updates : gmap string json)
| MessageSent (agent_uri : string) (message : A2AMessage)
| MessageReceived (agent_uri : string) (response : A2AMessage)
| Evaluated (state : option (gmap string json)) (decision : res string).

Record CState : Type := { env : Env; events : list event }.

(** How a call of the coordinator ends.  [Unfinished] is the loop of the
    workflow being cut short by the bound on its iterations that the model
    takes as an argument. *)
Inductive outcome (A : Type) : Type :=
| Returned (a : A)
| Raised (e : exn)
| Unfinished.
Arguments Returned {A} a.
Arguments Raised {A} e.
Arguments Unfinished {A}.

Definition C (A : Type) : Type := CState -> outcome A * CState.

Definition cbind {A B} (m : C A) (k : A -> C B) : C B :=
  fun s => match m s with
           | (Returned a, s') => k a s'
           | (Raised e, s') => (Raised e, s')
           | (Unfinished, s') => (Unfinished, s')
           end.

Definition cret {A} (a : A) : C A := fun s => (Returned a, s).

Notation "'let!' x ':=' m 'in' k" := (cbind m (fun x => k))
  (at level 10, x pattern, m at level 100, k at level 200).

Definition craise {A} (e : exn) : C A := fun s => (Raised e, s).

(** Code that uses the world and not the log. *)
Definition in_env {A} (m : M A) : C A :=
  fun s => match m (env s) with
           | (Ok a, w) => (Returned a, {| env := w; events := events s |})
           | (Raise e, w) => (Raised e, {| env := w; events := events s |})
           end.

Definition log (e : event) : C unit :=
  fun s => (Returned tt, {| env := env s; events := events s ++ [e] |}).

(** [try: body except Exception as e: handler(e)] *)
Definition try_except {A} (body : C A) (handler : exn -> C A) : C A :=
  fun s => match body s with
           | (Raised e, s') => handler e s'
           | r => r
           end.

(** [AGENT_URIS] *)
Definition AGENT_URIS (k : string) : string :=
  if String.eqb k "coordinator" then "agent://coordinator"
  else if String.eqb k "topic_refiner" then "agent://topic-refiner"
  else if String.eqb k "question_architect" then "agent://question-architect"
  else if String.eqb k "search_strategist" then "agent://search-strategist"
  else if String.eqb k "data_analyst" then "agent://data-analyst"
  else "agent://report-writer".

Section Coordinator.
Context `{Externals}.

(** [AGENT_SERVICES], as [_get_agent_services] returns it. *)
Definition AGENT_SERVICES : list (string * string) :=
  if local_environment then
    [("agent://coordinator", "http://localhost:8006");
     ("agent://topic-refiner", "http://localhost:8001");
     ("agent://question-architect", "http://localhost:8002");
     ("agent://search-strategist", "http://localhost:8003");
     ("agent://data-analyst", "http://localhost:8004");
     ("agent://report-writer", "http://localhost:8005")]
  else
    [("agent://coordinator", "http://coordinator-service:8006");
     ("agent://topic-refiner", "http://topic-refiner-service:8001");
     ("agent://question-architect", "http://question-architect-service:8002");
     ("agent://search-strategist", "http://search-strategist-service:8003");
     ("agent://data-analyst", "http://data-analyst-service:8004");
     ("agent://report-writer", "http://report-writer-service:8005")].

Fixpoint assoc (k : string) (l : list (string * string)) : option string :=
  match l with
  | [] => None
  | (k', v) :: l' => if String.eqb k k' then Some v else assoc k l'
  end.

(** The network and the services behind it: what [client.post(url, json=...)]
    does to the world and what it answers. *)
Variable post : string -> json -> Env -> res http_response * Env.

(** [send_message] *)
Definition send_message (agent_uri : string) (message : A2AMessage)
    : C A2AMessage :=
  match assoc agent_uri AGENT_SERVICES with
  | None => craise (Exn ValueError ("Unknown agent URI: " ++ agent_uri))
  | Some agent_url =>
      let url := agent_url ++ "/message" in
      try_except
        (let! _ := log (MessageSent agent_uri message) in
         let! (status_code, response_data) :=
           in_env (post url (JObj (message_dict message))) in
         (* [response.raise_for_status()] *)
         let! _ :=
           if (200 <=? status_code) && (status_code <? 300) then cret tt
           else craise (Exn HTTPStatusError (http_status_text status_code url)) in
         let! now := in_env (fun w => (Ok (isoformat_now (clock w)), tick w)) in
         match response_data with
         | JObj data =>
             match model_validate now data with
             | Valid response =>
                 let! _ := log (MessageReceived agent_uri response) in
                 cret response
             | Invalid errs =>
                 craise (Exn ValidationError (validation_error_text errs))
             end
         | _ =>
             craise (Exn TypeError
                       ("A2AMessage() argument after ** must be a mapping, not "
                        ++ py_type_name response_data))
         end)
        (fun e =>
           match exn_class_of e with
           | ConnectError =>
               craise (Exn Exception ("Cannot connect to agent " ++ agent_uri))
           | _ => craise e
           end)
  end.

(** [error or "Action failed"] *)
Definition error_or_default (error : option string) : string :=
  match error with
  | Some e => if py_truthy (JStr e) then e else "Action failed"
  | None => "Action failed"
  end.

(** What [call_agent_action] makes of the response: the result of a
    completed action, and an exception for anything else. *)
Definition response_result (agent_uri action : string) (response : A2AMessage)
    : outcome dict :=
  match content response with
  | A2AActionResponse _ result status error _ =>
      match status with
      | COMPLETED => Returned result
      | _ =>
          Raised (Exn Exception ("Action " ++ action ++ " failed: "
                                 ++ error_or_default error))
      end
  | A2AError _ message _ => Raised (Exn Exception ("Agent error: " ++ message))
  | A2AStatusUpdate status _ _ =>
      (* the fallback on [__dict__]: the object has a [status] and neither a
         [result] nor an [error] *)
      match status with
      | COMPLETED => Returned []
      | _ => Raised (Exn Exception ("Action " ++ action ++ " failed: Action failed"))
      end
  | c =>
      Raised (Exn Exception
                ("Unexpected response type from " ++ agent_uri
                 ++ ". Content type: " ++ content_class c
                 ++ ", Content: " ++ content_text c))
  end.

(** The request that [call_agent_action] creates. *)
Definition action_request (agent_uri action : string) (parameters : dict)
    : C A2AMessage :=
  in_env (fun w =>
    let '(message_id, w) := new_uuid w in
    let '(message, w) :=
      create_action_request message_id agent_uri (AGENT_URIS "coordinator")
        action parameters [] None w in
    (Ok message, w)).

(** [call_agent_action] *)
Definition call_agent_action (agent_uri action : string) (parameters : dict)
    : C dict :=
  let! message := action_request agent_uri action parameters in
  let! response := send_message agent_uri message in
  fun s => (response_result agent_uri action response, s).

(** [A2ACoordinator.update_state] *)
Definition coordinator_update_state (task_id : string)
    (updates : gmap string json) : C unit :=
  fun s =>
    (Returned tt,
     {| env := set_redis (env s) (update_state (redis (env s)) task_id updates);
        events := events s ++ [StateWrite task_id updates] |}).

(** [await self.should_continue(task_id)], as the workflow calls it. *)
Definition coordinator_should_continue (task_id : string) : C string :=
  fun s =>
    let decision := should_continue (redis (env s)) task_id in
    let s' := {| env := env s;
                 events := events s
                           ++ [Evaluated (get_state (redis (env s)) task_id)
                                 decision] |} in
    match decision with
    | Ok d => (Returned d, s')
    | Raise e => (Raised e, s')
    end.

(** One step of the pipeline: the status and the agent about to run are
    written to the record, then the agent is called. *)
Definition pipeline_step (task_id status current_agent agent action : string)
    (parameters : dict) : C dict :=
  let! _ :=
    coordinator_update_state task_id
      {[ "status" := JStr status; "current_agent" := JStr current_agent ]} in
  call_agent_action (AGENT_URIS agent) action parameters.

(** [v[:50]] inside a [print]: only whether it raises matters. *)
Definition check_slice (v : json) : C unit :=
  match v with
  | JStr _ | JArr _ => cret tt
  | _ => craise (Exn TypeError ("'" ++ py_type_name v
                                ++ "' object is not subscriptable"))
  end.

(** [f"{v:.2f}"] inside a [print]: only whether it raises matters. *)
Definition check_format_2f (v : json) : C unit :=
  match v with
  | JInt _ | JFloat _ | JBool _ => cret tt
  | JStr _ =>
      craise (Exn ValueError "Unknown format code 'f' for object of type 'str'")
  | _ =>
      craise (Exn TypeError ("unsupported format string passed to "
                             ++ py_type_name v ++ ".__format__"))
  end.

(** The main research loop, [while iteration < max_iterations].  Each turn
    of the loop takes one unit of [fuel]. *)
Fixpoint research_loop (fuel : nat) (task_id : string) (iteration : Z)
    (max_iterations : json) : C unit :=
  let! go_on := in_env (lift (py_int_lt iteration max_iterations)) in
  if go_on : bool then
    match fuel with
    | O => fun s => (Unfinished, s)
    | S fuel =>
        let! _ :=
          pipeline_step task_id "generating_questions" "Prof. Question Architect"
            "question_architect" "generate_questions"
            [("task_id", JStr task_id)] in
        let! _ :=
          pipeline_step task_id "searching" "Agent Search Strategist"
            "search_strategist" "execute_search"
            [("task_id", JStr task_id); ("max_results", JInt 2)] in
        let! result :=
          pipeline_step task_id "analyzing" "Dr. Data Analyst"
            "data_analyst" "analyze_results" [("task_id", JStr task_id)] in
        let! _ := check_format_2f (get_or "quality_score" (JInt 0) result) in
        let! decision := coordinator_should_continue task_id in
        if String.eqb decision "finalize" then cret tt
        else research_loop fuel task_id (iteration + 1) max_iterations
    end
  else cret tt.

(** The [try] block of [run_workflow]. *)
Definition workflow_body (fuel : nat) (task_id : string) : C dict :=
  let! state := (fun s => (Returned (get_state (redis (env s)) task_id), s)) in
  let! result :=
    pipeline_step task_id "refining_topic" "Dr. Topic Refiner"
      "topic_refiner" "refine_topic" [("task_id", JStr task_id)] in
  let! _ := check_slice (get_or "refined_topic" (JStr "") result) in
  let! max_iterations :=
    match state with
    | Some state => cret (state_get state "max_iterations" (JInt 2))
    | None => craise none_has_no_get
    end in
  let! _ := research_loop fuel task_id 0 max_iterations in
  let! _ :=
    pipeline_step task_id "generating_report" "Dr. Report Writer"
      "report_writer" "generate_report" [("task_id", JStr task_id)] in
  let! _ :=
    coordinator_update_state task_id {[ "status" := JStr "completed" ]} in
  cret [("success", JBool true); ("task_id", JStr task_id)].

(** The [except Exception as e] block of [run_workflow]. *)
Definition workflow_failed (task_id : string) (e : exn) : C dict :=
  let error_msg := "Workflow error: " ++ exn_str e in
  let! _ :=
    coordinator_update_state task_id
      {[ "status" := JStr "failed"; "error" := JStr error_msg ]} in
  cret [("success", JBool false); ("error", JStr error_msg)].

(** [run_workflow] *)
Definition run_workflow (fuel : nat) (task_id : string) : C dict :=
  try_except (workflow_body fuel task_id) (workflow_failed task_id).

(** The record that [start_research] stores for a new task. *)
Definition initial_state (task_id topic : string) (max_iterations : Z)
    : gmap string json :=
  list_to_map
    [("task_id", JStr task_id);
     ("original_topic", JStr topic);
     ("topic", JStr topic);
     ("research_questions", JArr []);
     ("search_queries", JArr []);
     ("search_results", JArr []);
     ("key_findings", JArr []);
     ("iteration", JInt 0);
     ("max_iterations", JInt max_iterations);
     ("quality_score", JFloat 0);
     ("final_report", JStr "");
     ("status", JStr "initialized");
     ("current_agent", JStr "");
     ("agent_logs", JArr []);
     ("error", JNull);
     ("protocol", JStr "A2A v1.0")].

End Coordinator.

(** ** The system: the coordinator, the network and the five services *)

Section System.
Context `{Externals}.

(** The services, by the URI of their agent. *)
Definition services : list (string * A2ABaseAgent) :=
  [("agent://topic-refiner", TopicRefinerAgent);
   ("agent://question-architect", QuestionArchitectAgent);
   ("agent://search-strategist", SearchStrategistAgent);
   ("agent://data-analyst", DataAnalystAgent);
   ("agent://report-writer", ReportWriterAgent)].

(** The agent whose endpoint [/message] the URL names. *)
Fixpoint service_at (url : string) (l : list (string * A2ABaseAgent))
    : option A2ABaseAgent :=
  match l with
  | [] => None
  | (uri, agent) :: l' =>
      match assoc uri AGENT_SERVICES with
      | Some agent_url =>
          if String.eqb url (agent_url ++ "/message") then Some agent
          else service_at url l'
      | None => service_at url l'
      end
  end.

(** A POST over the network: it may fail before it is delivered; delivered to
    the endpoint of an agent it is handled by [receive_message]; the answer
    may be lost on its way back. *)
Definition http_post (url : string) (body : json) : M http_response :=
  fun w =>
    match connect_fault (clock w) url with
    | Some e => (Raise e, tick w)
    | None =>
        let w := tick w in
        match service_at url services with
        | None =>
            (* the coordinator has no such endpoint; nothing listens at any
               other address *)
            match assoc "agent://coordinator" AGENT_SERVICES with
            | Some coordinator_url =>
                if String.eqb url (coordinator_url ++ "/message")
                then (Ok (404, JObj [("detail", JStr "Not Found")]), w)
                else (Raise (Exn ConnectError "All connection attempts failed"), w)
            | None => (Raise (Exn ConnectError "All connection attempts failed"), w)
            end
        | Some agent =>
            let '(response, w) := receive_message agent body w in
            match response_fault (clock w) url with
            | Some e => (Raise e, tick w)
            | None => (Ok response, tick w)
            end
        end
    end.

End System.

(** ** Vocabulary of the properties *)

(** The action tables of the five agents. *)
Definition action_table (agent_uri : string) : list string :=
  if String.eqb agent_uri "agent://topic-refiner" then ["refine_topic"]
  else if String.eqb agent_uri "agent://question-architect" then ["generate_questions"]
  else if String.eqb agent_uri "agent://search-strategist"
       then ["execute_search"; "optimize_query"]
  else if String.eqb agent_uri "agent://data-analyst" then ["analyze_results"]
  else if String.eqb agent_uri "agent://report-writer" then ["generate_report"]
  else [].


(** The five steps of the pipeline: the status and the agent name that the
    coordinator writes, the agent it calls and the action it asks for. *)
Definition pipeline : list (string * string * string * string) :=
  [("refining_topic", "Dr. Topic Refiner", "topic_refiner", "refine_topic");
   ("generating_questions", "Prof. Question Architect", "question_architect",
    "generate_questions");
   ("searching", "Agent Search Strategist", "search_strategist", "execute_search");
   ("analyzing", "Dr. Data Analyst", "data_analyst", "analyze_results");
   ("generating_report", "Dr. Report Writer", "report_writer", "generate_report")].

Definition is_sent (e : event) : bool :=
  match e with MessageSent _ _ => true | _ => false end.

(** An [ActionResponse] with the status [failed]. *)
Definition is_failed (response : A2AMessage) : bool :=
  match content response with
  | A2AActionResponse _ _ FAILED _ _ => true
  | _ => false
  end.

(** The records that the evaluations of [should_continue] read, in order. *)
Fixpoint evaluations (d : list event) : list (option (gmap string json)) :=
  match d with
  | [] => []
  | Evaluated state _ :: d' => state :: evaluations d'
  | _ :: d' => evaluations d'
  end.

(** A call of the coordinator adds events to the log; [emits Q m] says that
    the outcome of [m] and the events it adds satisfy [Q], from every
    state. *)
Definition emits {A} (Q : outcome A -> list event -> Prop) (m : C A) : Prop :=
  forall s, exists d, events (snd (m s)) = (events s ++ d)%list /\ Q (fst (m s)) d.

(** Every message sent comes right after the write of a step of the pipeline:
    the status of the step and the name of its agent, for the task; and the
    message asks the agent of that step for the action of that step. *)
Definition sends_follow_writes (task_id : string) (d : list event) : Prop :=
  forall pre agent_uri message rest,
    d = (pre ++ MessageSent agent_uri message :: rest)%list ->
    exists pre' status current_agent agent action parameters context,
      pre = (pre' ++ [StateWrite task_id
                        {[ "status" := JStr status;
                           "current_agent" := JStr current_agent ]}])%list
      /\ In (status, current_agent, agent, action) pipeline
      /\ agent_uri = AGENT_URIS agent
      /\ content message = A2AActionRequest action parameters context.

(** A failed response is the last thing that happens in a call, and the call
    raises. *)
Definition stops_at_failure {A} (o : outcome A) (d : list event) : Prop :=
  forall pre agent_uri response rest,
    d = (pre ++ MessageReceived agent_uri response :: rest)%list ->
    is_failed response = true ->
    rest = [] /\ exists e, o = Raised e.

(** The value stored under ["iteration"] in the record of a task. *)
Definition iteration_of (r : gmap string (gmap string json)) (task_id : string)
    : option json :=
  match get_state r task_id with
  | Some state => state !! "iteration"
  | None => None
  end.

(** Code of an agent that leaves the ["iteration"] of every task as it
    was. *)
Definition keeps_iteration {A} (m : M A) : Prop :=
  forall w task_id,
    iteration_of (redis (snd (m w))) task_id = iteration_of (redis w) task_id.

(** The agent that the coordinator reaches under a key of [AGENT_URIS]. *)
Definition agent_for `{Externals} (agent : string) : A2ABaseAgent :=
  if String.eqb agent "topic_refiner" then TopicRefinerAgent
  else if String.eqb agent "question_architect" then QuestionArchitectAgent
  else if String.eqb agent "search_strategist" then SearchStrategistAgent
  else if String.eqb agent "data_analyst" then DataAnalystAgent
  else ReportWriterAgent.

(** The evaluations of [should_continue] found in [d] read a counter that
    stands at [n + 1], [n + 2], ... *)
Definition counted (n : Z) (d : list event) : Prop :=
  forall (k : nat) snapshot,
    evaluations d !! k = Some snapshot ->
    exists state : gmap string json,
      snapshot = Some state
      /\ state !! "iteration" = Some (JInt (n + Z.of_nat k + 1)).

Section Vocabulary.
Context `{Externals}.

(** The events of [send_message]: nothing when the URI is unknown; else the
    message sent and, when an envelope came back, the message received. *)
Definition sent_and_received (agent_uri : string) (message : A2AMessage)
    (o : outcome A2AMessage) (d : list event) : Prop :=
  ((d = [] \/ d = [MessageSent agent_uri message]) /\ exists e, o = Raised e)
  \/ exists response,
       d = [MessageSent agent_uri message; MessageReceived agent_uri response]
       /\ o = Returned response.

(** The events of [call_agent_action]. *)
Definition called (agent_uri action : string) (parameters : dict)
    (o : outcome dict) (d : list event) : Prop :=
  exists message,
    content message = A2AActionRequest action parameters []
    /\ (((d = [] \/ d = [MessageSent agent_uri message]) /\ exists e, o = Raised e)
        \/ exists response,
             d = [MessageSent agent_uri message;
                  MessageReceived agent_uri response]
             /\ o = response_result agent_uri action response).

(** The events of a step of the pipeline: the write, then those of the
    call. *)
Definition stepped (task_id status current_agent agent action : string)
    (parameters : dict) (o : outcome dict) (d : list event) : Prop :=
  exists d',
    d = StateWrite task_id
          {[ "status" := JStr status; "current_agent" := JStr current_agent ]}
        :: d'
    /\ called (AGENT_URIS agent) action parameters o d'.

(** [sends_follow_writes], as a property of a call. *)
Definition follows (task_id : string) {A} (_ : outcome A) (d : list event) : Prop :=
  sends_follow_writes task_id d.

(** No write of the coordinator sets ["iteration"]. *)
Definition spares_iteration {A} (_ : outcome A) (d : list event) : Prop :=
  forall t u, In (StateWrite t u) d -> u !! "iteration" = None.

(** The keys of [AGENT_URIS] under which the coordinator calls an agent. *)
Definition agent_keys : list string :=
  ["topic_refiner"; "question_architect"; "search_strategist"; "data_analyst";
   "report_writer"].

(** The content of the response to an action request, by what the handler
    did. *)
Definition action_response (action : string) (r : res dict) : A2AContent :=
  match r with
  | Ok result => A2AActionResponse action result COMPLETED None []
  | Raise e => A2AActionResponse action [] FAILED (Some (exn_str e)) []
  end.

(** A call that ends: it returns or raises. *)
Definition finished {A} (o : outcome A) (_ : list event) : Prop :=
  o <> Unfinished.

End Vocabulary.

(** What [/message] answered, read as an envelope when it is one. *)
Definition answered_envelope `{Externals} (now : string) (answer : http_response)
    : option A2AMessage :=
  match answer with
  | (200, JObj data) =>
      match model_validate now data with
      | Valid m => Some m
      | Invalid _ => None
      end
  | _ => None
  end.

(** ** Further vocabulary *)

(** The validation failed, and this is one of its errors. *)
Definition has_error {A} (e : line_error) (v : validation A) : Prop :=
  exists errs, v = Invalid errs /\ In e errs.

(** The number of messages sent that a log records. *)
Definition count_sends (d : list event) : nat := length (filter is_sent d).

(** A call that evaluates [should_continue] at most [e] times and sends at
    most [n] messages. *)
Definition within (e n : nat) {A} (_ : outcome A) (d : list event) : Prop :=
  (length (evaluations d) <= e)%nat /\ (count_sends d <= n)%nat.

(** A log without an evaluation of [should_continue]. *)
Definition no_evaluation (d : list event) : Prop :=
  forall state decision, ~ In (Evaluated state decision) d.

(** What holds of the outcome of a call and of the events that follow a
    decision to finalize in it. *)
Definition after_finalize {A} (P : outcome A -> list event -> Prop)
    (o : outcome A) (d : list event) : Prop :=
  forall pre state rest,
    d = (pre ++ Evaluated state (Ok "finalize") :: rest)%list -> P o rest.

(** The decision to finalize is the last thing that happens in the research
    loop, and the loop returns. *)
Definition ends_loop (o : outcome unit) (rest : list event) : Prop :=
  rest = [] /\ o = Returned tt.

(** What is left to happen once the research is over: no evaluation, and
    requests to the report writer for its report only. *)
Definition reports_only (d : list event) : Prop :=
  no_evaluation d
  /\ forall agent_uri message,
       In (MessageSent agent_uri message) d ->
       agent_uri = AGENT_URIS "report_writer"
       /\ exists parameters context,
            content message
            = A2AActionRequest "generate_report" parameters context.

(** The value stored under the key [k] in the record of a task. *)
Definition field_of (r : gmap string (gmap string json)) (task_id k : string)
    : option json :=
  match get_state r task_id with
  | Some state => state !! k
  | None => None
  end.

(** The keys of a task record that the coordinator and the agents write. *)
Definition written_keys : list string :=
  ["status"; "current_agent"; "error"; "topic"; "research_questions";
   "search_results"; "search_queries"; "iteration"; "key_findings";
   "quality_score"; "final_report"; "agent_logs"].

(** From the store [r] to the store [r'], nothing changed but the written
    keys of the record of the task. *)
Definition untouched (task_id : string) (r r' : gmap string (gmap string json))
    : Prop :=
  (forall t, t <> task_id -> get_state r' t = get_state r t)
  /\ (forall k, ~ In k written_keys ->
        field_of r' task_id k = field_of r task_id k).

(** Code of an agent that changes nothing but the written keys of the record
    of the task. *)
Definition confined (task_id : string) {A} (m : M A) : Prop :=
  forall w, untouched task_id (redis w) (redis (snd (m w))).

(** The task that a handler works on. *)
Definition task_of `{Externals} (parameters : dict) : string :=
  py_str (get_or_none "task_id" parameters).

(** The entry that [add_log] appends for the data given. *)
Definition log_entry (self : AgentInfo) (action now : string) (data : dict)
    : dict :=
  fold_left (fun d kv => dict_set (fst kv) (snd kv) d) data
    [("agent", JStr (name self));
     ("agent_id", JStr (agent_id self));
     ("action", JStr action);
     ("timestamp", JStr now)].

(** A call of the coordinator that changes nothing but the written keys of
    the record of the task. *)
Definition leaves (task_id : string) {A} (m : C A) : Prop :=
  forall s, untouched task_id (redis (env s)) (redis (env (snd (m s)))).

(** ** [coordinator/coordinator_a2a.py]: the endpoints of the coordinator *)

Section Endpoints.
Context `{Externals}.
Variable post : string -> json -> Env -> res http_response * Env.

(** [start_research], up to the task that it creates for the workflow: the
    record of a new task is stored, and the identifier of the task is
    answered. *)
Definition start_research (topic : string) (max_iterations : Z)
    : C (string * dict) :=
  let! task_id := in_env (fun w => let '(u, w) := new_uuid w in (Ok u, w)) in
  let! _ :=
    coordinator_update_state task_id
      (initial_state task_id topic max_iterations) in
  cret (task_id,
        [("task_id", JStr task_id);
         ("status", JStr "started");
         ("protocol", JStr "A2A");
         ("message",
          JStr "Research task started. Use /task/{task_id} to check progress.")]).

(** The task that [start_research] creates, [run_workflow(task_id)], run to
    its end after the answer of [start_research]. *)
Definition research_task (fuel : nat) (topic : string) (max_iterations : Z)
    : C (string * dict) :=
  let! (task_id, _) := start_research topic max_iterations in
  let! result := run_workflow post fuel task_id in
  cret (task_id, result).

(** [get_task_status]: the record of the task, or the status 404 with its
    detail when there is none (or an empty one). *)
Definition get_task_status (r : gmap string (gmap string json))
    (task_id : string) : gmap string json + Z * string :=
  match get_state r task_id with
  | Some state =>
      if bool_decide (state = ∅) then inr (404, "Task not found")
      else inl state
  | None => inr (404, "Task not found")
  end.

End Endpoints.

(** Every evaluation in the log read the record of the task in a store that
    differs from [r0] in nothing but the written keys of that record, and
    decided as [should_continue] decides in that store. *)
Definition evaluated_from (task_id : string)
    (r0 : gmap string (gmap string json)) (d : list event) : Prop :=
  forall state decision,
    In (Evaluated state decision) d ->
    exists r,
      untouched task_id r0 r
      /\ state = get_state r task_id
      /\ decision = should_continue r task_id.

(** A call of the coordinator, by what it adds to the log and what it does
    to the store at once. *)
Definition tracks (task_id : string) {A} (m : C A) : Prop :=
  forall s,
    exists d,
      events (snd (m s)) = (events s ++ d)%list
      /\ untouched task_id (redis (env s)) (redis (env (snd (m s))))
      /\ evaluated_from task_id (redis (env s)) d.

(** A runtime with nothing in it, for the concrete examples: every text is
    empty, the model answers with the empty string and the search finds
    nothing. *)
Definition plain_externals : Externals :=
  {| py_repr := fun _ => "";
     validation_error_text := fun _ => "";
     validation_error_detail := fun _ => JArr [];
     http_status_text := fun _ _ => "";
     uuid4 := fun _ => "";
     isoformat_now := fun _ => "";
     llm_invoke := fun _ _ _ _ => Ok "";
     ddgs_text := fun _ _ _ => Ok [];
     report_footer := fun _ _ => Ok "";
     local_environment := true;
     content_text := fun _ => "";
     connect_fault := fun _ _ => None;
     response_fault := fun _ _ => None |}.


(** *** Sample values *)

(** An envelope whose [reply_to] is the empty string. *)
Definition empty_reply : A2AMessage :=
  {| id := "m-2"; to := "agent://coordinator"; from_agent := "agent://data-analyst";
     content := A2ACapabilityRequest; reply_to := Some ""; timestamp := "t";
     metadata := [] |}.

(** A status update half way through, in reply to a message. *)
Definition sample_update : A2AMessage :=
  {| id := "m-3"; to := "agent://coordinator"; from_agent := "agent://data-analyst";
     content := A2AStatusUpdate PROCESSING (Some 0.5%float) None;
     reply_to := Some "m-1"; timestamp := "t"; metadata := [] |}.

(** A request for an action that the data analyst does not have. *)
Definition sample_request : A2AMessage :=
  {| id := "m-1"; to := "agent://data-analyst"; from_agent := "agent://coordinator";
     content := A2AActionRequest "summarize" [("task_id", JStr "t1")] [];
     reply_to := None; timestamp := "t"; metadata := [] |}.

(** A body whose content carries no discriminator. *)
Definition untagged_body : dict :=
  [("id", JStr "m-1"); ("to", JStr "agent://topic-refiner");
   ("from", JStr "agent://coordinator");
   ("content", JObj [("action", JStr "refine_topic")])].

(** The record of a task after one iteration with a quality of 0.85. *)
Definition sample_state : gmap string json :=
  {[ "iteration" := JInt 1; "max_iterations" := JInt 3;
     "quality_score" := JFloat 0.85; "key_findings" := JArr [JStr "a finding"] ]}.

Definition sample_redis : gmap string (gmap string json) :=
  {[ task_key "t1" := sample_state ]}.

Definition sample_env : Env := {| redis := sample_redis; clock := 0 |}.

(** A task as [start_research] stores it, for the topic "cars" and one
    iteration, and the coordinator about to run its workflow. *)
Definition started_redis : gmap string (gmap string json) :=
  update_state ∅ "t1" (initial_state "t1" "cars" 1).

Definition started : CState :=
  {| env := {| redis := started_redis; clock := 0 |}; events := [] |}.

(** A network on which no connection can be made. *)
Definition no_network (url : string) (body : json) (w : Env)
    : res http_response * Env :=
  (Raise (Exn ConnectError "All connection attempts failed"), w).

(** The record of a task with one question to search for. *)
Definition asking_state : gmap string json :=
  {[ "research_questions" := JArr [JStr "how far"]; "iteration" := JInt 0 ]}.

Definition asking_env : Env :=
  {| redis := {[ task_key "t1" := asking_state ]}; clock := 0 |}.

(** A body with an [id] and nothing else. *)
Definition id_only_body : dict := [("id", JStr "m-1")].
(** * Properties *)

(** ** Encoding and decoding of envelopes *)

Section ModelsFacts.
Context `{Externals}.

Lemma to_jsonable_compatible (v : json) :
  json_compatible v = true -> to_jsonable v = v.
Proof.
  revert v. fix IH 1. intros [ | b | z | f | s | l | d ]; simpl; intros Hc;
    try reflexivity.
  - rewrite Hc. reflexivity.
  - f_equal. induction l as [|x l IHl]; simpl in *; [reflexivity|].
    apply andb_true_iff in Hc as [Hx Hl].
    rewrite (IH x Hx), (IHl Hl). reflexivity.
  - f_equal. induction d as [|[k x] d IHd]; simpl in *; [reflexivity|].
    apply andb_true_iff in Hc as [Hx Hd].
    rewrite (IH x Hx), (IHd Hd). reflexivity.
Qed.

Lemma to_jsonable_dict (d : dict) :
  dict_compatible d = true ->
  map (fun kv : string * json => let '(k, x) := kv in (k, to_jsonable x)) d = d.
Proof.
  intros Hd. pose proof (to_jsonable_compatible (JObj d) Hd) as E.
  simpl in E. congruence.
Qed.

Lemma capability_roundtrip (c : A2ACapability) :
  capability_val (dump_capability c) = Valid c.
Proof. destruct c. reflexivity. Qed.

Lemma capabilities_roundtrip (l : list A2ACapability) (i : nat) :
  list_items capability_val i (map dump_capability l) = Valid l.
Proof.
  revert i. induction l as [|c l IH]; intros i; simpl; [reflexivity|].
  rewrite IH. destruct c. reflexivity.
Qed.

Lemma agent_roundtrip (a : A2AAgent) : agent_val (dump_agent a) = Valid a.
Proof.
  destruct a as [i n v caps md].
  unfold agent_val, dump_agent, required, with_default, field. simpl.
  rewrite capabilities_roundtrip. reflexivity.
Qed.

Lemma content_roundtrip (kw : dump_kwargs) (c : A2AContent) :
  valid_content c = true ->
  parse_content (JObj (content_model_dump kw c)) = Valid c.
Proof.
  intros Hv.
  destruct kw as [[] []],
    c as [a p ctx|a r [] [e|] md| |caps ag|cd m [d|]|[] [p|] [m|]].
  all: try reflexivity.
  all: try (apply andb_true_iff in Hv as [Hge Hle];
            cbv [parse_content discriminator content_model_dump type_key
                 by_alias exclude_none content_tag get_or_none py_or py_truthy
                 dict_get is_str String.eqb Ascii.eqb Bool.eqb negb
                 validate_StatusUpdate required with_default type_field field
                 dump_optional fmap option_fmap option_map app status_value
                 optional_val progress_val];
            simpl; rewrite Hge, Hle; reflexivity).
  all: unfold parse_content, discriminator, validate_CapabilityResponse,
         required, with_default, type_field, field, list_val;
       cbn -[agent_val dump_agent list_items];
       rewrite capabilities_roundtrip, agent_roundtrip; reflexivity.
Qed.

Lemma unit_interval_finite (f : float) :
  PrimFloat.leb 0%float f = true -> PrimFloat.leb f 1%float = true ->
  PrimFloat.is_finite f = true.
Proof.
  unfold PrimFloat.is_finite, PrimFloat.is_nan, PrimFloat.is_infinity.
  rewrite !FloatAxioms.leb_spec, !FloatAxioms.eqb_spec, FloatAxioms.abs_spec.
  change (Prim2SF 0%float) with (S754_zero false).
  change (Prim2SF infinity) with (S754_infinity false).
  replace (Prim2SF 1%float) with (S754_finite false 4503599627370496 (-52))
    by (vm_compute; reflexivity).
  destruct (Prim2SF f) as [s|s| |s m e]; simpl.
  - intros _ _. destruct s; reflexivity.
  - destruct s; cbv; congruence.
  - cbv; congruence.
  - intros _ _. unfold SFeqb, SFcompare.
    destruct s; rewrite Z.compare_refl; simpl; rewrite ?Pos.compare_cont_refl;
      rewrite ?Pos.compare_refl; reflexivity.
Qed.

Lemma dump_capabilities_compatible (caps : list A2ACapability) :
  forallb capability_compatible caps = true ->
  forallb json_compatible (map dump_capability caps) = true.
Proof.
  induction caps as [|c caps IH]; simpl; [reflexivity|].
  intros [Hc Hl]%andb_true_iff. rewrite (IH Hl).
  apply andb_true_iff in Hc as [Hp Hr].
  unfold dict_compatible in Hp, Hr. simpl in Hp, Hr. rewrite Hp, Hr. reflexivity.
Qed.

Lemma content_model_dump_json_eq (c : A2AContent) :
  valid_content c = true -> content_compatible c = true ->
  content_model_dump_json c
  = content_model_dump {| by_alias := true; exclude_none := true |} c.
Proof.
  intros Hv Hc. apply to_jsonable_dict.
  destruct c as [a p ctx|a r s [e|] md| |caps ag|cd m [d|]|s [p|] [m|]];
    simpl in *; unfold dict_compatible, capability_compatible in *; simpl in *;
    try reflexivity.
  all: try (apply andb_true_iff in Hc as [-> ->]; reflexivity).
  - apply andb_true_iff in Hc as [[H1 H2]%andb_true_iff H3].
    rewrite (dump_capabilities_compatible _ H1),
      (dump_capabilities_compatible _ H2), H3. reflexivity.
  - rewrite Hc. reflexivity.
  - apply andb_true_iff in Hv as [Hge Hle].
    rewrite (unit_interval_finite _ Hge Hle). reflexivity.
  - apply andb_true_iff in Hv as [Hge Hle].
    rewrite (unit_interval_finite _ Hge Hle). reflexivity.
Qed.

Lemma model_dump_roundtrip (now : string) (kw : dump_kwargs) (m : A2AMessage) :
  valid_content (content m) = true ->
  model_validate now (model_dump kw m) = Valid m.
Proof.
  intros Hv. destruct m as [i t f c r ts md].
  pose proof (content_roundtrip kw c Hv) as Hc.
  destruct r as [r|], kw as [[] []].
  all: unfold model_validate, model_dump, super_model_dump, required,
         with_default, field;
       cbn -[parse_content content_model_dump]; rewrite Hc; reflexivity.
Qed.

Lemma message_dict_roundtrip (now : string) (m : A2AMessage) :
  valid_content (content m) = true ->
  content_compatible (content m) = true ->
  reply_to m <> Some "" ->
  model_validate now (message_dict m) = Valid m.
Proof.
  destruct m as [i t f c r ts md]. intros Hv Hj Hr.
  pose proof (content_roundtrip {| by_alias := true; exclude_none := true |}
                c Hv) as Hc.
  rewrite <- (content_model_dump_json_eq c Hv Hj) in Hc.
  destruct r as [r|]; simpl in Hr.
  - destruct r as [|a r]; [congruence|].
    unfold model_validate, message_dict, required, with_default, field.
    cbn -[parse_content content_model_dump_json]. rewrite Hc. reflexivity.
  - unfold model_validate, message_dict, required, with_default, field.
    cbn -[parse_content content_model_dump_json]. rewrite Hc. reflexivity.
Qed.

Lemma content_model_dump_tag (kw : dump_kwargs) (c : A2AContent) :
  dict_get (type_key kw) (content_model_dump kw c) = Some (JStr (content_tag c)).
Proof. destruct kw as [[] ?]; reflexivity. Qed.

(** C1 (as amended).  Decoding an encoded envelope gives the envelope back,
    and the encoding carries the discriminator of the content: for
    [A2AMessage.model_dump] under every choice of keyword arguments, and for
    the [message_dict] of [send_message] whenever the open maps of the content
    hold JSON values and [reply_to] is absent or a non-empty string. *)
Theorem envelope_roundtrip (now : string) (m : A2AMessage) :
  valid_content (content m) = true ->
  (forall kw : dump_kwargs,
      model_validate now (model_dump kw m) = Valid m
      /\ encoded_tag (type_key kw) (model_dump kw m)
         = Some (JStr (content_tag (content m))))
  /\ encoded_tag "@type" (message_dict m) = Some (JStr (content_tag (content m)))
  /\ (content_compatible (content m) = true ->
      reply_to m <> Some "" ->
      model_validate now (message_dict m) = Valid m).
Proof.
  intros Hv. split; [|split].
  - intros kw. split; [apply model_dump_roundtrip, Hv|].
    pose proof (content_model_dump_tag kw (content m)) as Ht.
    unfold encoded_tag, model_dump, super_model_dump.
    destruct kw as [[] ?]; cbn -[content_model_dump]; exact Ht.
  - unfold encoded_tag, message_dict. cbn -[content_model_dump_json].
    destruct (content m); reflexivity.
  - intros Hj Hr. apply message_dict_roundtrip; assumption.
Qed.

(** ** The discriminator *)

Lemma vap_invalid_r {A B} (f : validation (A -> B)) (errs : list line_error)
    (e : line_error) :
  In e errs -> exists errs', f <*> Invalid errs = Invalid errs' /\ In e errs'.
Proof.
  intros Hin. destruct f as [g|e1]; simpl; eexists; split; try reflexivity.
  - exact Hin.
  - apply in_or_app. right. exact Hin.
Qed.

Lemma vap_invalid_l {A B} (x : validation A) (errs : list line_error)
    (e : line_error) :
  In e errs ->
  exists errs', @Invalid (A -> B) errs <*> x = Invalid errs' /\ In e errs'.
Proof.
  intros Hin. destruct x as [a|e2]; simpl; eexists; split; try reflexivity.
  - exact Hin.
  - apply in_or_app. left. exact Hin.
Qed.

Lemma parse_content_unknown (payload : dict) :
  (forall t, In t message_types -> discriminator payload <> JStr t) ->
  parse_content (JObj payload)
  = fail_with (value_error ("Unknown content type: "
                            ++ py_str (discriminator payload))).
Proof.
  intros Hno. unfold parse_content.
  assert (Hs : forall t, In t message_types ->
                         is_str (discriminator payload) t = false).
  { intros t Ht. specialize (Hno t Ht).
    destruct (discriminator payload) as [ | | | |s| | ]; try reflexivity.
    simpl. destruct (String.eqb_spec s t); [congruence|reflexivity]. }
  unfold message_types in Hs.
  rewrite !Hs by (simpl; tauto). reflexivity.
Qed.

Lemma discriminator_missing (payload : dict) :
  dict_get "@type" payload = None -> dict_get "type" payload = None ->
  discriminator payload = JNull.
Proof.
  intros H1 H2. unfold discriminator, get_or_none. rewrite H1, H2. reflexivity.
Qed.

(** C5.  A content payload with no discriminator field, or whose
    discriminator is none of the six names of [MessageType], is not decoded:
    validation fails, and among its errors is that of [parse_content],
    "Unknown content type". *)
Theorem unknown_content_type (now : string) (data payload : dict) :
  field data "content" "content" = Some (JObj payload) ->
  (dict_get "@type" payload = None /\ dict_get "type" payload = None)
  \/ (forall t, In t message_types -> discriminator payload <> JStr t) ->
  exists errs,
    model_validate now data = Invalid errs
    /\ In {| loc := [Key "content"];
             err_type := value_error ("Unknown content type: "
                                      ++ py_str (discriminator payload)) |}
          errs.
Proof.
  intros Hc Hd.
  assert (Hno : forall t, In t message_types -> discriminator payload <> JStr t).
  { destruct Hd as [[H1 H2]|Hd]; [|exact Hd].
    intros t _. rewrite (discriminator_missing _ H1 H2). discriminate. }
  unfold model_validate. unfold required at 4. rewrite Hc.
  rewrite (parse_content_unknown _ Hno). simpl.
  match goal with
  | |- context [ ?f <*> Invalid [?e] ] =>
      destruct (vap_invalid_r f [e] e (or_introl eq_refl)) as (e1 & -> & Hin1)
  end.
  destruct (vap_invalid_l (B := string -> dict -> A2AMessage)
              (with_default data "reply_to" "reply_to" None (optional_val str_val))
              e1 _ Hin1) as (e2 & -> & Hin2).
  destruct (vap_invalid_l (B := dict -> A2AMessage)
              (with_default data "timestamp" "timestamp" now str_val)
              e2 _ Hin2) as (e3 & -> & Hin3).
  destruct (vap_invalid_l (B := A2AMessage)
              (with_default data "metadata" "metadata" [] dict_val)
              e3 _ Hin3) as (e4 & -> & Hin4).
  exists e4. split; [reflexivity|exact Hin4].
Qed.

End ModelsFacts.


(** ** The state store and the continuation policy *)

(** C10.  After [update_state task_id updates], by the coordinator or by an
    agent, the record stored for the task is the record stored before (the
    empty one if there was none) with the keys of [updates] set to their new
    values and every other key as it was; the records of the other tasks are
    untouched. *)
Theorem update_state_frame `{Externals} (r : gmap string (gmap string json))
    (task_id : string) (updates : gmap string json) :
  (forall s : CState,
      redis (env (snd (coordinator_update_state task_id updates s)))
      = update_state (redis (env s)) task_id updates)
  /\ (forall w : Env,
        redis (snd (agent_update_state task_id updates w))
        = update_state (redis w) task_id updates)
  /\ exists state',
      get_state (update_state r task_id updates) task_id = Some state'
      /\ state' = updates ∪ state_or_empty r task_id
      /\ (forall k v, updates !! k = Some v -> state' !! k = Some v)
      /\ (forall k, updates !! k = None ->
                    state' !! k = state_or_empty r task_id !! k)
      /\ (forall other, task_key other <> task_key task_id ->
            get_state (update_state r task_id updates) other
            = get_state r other).
Proof.
  split; [reflexivity|]. split; [reflexivity|].
  exists (updates ∪ state_or_empty r task_id).
  unfold get_state, update_state. repeat split.
  - apply lookup_insert_eq.
  - intros k v Hk. apply lookup_union_Some_l. exact Hk.
  - intros k Hk. apply lookup_union_r. exact Hk.
  - intros other Hne. apply lookup_insert_ne. congruence.
Qed.

Lemma state_or_empty_absent (redis : gmap string (gmap string json))
    (task_id : string) :
  get_state redis task_id = None -> state_or_empty redis task_id = ∅.
Proof. unfold state_or_empty. intros ->. reflexivity. Qed.

(** C2.  On a record whose four values are an integer [iteration], an
    integer [max_iterations], a float [quality_score] and a list
    [key_findings], [should_continue] returns a value that is computed from
    these four alone: ["finalize"] when [iteration >= max_iterations], or
    [quality_score >= 0.8], or the list has ten items or more, and
    ["continue"] otherwise. *)
Theorem should_continue_policy (redis : gmap string (gmap string json))
    (task_id : string) (state : gmap string json)
    (iteration max_iterations : Z) (quality_score : float)
    (key_findings : list json) :
  get_state redis task_id = Some state ->
  state !! "iteration" = Some (JInt iteration) ->
  state !! "max_iterations" = Some (JInt max_iterations) ->
  state !! "quality_score" = Some (JFloat quality_score) ->
  state !! "key_findings" = Some (JArr key_findings) ->
  should_continue redis task_id
  = Ok (if (max_iterations <=? iteration)
           || PrimFloat.leb 0.8 quality_score
           || (10 <=? Z.of_nat (length key_findings))
        then "finalize" else "continue").
Proof.
  intros Hs Hi Hm Hq Hk. unfold should_continue, state_get.
  rewrite Hs, Hi, Hm, Hq, Hk. simpl.
  destruct (max_iterations <=? iteration); [reflexivity|]. simpl.
  destruct (PrimFloat.leb _ quality_score); [reflexivity|]. simpl.
  destruct (10 <=? _); reflexivity.
Qed.

(** ** The dispatch of an agent *)

Section AgentFacts.
Context `{Externals}.

Lemma response_correlates_aux (self : A2ABaseAgent) (message : A2AMessage)
    (w : Env) :
  reply_to (fst (process_message self message w)) = Some (id message)
  /\ from_agent (fst (process_message self message w)) = agent_id self
  /\ to (fst (process_message self message w)) = from_agent message.
Proof.
  unfold process_message, _handle_capability_request, _handle_action_request.
  destruct (content message) as [a p ctx|a r s e md| |caps ag|cd m d|s p m];
    simpl.
  2-6: try (repeat split; reflexivity).
  - destruct (handle_action self a p ctx w) as [[result|e] w']; simpl;
      repeat split; reflexivity.
  - destruct (get_capabilities self) as [caps|e]; simpl; repeat split; reflexivity.
Qed.

(** C7.  Whatever the inbound message is, the envelope that
    [process_message] returns (a capability response, a completed or a failed
    action response, or an error) replies to it: its [reply_to] is the [id]
    of the inbound message, its sender is the agent, and it is addressed to
    the sender of the inbound message. *)
Theorem response_correlates (self : A2ABaseAgent) (message : A2AMessage)
    (w : Env) :
  let response := fst (process_message self message w) in
  reply_to response = Some (id message)
  /\ from_agent response = agent_id self
  /\ to response = from_agent message.
Proof. apply response_correlates_aux. Qed.

Lemma failed_action_response (self : A2ABaseAgent) (message : A2AMessage)
    (action : string) (parameters context : dict) (w w' : Env) (e : exn) :
  content message = A2AActionRequest action parameters context ->
  handle_action self action parameters context w = (Raise e, w') ->
  content (fst (process_message self message w))
  = A2AActionResponse action [] FAILED (Some (exn_str e)) [].
Proof.
  intros Hc Hh. unfold process_message, _handle_action_request.
  rewrite Hc, Hh. reflexivity.
Qed.

Lemma eqb_not_in (action a : string) (l : list string) :
  ~ In action (a :: l) -> String.eqb action a = false /\ ~ In action l.
Proof.
  intros Hn. split.
  - destruct (String.eqb_spec action a); [|reflexivity].
    exfalso. apply Hn. left. congruence.
  - intros Hin. apply Hn. right. exact Hin.
Qed.

Lemma unknown_action_raises (agent_uri : string) (agent : A2ABaseAgent)
    (action : string) (parameters context : dict) (w : Env) :
  In (agent_uri, agent) services ->
  ~ In action (action_table agent_uri) ->
  handle_action agent action parameters context w
  = (Raise (Exn ValueError ("Unknown action: " ++ action)), w).
Proof.
  intros Hin Hno. unfold services in Hin. simpl in Hin.
  destruct Hin as [E|[E|[E|[E|[E|[]]]]]]; inversion E; subst; clear E;
    match type of Hno with
    | ~ In _ (action_table ?u) =>
        let t := eval vm_compute in (action_table u) in
        change (action_table u) with t in Hno
    end; simpl.
  - apply eqb_not_in in Hno as [E _].
    unfold topic_refiner_handle_action. rewrite E. reflexivity.
  - apply eqb_not_in in Hno as [E _].
    unfold question_architect_handle_action. rewrite E. reflexivity.
  - apply eqb_not_in in Hno as [E1 [E2 _]%eqb_not_in].
    unfold search_strategist_handle_action. rewrite E1, E2. reflexivity.
  - apply eqb_not_in in Hno as [E _].
    unfold data_analyst_handle_action. rewrite E. reflexivity.
  - apply eqb_not_in in Hno as [E _].
    unfold report_writer_handle_action. rewrite E. reflexivity.
Qed.

(** C4.  An exception that the action handler of an agent raises on an
    inbound [ActionRequest] does not leave [process_message]: the envelope
    returned carries an [ActionResponse] for the same action with the status
    [failed], an empty result and [str(e)] as its error.  For the five agents
    this covers the [ValueError] of an action that is not in the table of the
    agent, whose response is failed with the error "Unknown action: ...". *)
Theorem handler_exception_becomes_failed_response (self : A2ABaseAgent)
    (message : A2AMessage) (action : string) (parameters context : dict)
    (w : Env) :
  content message = A2AActionRequest action parameters context ->
  (forall e w',
      handle_action self action parameters context w = (Raise e, w') ->
      content (fst (process_message self message w))
      = A2AActionResponse action [] FAILED (Some (exn_str e)) [])
  /\ (forall agent_uri,
        In (agent_uri, self) services ->
        ~ In action (action_table agent_uri) ->
        content (fst (process_message self message w))
        = A2AActionResponse action [] FAILED
            (Some ("Unknown action: " ++ action)) []).
Proof.
  intros Hc. split.
  - intros e w' Hh. eapply failed_action_response; eassumption.
  - intros agent_uri Hin Hno.
    pose proof (unknown_action_raises agent_uri self action parameters context
                  w Hin Hno) as Hh.
    apply (failed_action_response self message action parameters context w w _
             Hc Hh).
Qed.

Lemma process_message_unsupported (self : A2ABaseAgent) (message : A2AMessage)
    (w : Env) :
  content message <> A2ACapabilityRequest ->
  (forall a p c, content message <> A2AActionRequest a p c) ->
  content (fst (process_message self message w))
  = A2AError "UNSUPPORTED_MESSAGE_TYPE"
      ("Unsupported message content type: " ++ content_class (content message))
      None.
Proof.
  intros Hc Ha. unfold process_message.
  destruct (content message) as [a p ctx|a r s e md| |caps ag|cd m d|s p m];
    try reflexivity.
  - exfalso. apply (Ha a p ctx). reflexivity.
  - congruence.
Qed.

(** C6 (as amended).  A body that does not decode as an envelope never
    reaches the agent: the endpoint answers with the status 422 and the
    validation errors, and the store is left as it was.  The error envelope
    with the code [UNSUPPORTED_MESSAGE_TYPE] is the answer to a body that
    does decode, to an envelope whose content is neither a capability request
    nor an action request; it is addressed to the sender of that envelope and
    its [reply_to] is the [id] of that envelope. *)
Theorem undecodable_body_rejected (self : A2ABaseAgent) (data : dict) (w : Env) :
  let now := isoformat_now (clock w) in
  (forall errs,
      model_validate now data = Invalid errs ->
      receive_message self (JObj data) w
      = ((422, JObj [("detail", validation_error_detail errs)]), tick w))
  /\ (forall message,
        model_validate now data = Valid message ->
        content message <> A2ACapabilityRequest ->
        (forall a p c, content message <> A2AActionRequest a p c) ->
        exists response,
          fst (receive_message self (JObj data) w)
          = (200, JObj (model_dump {| by_alias := true; exclude_none := false |}
                          response))
          /\ content response
             = A2AError "UNSUPPORTED_MESSAGE_TYPE"
                 ("Unsupported message content type: "
                  ++ content_class (content message)) None
          /\ to response = from_agent message
          /\ from_agent response = agent_id self
          /\ reply_to response = Some (id message)).
Proof.
  split.
  - intros errs Hv. unfold receive_message. rewrite Hv. reflexivity.
  - intros message Hv Hc Ha. unfold receive_message. rewrite Hv.
    destruct (process_message self message (tick w)) as [response w'] eqn:E.
    exists response. simpl. split; [reflexivity|].
    pose proof (process_message_unsupported self message (tick w) Hc Ha) as Hu.
    pose proof (response_correlates_aux self message (tick w)) as Hr.
    rewrite E in Hu, Hr. simpl in Hu, Hr. tauto.
Qed.

End AgentFacts.

(** ** The workflow of the coordinator *)

Section CoordinatorFacts.
Context `{Externals}.
Variable post : string -> json -> Env -> res http_response * Env.

Local Open Scope list_scope.

(** *** Rules for [emits] *)

Lemma emits_weaken {A} (Q Q' : outcome A -> list event -> Prop) (m : C A) :
  (forall o d, Q o d -> Q' o d) -> emits Q m -> emits Q' m.
Proof.
  intros HQ Hm s. destruct (Hm s) as (d & Hd & Hq). exists d. auto.
Qed.

Lemma emits_ret {A} (Q : outcome A -> list event -> Prop) (a : A) :
  Q (Returned a) [] -> emits Q (cret a).
Proof. intros HQ s. exists []. simpl. rewrite app_nil_r. auto. Qed.

Lemma emits_raise {A} (Q : outcome A -> list event -> Prop) (e : exn) :
  Q (Raised e) [] -> emits Q (craise e).
Proof. intros HQ s. exists []. simpl. rewrite app_nil_r. auto. Qed.

Lemma emits_in_env {A} (Q : outcome A -> list event -> Prop) (m : M A) :
  (forall o, o <> Unfinished -> Q o []) -> emits Q (in_env m).
Proof.
  intros HQ s. exists []. unfold in_env.
  destruct (m (env s)) as [[a|e] w]; simpl; rewrite app_nil_r;
    (split; [reflexivity|apply HQ; discriminate]).
Qed.

Lemma emits_bind {A B} (Qm : outcome A -> list event -> Prop)
    (Qk Q : outcome B -> list event -> Prop) (m : C A) (k : A -> C B) :
  emits Qm m ->
  (forall a, emits Qk (k a)) ->
  (forall a d1 o d2, Qm (Returned a) d1 -> Qk o d2 -> Q o (d1 ++ d2)) ->
  (forall e d, Qm (Raised e) d -> Q (Raised e) d) ->
  (forall d, Qm Unfinished d -> Q Unfinished d) ->
  emits Q (cbind m k).
Proof.
  intros Hm Hk Hseq Hraise Hunf s. unfold cbind.
  destruct (Hm s) as (d1 & Hd1 & Hq1).
  destruct (m s) as [[a|e|] s1]; simpl in *.
  - destruct (Hk a s1) as (d2 & Hd2 & Hq2).
    exists (d1 ++ d2). rewrite Hd2, Hd1, app_assoc. eauto.
  - exists d1. eauto.
  - exists d1. eauto.
Qed.

Lemma emits_try {A} (Qb Qh Q : outcome A -> list event -> Prop) (body : C A)
    (handler : exn -> C A) :
  emits Qb body ->
  (forall e, emits Qh (handler e)) ->
  (forall e d1 o d2, Qb (Raised e) d1 -> Qh o d2 -> Q o (d1 ++ d2)) ->
  (forall a d, Qb (Returned a) d -> Q (Returned a) d) ->
  (forall d, Qb Unfinished d -> Q Unfinished d) ->
  emits Q (try_except body handler).
Proof.
  intros Hb Hh Hseq Hret Hunf s. unfold try_except.
  destruct (Hb s) as (d1 & Hd1 & Hq1).
  destruct (body s) as [[a|e|] s1]; simpl in *.
  - exists d1. eauto.
  - destruct (Hh e s1) as (d2 & Hd2 & Hq2).
    exists (d1 ++ d2). rewrite Hd2, Hd1, app_assoc. eauto.
  - exists d1. eauto.
Qed.

Lemma emits_ret_bind {A B} (Q : outcome B -> list event -> Prop) (a : A)
    (k : A -> C B) :
  emits Q (k a) -> emits Q (cbind (cret a) k).
Proof. intros Hk s. exact (Hk s). Qed.

Lemma emits_raise_bind {A B} (Q : outcome B -> list event -> Prop) (e : exn)
    (k : A -> C B) :
  Q (Raised e) [] -> emits Q (cbind (craise e) k).
Proof. intros HQ s. exists []. simpl. rewrite app_nil_r. auto. Qed.

(** *** What a call of an agent adds to the log *)

Lemma send_message_emits (agent_uri : string) (message : A2AMessage) :
  emits (sent_and_received agent_uri message) (send_message post agent_uri message).
Proof.
  intros s. unfold send_message.
  destruct (assoc agent_uri AGENT_SERVICES) as [agent_url|].
  2:{ exists []. simpl. rewrite app_nil_r. split; [reflexivity|].
      left. eauto. }
  unfold try_except, cbind, log, in_env, craise, cret. simpl.
  destruct (post _ _ (env s)) as [[[status_code response_data]|e] w]; simpl.
  - destruct ((200 <=? status_code) && (status_code <? 300)); simpl.
    + destruct response_data as [ | | | | | |data];
        try (eexists; split; [reflexivity|left; split; [right; reflexivity|]];
             simpl; eauto).
      destruct (model_validate _ data) as [response|errs]; simpl.
      * eexists. split; [rewrite <- app_assoc; reflexivity|].
        right. eauto.
      * eexists. split; [reflexivity|]. left. split; [right; reflexivity|].
        simpl. eauto.
    + eexists. split; [reflexivity|]. left. split; [right; reflexivity|].
      simpl. eauto.
  - destruct (exn_class_of e); simpl;
      (eexists; split; [reflexivity|]; left; split; [right; reflexivity|]; eauto).
Qed.

Lemma call_agent_action_emits (agent_uri action : string) (parameters : dict) :
  emits (called agent_uri action parameters)
    (call_agent_action post agent_uri action parameters).
Proof.
  intros s. unfold call_agent_action, cbind, action_request, in_env. simpl.
  match goal with
  | |- context [ send_message post agent_uri ?m ?s1 ] =>
      pose (msg := m);
      destruct (send_message_emits agent_uri m s1) as (d & Hd & Hq);
      destruct (send_message post agent_uri m s1) as [o s2] eqn:E
  end.
  simpl in *. exists d.
  destruct Hq as [[Hd' [e ->]]|[response [-> ->]]]; simpl.
  - split; [exact Hd|]. exists msg. split; [reflexivity|]. left. eauto.
  - split; [exact Hd|]. exists msg. split; [reflexivity|]. right. eauto.
Qed.

Lemma pipeline_step_emits (task_id status current_agent agent action : string)
    (parameters : dict) :
  emits (stepped task_id status current_agent agent action parameters)
    (pipeline_step post task_id status current_agent agent action parameters).
Proof.
  intros s. unfold pipeline_step, cbind, coordinator_update_state.
  match goal with
  | |- context [ call_agent_action post ?u ?a ?p ?s1 ] =>
      destruct (call_agent_action_emits u a p s1) as (d & Hd & Hq)
  end.
  simpl in *. eexists. split.
  - rewrite Hd, <- app_assoc. reflexivity.
  - exists d. split; [reflexivity|exact Hq].
Qed.

(** *** Every send follows the write of its step *)

Lemma app_eq_app_cons {A} (pre rest d1 d2 : list A) (x : A) :
  pre ++ x :: rest = d1 ++ d2 ->
  (exists r1, d1 = pre ++ x :: r1 /\ rest = r1 ++ d2)
  \/ (exists p2, pre = d1 ++ p2 /\ d2 = p2 ++ x :: rest).
Proof.
  intros E. apply app_eq_app in E as [l [[-> ->]|[-> E]]].
  - right. eauto.
  - destruct l as [|y l]; simpl in E.
    + right. exists []. rewrite !app_nil_r. simpl. auto.
    + inversion E; subst. left. eauto.
Qed.

Lemma sends_follow_writes_without_sends (task_id : string) (d : list event) :
  (forall u m, ~ In (MessageSent u m) d) -> sends_follow_writes task_id d.
Proof.
  intros Hno pre u m rest ->. exfalso. apply (Hno u m).
  apply in_or_app. right. left. reflexivity.
Qed.

Lemma sends_follow_writes_app (task_id : string) (d1 d2 : list event) :
  sends_follow_writes task_id d1 -> sends_follow_writes task_id d2 ->
  sends_follow_writes task_id (d1 ++ d2).
Proof.
  intros H1 H2 pre u m rest E. symmetry in E.
  apply app_eq_app_cons in E as [(r1 & -> & ->)|(p2 & -> & ->)].
  - eapply H1. reflexivity.
  - destruct (H2 p2 u m rest eq_refl)
      as (pre' & st & ca & ag & ac & pa & cx & -> & Hin & Hu & Hc).
    exists (d1 ++ pre'), st, ca, ag, ac, pa, cx.
    rewrite app_assoc. auto.
Qed.

Lemma sends_follow_writes_step (task_id status current_agent agent action : string)
    (parameters : dict) (o : outcome dict) (d : list event) :
  In (status, current_agent, agent, action) pipeline ->
  stepped task_id status current_agent agent action parameters o d ->
  sends_follow_writes task_id d.
Proof.
  intros Hin (d' & -> & message & Hc & Hd) pre u m rest E.
  assert (Hshape : d' = [] \/ exists tail, d' = MessageSent (AGENT_URIS agent) message :: tail
                         /\ forall u' m', ~ In (MessageSent u' m') tail).
  { destruct Hd as [[[->| ->] _]|(response & -> & _)].
    - left. reflexivity.
    - right. exists []. split; [reflexivity|]. intros u' m' [].
    - right. eexists. split; [reflexivity|].
      intros u' m' [E'|[]]. discriminate. }
  destruct Hshape as [->|(tail & -> & Hno)].
  - destruct pre as [|e0 [|e1 pre]]; simpl in E; inversion E.
  - destruct pre as [|e0 [|e1 pre]]; simpl in E; inversion E; subst.
    + exists [], status, current_agent, agent, action, parameters, [].
      simpl. auto.
    + exfalso. apply (Hno u m).
      apply in_or_app. right. left. reflexivity.
Qed.

Lemma follows_bind (task_id : string) {A B} (m : C A) (k : A -> C B) :
  emits (follows task_id) m -> (forall a, emits (follows task_id) (k a)) ->
  emits (follows task_id) (cbind m k).
Proof.
  intros Hm Hk. eapply emits_bind; [exact Hm|exact Hk|..]; unfold follows; auto.
  intros. apply sends_follow_writes_app; assumption.
Qed.

Lemma follows_nil (task_id : string) : sends_follow_writes task_id [].
Proof. apply sends_follow_writes_without_sends. intros u m []. Qed.

Lemma follows_step (task_id status current_agent agent action : string)
    (parameters : dict) :
  In (status, current_agent, agent, action) pipeline ->
  emits (follows task_id)
    (pipeline_step post task_id status current_agent agent action parameters).
Proof.
  intros Hin. eapply emits_weaken; [|apply pipeline_step_emits].
  intros o d Hs. eapply sends_follow_writes_step; eassumption.
Qed.

Lemma follows_update (task_id : string) (updates : gmap string json) :
  emits (follows task_id) (coordinator_update_state task_id updates).
Proof.
  intros s. eexists. split; [reflexivity|].
  apply sends_follow_writes_without_sends. intros u m [E|[]]. discriminate.
Qed.

Lemma follows_should_continue (task_id : string) :
  emits (follows task_id) (coordinator_should_continue task_id).
Proof.
  intros s. unfold coordinator_should_continue.
  destruct (should_continue _ _); simpl; (eexists; split; [reflexivity|]);
    apply sends_follow_writes_without_sends; intros u m [E|[]]; discriminate.
Qed.

Lemma follows_check_slice (task_id : string) (v : json) :
  emits (follows task_id) (check_slice v).
Proof.
  destruct v; first [apply emits_ret|apply emits_raise]; apply follows_nil.
Qed.

Lemma follows_check_format (task_id : string) (v : json) :
  emits (follows task_id) (check_format_2f v).
Proof.
  destruct v; first [apply emits_ret|apply emits_raise]; apply follows_nil.
Qed.

Ltac in_pipeline := unfold pipeline; simpl; tauto.

Lemma follows_loop (fuel : nat) (task_id : string) (iteration : Z)
    (max_iterations : json) :
  emits (follows task_id)
    (research_loop post fuel task_id iteration max_iterations).
Proof.
  revert iteration. induction fuel as [|fuel IH]; intros iteration; simpl.
  - apply follows_bind.
    + apply emits_in_env. intros. apply follows_nil.
    + intros [|]; [|apply emits_ret, follows_nil].
      intros s. exists []. simpl. rewrite app_nil_r. split; [reflexivity|].
      apply follows_nil.
  - apply follows_bind.
    + apply emits_in_env. intros. apply follows_nil.
    + intros [|]; [|apply emits_ret, follows_nil].
      apply follows_bind; [apply follows_step; in_pipeline|intros _].
      apply follows_bind; [apply follows_step; in_pipeline|intros _].
      apply follows_bind; [apply follows_step; in_pipeline|intros result].
      apply follows_bind; [apply follows_check_format|intros _].
      apply follows_bind; [apply follows_should_continue|intros decision].
      destruct (String.eqb decision "finalize");
        [apply emits_ret, follows_nil|apply IH].
Qed.

Lemma follows_workflow (fuel : nat) (task_id : string) :
  emits (follows task_id) (run_workflow post fuel task_id).
Proof.
  unfold run_workflow.
  eapply emits_try with (Qb := follows task_id) (Qh := follows task_id);
    unfold follows; auto.
  - unfold workflow_body.
    apply follows_bind.
    { intros s. exists []. simpl. rewrite app_nil_r. split; [reflexivity|].
      apply follows_nil. }
    intros state.
    apply follows_bind; [apply follows_step; in_pipeline|intros result].
    apply follows_bind; [apply follows_check_slice|intros _].
    apply follows_bind.
    { destruct state; [apply emits_ret|apply emits_raise]; apply follows_nil. }
    intros max_iterations.
    apply follows_bind; [apply follows_loop|intros _].
    apply follows_bind; [apply follows_step; in_pipeline|intros _].
    apply follows_bind; [apply follows_update|intros _].
    apply emits_ret, follows_nil.
  - intros e. unfold workflow_failed.
    apply follows_bind; [apply follows_update|intros _].
    apply emits_ret, follows_nil.
  - intros. apply sends_follow_writes_app; assumption.
Qed.

(** C8.  In every run of the workflow, every message the coordinator sends
    to an agent comes right after its write, to the record of the task, of
    the status of a step of the pipeline and of the name of the agent of that
    step; the message goes to that agent and asks for the action of that
    step.  The five steps are those of [pipeline]. *)
Theorem writes_precede_calls (fuel : nat) (task_id : string) (s : CState) :
  exists d,
    events (snd (run_workflow post fuel task_id s)) = events s ++ d
    /\ forall pre agent_uri message rest,
         d = pre ++ MessageSent agent_uri message :: rest ->
         exists pre' status current_agent agent action parameters context,
           pre = pre' ++ [StateWrite task_id
                            {[ "status" := JStr status;
                               "current_agent" := JStr current_agent ]}]
           /\ In (status, current_agent, agent, action) pipeline
           /\ agent_uri = AGENT_URIS agent
           /\ content message = A2AActionRequest action parameters context.
Proof. apply follows_workflow. Qed.

(** *** A failed response ends the workflow *)

Lemma stops_without_responses {A} (o : outcome A) (d : list event) :
  (forall u r, ~ In (MessageReceived u r) d) -> stops_at_failure o d.
Proof.
  intros Hno pre u r rest -> _. exfalso. apply (Hno u r).
  apply in_or_app. right. left. reflexivity.
Qed.

Lemma stops_nil {A} (o : outcome A) : stops_at_failure o [].
Proof. apply stops_without_responses. intros u r []. Qed.

Lemma stops_bind {A B} (m : C A) (k : A -> C B) :
  emits stops_at_failure m -> (forall a, emits stops_at_failure (k a)) ->
  emits stops_at_failure (cbind m k).
Proof.
  intros Hm Hk. eapply emits_bind; [exact Hm|exact Hk|..].
  - intros a d1 o d2 H1 H2 pre u r rest E Hf. symmetry in E.
    apply app_eq_app_cons in E as [(r1 & -> & ->)|(p2 & -> & ->)].
    + destruct (H1 pre u r r1 eq_refl Hf) as (_ & e & He). discriminate.
    + eapply H2; [reflexivity|exact Hf].
  - intros e d H1 pre u r rest E Hf.
    destruct (H1 pre u r rest E Hf) as (Hr & _). eauto.
  - intros d H1 pre u r rest E Hf.
    destruct (H1 pre u r rest E Hf) as (_ & e & He). discriminate.
Qed.

Lemma failed_response_raises (agent_uri action : string) (response : A2AMessage) :
  is_failed response = true ->
  exists e, response_result agent_uri action response = Raised e.
Proof.
  unfold is_failed, response_result.
  destruct (content response) as [a p ctx|a r [] e md| |caps ag|cd m d|s p m];
    try discriminate.
  eauto.
Qed.

Lemma stops_step (task_id status current_agent agent action : string)
    (parameters : dict) :
  emits stops_at_failure
    (pipeline_step post task_id status current_agent agent action parameters).
Proof.
  eapply emits_weaken; [|apply pipeline_step_emits].
  intros o d (d' & -> & message & Hc & Hd) pre u r rest E Hf.
  destruct Hd as [[[->| ->] _]|(response & -> & ->)].
  - destruct pre as [|e0 [|e1 pre]]; simpl in E; inversion E.
  - destruct pre as [|e0 [|e1 [|e2 pre]]]; simpl in E; inversion E.
  - destruct pre as [|e0 [|e1 [|e2 [|e3 pre]]]]; simpl in E; inversion E; subst.
    split; [reflexivity|]. apply failed_response_raises, Hf.
Qed.

Lemma stops_update (task_id : string) (updates : gmap string json) :
  emits stops_at_failure (coordinator_update_state task_id updates).
Proof.
  intros s. eexists. split; [reflexivity|].
  apply stops_without_responses. intros u m [E|[]]. discriminate.
Qed.

Lemma stops_should_continue (task_id : string) :
  emits stops_at_failure (coordinator_should_continue task_id).
Proof.
  intros s. unfold coordinator_should_continue.
  destruct (should_continue _ _); simpl; (eexists; split; [reflexivity|]);
    apply stops_without_responses; intros u m [E|[]]; discriminate.
Qed.

Lemma stops_check_slice (v : json) : emits stops_at_failure (check_slice v).
Proof. destruct v; first [apply emits_ret|apply emits_raise]; apply stops_nil. Qed.

Lemma stops_check_format (v : json) : emits stops_at_failure (check_format_2f v).
Proof. destruct v; first [apply emits_ret|apply emits_raise]; apply stops_nil. Qed.

Lemma stops_loop (fuel : nat) (task_id : string) (iteration : Z)
    (max_iterations : json) :
  emits stops_at_failure
    (research_loop post fuel task_id iteration max_iterations).
Proof.
  revert iteration. induction fuel as [|fuel IH]; intros iteration; simpl.
  - apply stops_bind.
    + apply emits_in_env. intros. apply stops_nil.
    + intros [|]; [|apply emits_ret, stops_nil].
      intros s. exists []. simpl. rewrite app_nil_r. split; [reflexivity|].
      apply stops_nil.
  - apply stops_bind.
    + apply emits_in_env. intros. apply stops_nil.
    + intros [|]; [|apply emits_ret, stops_nil].
      apply stops_bind; [apply stops_step|intros _].
      apply stops_bind; [apply stops_step|intros _].
      apply stops_bind; [apply stops_step|intros result].
      apply stops_bind; [apply stops_check_format|intros _].
      apply stops_bind; [apply stops_should_continue|intros decision].
      destruct (String.eqb decision "finalize");
        [apply emits_ret, stops_nil|apply IH].
Qed.

Lemma stops_body (fuel : nat) (task_id : string) :
  emits stops_at_failure (workflow_body post fuel task_id).
Proof.
  unfold workflow_body.
  apply stops_bind.
  { intros s. exists []. simpl. rewrite app_nil_r. split; [reflexivity|].
    apply stops_nil. }
  intros state.
  apply stops_bind; [apply stops_step|intros result].
  apply stops_bind; [apply stops_check_slice|intros _].
  apply stops_bind.
  { destruct state; [apply emits_ret|apply emits_raise]; apply stops_nil. }
  intros max_iterations.
  apply stops_bind; [apply stops_loop|intros _].
  apply stops_bind; [apply stops_step|intros _].
  apply stops_bind; [apply stops_update|intros _].
  apply emits_ret, stops_nil.
Qed.

(** C3.  If in a run of the workflow an agent answers a step with an
    [ActionResponse] whose status is [failed], the coordinator sends no
    message after it (no further call, no retry), the run returns the
    failure, and the record of the task ends with the status ["failed"] and
    a non-empty [error]. *)
Theorem failure_short_circuit (fuel : nat) (task_id : string) (s : CState) :
  exists d,
    events (snd (run_workflow post fuel task_id s)) = events s ++ d
    /\ forall pre agent_uri response rest action result error metadata,
         d = pre ++ MessageReceived agent_uri response :: rest ->
         content response = A2AActionResponse action result FAILED error metadata ->
         (forall agent_uri' message, ~ In (MessageSent agent_uri' message) rest)
         /\ exists error_msg state,
              fst (run_workflow post fuel task_id s)
              = Returned [("success", JBool false); ("error", JStr error_msg)]
              /\ error_msg <> ""
              /\ get_state (redis (env (snd (run_workflow post fuel task_id s))))
                   task_id = Some state
              /\ state !! "status" = Some (JStr "failed")
              /\ state !! "error" = Some (JStr error_msg).
Proof.
  unfold run_workflow, try_except.
  destruct (stops_body fuel task_id s) as (d1 & Hd1 & Hq1).
  destruct (workflow_body post fuel task_id s) as [[a|e|] s1]; simpl in *.
  - exists d1. split; [exact Hd1|].
    intros pre u r rest ac re er md E Hc.
    assert (Hf : is_failed r = true) by (unfold is_failed; rewrite Hc; reflexivity).
    destruct (Hq1 pre u r rest E Hf) as (_ & e & He). discriminate.
  - exists (d1 ++ [StateWrite task_id
                     {[ "status" := JStr "failed";
                        "error" := JStr ("Workflow error: " +:+ exn_str e) ]}]).
    split; [rewrite Hd1, app_assoc; reflexivity|].
    intros pre u r rest ac re er md E Hc.
    assert (Hf : is_failed r = true) by (unfold is_failed; rewrite Hc; reflexivity).
    symmetry in E. apply app_eq_app_cons in E as [(r1 & E1 & ->)|(p2 & -> & E2)].
    + destruct (Hq1 pre u r r1 E1 Hf) as (-> & _). split.
      * intros u' m' [E'|[]]. discriminate.
      * eexists _, _. split; [reflexivity|]. split; [discriminate|].
        unfold get_state, update_state. simpl.
        split; [apply lookup_insert_eq|].
        split; apply lookup_union_Some_l; reflexivity.
    + destruct p2 as [|e0 [|e1 p2]]; simpl in E2; inversion E2.
  - exists d1. split; [exact Hd1|].
    intros pre u r rest ac re er md E Hc.
    assert (Hf : is_failed r = true) by (unfold is_failed; rewrite Hc; reflexivity).
    destruct (Hq1 pre u r rest E Hf) as (_ & e & He). discriminate.
Qed.

(** *** The writes of the coordinator *)

Lemma spares_nil {A} (o : outcome A) : spares_iteration o [].
Proof. intros t u []. Qed.

Lemma spares_bind {A B} (m : C A) (k : A -> C B) :
  emits spares_iteration m -> (forall a, emits spares_iteration (k a)) ->
  emits spares_iteration (cbind m k).
Proof.
  intros Hm Hk. eapply emits_bind; [exact Hm|exact Hk|..]; auto.
  intros a d1 o d2 H1 H2 t u [Hin|Hin]%in_app_or; eauto.
Qed.

Lemma spares_update (task_id : string) (updates : gmap string json) :
  updates !! "iteration" = None ->
  emits spares_iteration (coordinator_update_state task_id updates).
Proof.
  intros Hu s. eexists. split; [reflexivity|].
  intros t u [[= <- <-]|[]]. exact Hu.
Qed.

Lemma spares_step (task_id status current_agent agent action : string)
    (parameters : dict) :
  emits spares_iteration
    (pipeline_step post task_id status current_agent agent action parameters).
Proof.
  eapply emits_weaken; [|apply pipeline_step_emits].
  intros o d (d' & -> & message & _ & Hd) t u [[= <- <-]|Hin].
  - reflexivity.
  - destruct Hd as [[[->| ->] _]|(response & -> & _)]; simpl in Hin;
      intuition discriminate.
Qed.

Lemma spares_should_continue (task_id : string) :
  emits spares_iteration (coordinator_should_continue task_id).
Proof.
  intros s. unfold coordinator_should_continue.
  destruct (should_continue _ _); simpl; (eexists; split; [reflexivity|]);
    intros t u [E|[]]; discriminate.
Qed.

Lemma spares_loop (fuel : nat) (task_id : string) (iteration : Z)
    (max_iterations : json) :
  emits spares_iteration
    (research_loop post fuel task_id iteration max_iterations).
Proof.
  revert iteration. induction fuel as [|fuel IH]; intros iteration; simpl.
  - apply spares_bind.
    + apply emits_in_env. intros. apply spares_nil.
    + intros [|]; [|apply emits_ret, spares_nil].
      intros s. exists []. simpl. rewrite app_nil_r. split; [reflexivity|].
      apply spares_nil.
  - apply spares_bind.
    + apply emits_in_env. intros. apply spares_nil.
    + intros [|]; [|apply emits_ret, spares_nil].
      apply spares_bind; [apply spares_step|intros _].
      apply spares_bind; [apply spares_step|intros _].
      apply spares_bind; [apply spares_step|intros result].
      apply spares_bind.
      { destruct (get_or _ _ result);
          first [apply emits_ret|apply emits_raise]; apply spares_nil. }
      intros _.
      apply spares_bind; [apply spares_should_continue|intros decision].
      destruct (String.eqb decision "finalize");
        [apply emits_ret, spares_nil|apply IH].
Qed.

Lemma spares_workflow (fuel : nat) (task_id : string) :
  emits spares_iteration (run_workflow post fuel task_id).
Proof.
  unfold run_workflow.
  eapply emits_try with (Qb := spares_iteration) (Qh := spares_iteration); auto.
  - unfold workflow_body.
    apply spares_bind.
    { intros s. exists []. simpl. rewrite app_nil_r. split; [reflexivity|].
      apply spares_nil. }
    intros state.
    apply spares_bind; [apply spares_step|intros result].
    apply spares_bind.
    { destruct (get_or _ _ result);
        first [apply emits_ret|apply emits_raise]; apply spares_nil. }
    intros _.
    apply spares_bind.
    { destruct state; [apply emits_ret|apply emits_raise]; apply spares_nil. }
    intros max_iterations.
    apply spares_bind; [apply spares_loop|intros _].
    apply spares_bind; [apply spares_step|intros _].
    apply spares_bind; [apply spares_update; reflexivity|intros _].
    apply emits_ret, spares_nil.
  - intros e. unfold workflow_failed.
    apply spares_bind; [apply spares_update; reflexivity|intros _].
    apply emits_ret, spares_nil.
  - intros e d1 o d2 H1 H2 t u [Hin|Hin]%in_app_or; eauto.
Qed.

(** *** The workflow ends *)

Lemma finished_bind {A B} (m : C A) (k : A -> C B) :
  emits finished m -> (forall a, emits finished (k a)) ->
  emits finished (cbind m k).
Proof.
  intros Hm Hk. eapply emits_bind; [exact Hm|exact Hk|..]; unfold finished;
    auto; discriminate.
Qed.

Lemma finished_step (task_id status current_agent agent action : string)
    (parameters : dict) :
  emits finished
    (pipeline_step post task_id status current_agent agent action parameters).
Proof.
  eapply emits_weaken; [|apply pipeline_step_emits].
  intros o d (d' & -> & message & _ & Hd). unfold finished.
  destruct Hd as [[_ [e ->]]|(response & _ & ->)]; [discriminate|].
  unfold response_result.
  destruct (content response) as [a p ctx|a r [] e md| |caps ag|cd m d|[] p m];
    discriminate.
Qed.

Lemma finished_check_format (v : json) : emits finished (check_format_2f v).
Proof.
  destruct v; first [apply emits_ret|apply emits_raise]; discriminate.
Qed.

Lemma finished_check_slice (v : json) : emits finished (check_slice v).
Proof.
  destruct v; first [apply emits_ret|apply emits_raise]; discriminate.
Qed.

Lemma finished_should_continue (task_id : string) :
  emits finished (coordinator_should_continue task_id).
Proof.
  intros s. unfold coordinator_should_continue.
  destruct (should_continue _ _); simpl; (eexists; split; [reflexivity|]);
    discriminate.
Qed.

Lemma finished_update (task_id : string) (updates : gmap string json) :
  emits finished (coordinator_update_state task_id updates).
Proof. intros s. eexists. split; [reflexivity|]. discriminate. Qed.

(** The loop over an integer bound ends when it is given as many turns as
    there are integers from [iteration] to the bound. *)
Lemma loop_finishes (fuel : nat) (task_id : string) (max_iterations : Z) :
  forall iteration : Z,
    (Z.to_nat (max_iterations - iteration) <= fuel)%nat ->
    emits finished
      (research_loop post fuel task_id iteration (JInt max_iterations)).
Proof.
  induction fuel as [|fuel IH]; intros iteration Hfuel; simpl.
  - unfold cbind, in_env, lift, py_int_lt. simpl.
    destruct (iteration <? max_iterations) eqn:E.
    + apply Z.ltb_lt in E. lia.
    + apply emits_ret. discriminate.
  - unfold py_int_lt. simpl.
    apply finished_bind.
    { apply emits_in_env. intros o Ho. exact Ho. }
    intros [|]; [|apply emits_ret; discriminate].
    apply finished_bind; [apply finished_step|intros _].
    apply finished_bind; [apply finished_step|intros _].
    apply finished_bind; [apply finished_step|intros result].
    apply finished_bind; [apply finished_check_format|intros _].
    apply finished_bind; [apply finished_should_continue|intros decision].
    destruct (String.eqb decision "finalize"); [apply emits_ret; discriminate|].
    destruct (Z.ltb_spec iteration max_iterations).
    + apply IH. lia.
    + apply IH. lia.
Qed.

(** [run_workflow] returns: with a record whose [max_iterations] is an
    integer, a number of turns equal to it is enough for the loop. *)
Lemma run_workflow_finishes (fuel : nat) (task_id : string) (s : CState) :
  (forall state, get_state (redis (env s)) task_id = Some state ->
     exists m, state_get state "max_iterations" (JInt 2) = JInt m
               /\ (Z.to_nat m <= fuel)%nat) ->
  exists result, fst (run_workflow post fuel task_id s) = Returned result.
Proof.
  intros Hmax.
  assert (Hbody : forall s0, env s0 = env s ->
            fst (workflow_body post fuel task_id s0) <> Unfinished).
  { intros s0 Hs0. unfold workflow_body. unfold cbind at 1. cbn [fst snd].
    rewrite Hs0.
    match goal with
    | |- fst (?m s0) <> _ =>
        assert (Hm : emits finished m); [|destruct (Hm s0) as (d & _ & Hf); exact Hf]
    end.
    apply finished_bind; [apply finished_step|intros result].
    apply finished_bind; [apply finished_check_slice|intros _].
    destruct (get_state (redis (env s)) task_id) as [state|] eqn:Hst.
    - destruct (Hmax state eq_refl) as (m & -> & Hfuel).
      apply emits_ret_bind.
      apply finished_bind; [apply loop_finishes; lia|intros _].
      apply finished_bind; [apply finished_step|intros _].
      apply finished_bind; [apply finished_update|intros _].
      apply emits_ret. discriminate.
    - apply emits_raise_bind. discriminate. }
  unfold run_workflow, try_except.
  specialize (Hbody s eq_refl).
  destruct (workflow_body post fuel task_id s) as [[r|e|] s1]; simpl in *.
  - eauto.
  - eauto.
  - congruence.
Qed.

End CoordinatorFacts.

(** ** The iteration counter *)

Section SystemFacts.
Context `{Externals}.

Local Open Scope list_scope.

(** *** The handlers and the counter *)

Lemma keeps_ret {A} (a : A) : keeps_iteration (ret a).
Proof. intros w t. reflexivity. Qed.

Lemma keeps_raise {A} (e : exn) : keeps_iteration (@raise A e).
Proof. intros w t. reflexivity. Qed.

Lemma keeps_lift {A} (r : res A) : keeps_iteration (lift r).
Proof. intros w t. reflexivity. Qed.

Lemma keeps_bind {A B} (m : M A) (k : A -> M B) :
  keeps_iteration m -> (forall a, keeps_iteration (k a)) ->
  keeps_iteration (bind m k).
Proof.
  intros Hm Hk w t. unfold bind. specialize (Hm w t).
  destruct (m w) as [[a|e] w1]; simpl in *; [|exact Hm].
  rewrite <- Hm. apply Hk.
Qed.

Lemma keeps_mbind {A B} (m : M A) (k : A -> M B) :
  keeps_iteration m -> (forall a, keeps_iteration (k a)) ->
  keeps_iteration (m ≫= k).
Proof. apply keeps_bind. Qed.

Lemma keeps_invoke_llm (self : AgentInfo) (p : prompt) :
  keeps_iteration (invoke_llm self p).
Proof. intros w t. reflexivity. Qed.

Lemma keeps_load_task (parameters : dict) : keeps_iteration (load_task parameters).
Proof.
  intros w t. unfold load_task.
  destruct (negb _); [reflexivity|].
  destruct (get_state _ _) as [state|]; [|reflexivity].
  destruct (bool_decide _); reflexivity.
Qed.

Lemma iteration_of_insert (r : gmap string (gmap string json))
    (task_id t : string) (state : gmap string json) :
  state !! "iteration" = state_or_empty r task_id !! "iteration" ->
  iteration_of (<[task_key task_id := state]> r) t = iteration_of r t.
Proof.
  intros Hs. unfold iteration_of, get_state.
  destruct (decide (task_key t = task_key task_id)) as [E|E].
  - rewrite E, lookup_insert_eq, Hs. unfold state_or_empty, get_state.
    destruct (r !! task_key task_id); reflexivity.
  - rewrite lookup_insert_ne by congruence. reflexivity.
Qed.

Lemma keeps_update_state (task_id : string) (updates : gmap string json) :
  updates !! "iteration" = None ->
  keeps_iteration (agent_update_state task_id updates).
Proof.
  intros Hu w t. unfold agent_update_state, update_state. simpl.
  apply iteration_of_insert. apply lookup_union_r. exact Hu.
Qed.

Lemma keeps_add_log (self : AgentInfo) (task_id action : string) (data : dict) :
  keeps_iteration (add_log self task_id action data).
Proof.
  intros w t. unfold add_log.
  destruct (py_append _ _) as [logs|e]; simpl; [|reflexivity].
  apply iteration_of_insert. apply lookup_insert_ne. discriminate.
Qed.

Ltac keeps :=
  repeat first
    [ apply keeps_ret | apply keeps_raise | apply keeps_lift
    | apply keeps_invoke_llm | apply keeps_load_task | apply keeps_add_log
    | apply keeps_update_state; reflexivity
    | apply keeps_mbind; [|intros ?]
    | match goal with |- keeps_iteration (let '(_, _) := ?p in _) => destruct p end
    | match goal with |- keeps_iteration (if ?b then _ else _) => destruct b end ].

Lemma keeps_refine_topic (parameters context : dict) :
  keeps_iteration (_refine_topic parameters context).
Proof. unfold _refine_topic. keeps. Qed.

Lemma keeps_generate_questions (parameters context : dict) :
  keeps_iteration (_generate_questions parameters context).
Proof. unfold _generate_questions. keeps. Qed.

Lemma keeps_analyze_results (parameters context : dict) :
  keeps_iteration (_analyze_results parameters context).
Proof. unfold _analyze_results. keeps. Qed.

Lemma keeps_generate_report (parameters context : dict) :
  keeps_iteration (_generate_report parameters context).
Proof.
  unfold _generate_report. keeps.
  intros w t. reflexivity.
Qed.

Lemma keeps_optimize_query (parameters context : dict) :
  keeps_iteration (_optimize_query parameters context).
Proof. unfold _optimize_query. keeps. Qed.

(** The agents other than the search strategist leave the counter as it is,
    whatever they are asked. *)
Lemma keeps_other_agents (agent_uri : string) (agent : A2ABaseAgent)
    (action : string) (parameters context : dict) :
  In (agent_uri, agent) services ->
  agent_uri <> "agent://search-strategist" ->
  keeps_iteration (handle_action agent action parameters context).
Proof.
  intros Hin Hne. unfold services in Hin. simpl in Hin.
  destruct Hin as [E|[E|[E|[E|[E|[]]]]]]; inversion E; subst; clear E; simpl.
  - unfold topic_refiner_handle_action.
    destruct (String.eqb _ _); [apply keeps_refine_topic|apply keeps_raise].
  - unfold question_architect_handle_action.
    destruct (String.eqb _ _); [apply keeps_generate_questions|apply keeps_raise].
  - congruence.
  - unfold data_analyst_handle_action.
    destruct (String.eqb _ _); [apply keeps_analyze_results|apply keeps_raise].
  - unfold report_writer_handle_action.
    destruct (String.eqb _ _); [apply keeps_generate_report|apply keeps_raise].
Qed.

(** The search leaves the store as it is until it writes its results. *)
Lemma search_question_redis (max_results question : json) (p : search_progress)
    (w : Env) :
  redis (snd (search_question max_results question p w)) = redis w.
Proof.
  unfold search_question, mbind, M_bind, bind, lift, mret, M_ret, ret.
  destruct (py_in question (search_queries p)) as [[|]|e]; simpl; try reflexivity.
  destruct (ddgs_text _ _ _) as [[|r results]|e]; simpl; try reflexivity.
  - destruct (py_append _ _); reflexivity.
  - destruct (search_results p); try reflexivity.
    destruct (py_append _ _); reflexivity.
Qed.

Lemma search_questions_redis (max_results : json) (questions : list json)
    (p : search_progress) (w : Env) :
  redis (snd (search_questions max_results questions p w)) = redis w.
Proof.
  revert p w. induction questions as [|q questions IH]; intros p w; simpl.
  - reflexivity.
  - unfold mbind, M_bind, bind.
    pose proof (search_question_redis max_results q p w) as Hq.
    destruct (search_question max_results q p w) as [[p'|e] w1]; simpl in *.
    + rewrite IH. exact Hq.
    + exact Hq.
Qed.

Lemma load_task_ok (parameters : dict) (w w1 : Env) (task_id : string)
    (state : gmap string json) :
  load_task parameters w = (Ok (task_id, state), w1) ->
  w1 = w
  /\ task_id = py_str (get_or_none "task_id" parameters)
  /\ get_state (redis w) task_id = Some state.
Proof.
  unfold load_task. destruct (negb _); [discriminate|].
  destruct (get_state _ _) as [state'|] eqn:E; [|discriminate].
  destruct (bool_decide _); [discriminate|].
  intros [= <- <- <-]. auto.
Qed.

(** A successful [execute_search] adds one to the counter of its task. *)
Lemma execute_search_counts (parameters context result : dict) (w w' : Env)
    (task_id : string) (n : Z) :
  get_or_none "task_id" parameters = JStr task_id ->
  _execute_search parameters context w = (Ok result, w') ->
  iteration_of (redis w) task_id = Some (JInt n) ->
  iteration_of (redis w') task_id = Some (JInt (n + 1)).
Proof.
  intros Ht Hrun Hn. unfold _execute_search, mbind, M_bind, bind in Hrun.
  destruct (load_task parameters w) as [[[t state]|e] w1] eqn:El; [|discriminate].
  apply load_task_ok in El as (-> & -> & Hs). rewrite Ht in Hs, Hrun.
  simpl in Hs, Hrun.
  unfold iteration_of in Hn. rewrite Hs in Hn.
  destruct (py_iter _) as [questions|e]; [|discriminate].
  match type of Hrun with
  | context [ search_questions ?mr ?qs ?p w ] =>
      pose proof (search_questions_redis mr qs p w) as Hr;
      destruct (search_questions mr qs p w) as [[p'|e] w2]; [|discriminate]
  end.
  simpl in Hr.
  assert (Ei : state_get state "iteration" (JInt 0) = JInt n)
    by (unfold state_get; rewrite Hn; reflexivity).
  rewrite Ei in Hrun. simpl in Hrun.
  match type of Hrun with
  | context [ add_log ?i ?t ?a ?d ?w3 ] =>
      pose proof (keeps_add_log i t a d w3 task_id) as Hl;
      destruct (add_log i t a d w3) as [[[]|e] w4]; [|discriminate]
  end.
  destruct (py_len _) as [total|e]; [|discriminate].
  unfold ret in Hrun. injection Hrun as _ <-.
  simpl in Hl. rewrite Hl.
  unfold iteration_of, get_state, update_state. simpl.
  rewrite lookup_insert_eq. apply lookup_union_Some_l. reflexivity.
Qed.

(** *** A step of the pipeline over the network *)

Lemma service_of_key (agent : string) :
  In agent agent_keys ->
  exists url,
    assoc (AGENT_URIS agent) AGENT_SERVICES = Some url
    /\ service_at (url +:+ "/message") services = Some (agent_for agent).
Proof.
  intros Hin. unfold agent_keys in Hin. simpl in Hin.
  unfold service_at, AGENT_SERVICES.
  destruct local_environment;
    destruct Hin as [<-|[<-|[<-|[<-|[<-|[]]]]]]; eexists; split; reflexivity.
Qed.

Lemma process_action_request (self : A2ABaseAgent) (message : A2AMessage)
    (action : string) (parameters context : dict) (w : Env) :
  content message = A2AActionRequest action parameters context ->
  redis (snd (process_message self message w))
  = redis (snd (handle_action self action parameters context w))
  /\ content (fst (process_message self message w))
     = action_response action
         (fst (handle_action self action parameters context w)).
Proof.
  intros Hc. unfold process_message, _handle_action_request. rewrite Hc.
  destruct (handle_action self action parameters context w) as [[result|e] w'];
    simpl; auto.
Qed.

(** A request posted to the URL of an agent reaches the handler of the
    agent, unless the network fails first. *)
Lemma http_post_request (url : string) (agent : A2ABaseAgent)
    (message : A2AMessage) (action : string) (parameters context : dict)
    (w : Env) :
  service_at url services = Some agent ->
  content message = A2AActionRequest action parameters context ->
  dict_compatible parameters = true -> dict_compatible context = true ->
  reply_to message = None ->
  let run := http_post url (JObj (message_dict message)) w in
  (redis (snd run) = redis w /\ exists e, fst run = Raise e)
  \/ exists w_h,
      redis w_h = redis w
      /\ redis (snd run)
         = redis (snd (handle_action agent action parameters context w_h))
      /\ ((exists e, fst run = Raise e)
          \/ exists response,
               fst run
               = Ok (200, JObj (model_dump
                                  {| by_alias := true; exclude_none := false |}
                                  response))
               /\ content response
                  = action_response action
                      (fst (handle_action agent action parameters context w_h))).
Proof.
  intros Hsvc Hc Hp Hx Hr. unfold http_post.
  destruct (connect_fault (clock w) url) as [e|].
  { left. simpl. eauto. }
  rewrite Hsvc. unfold receive_message.
  rewrite message_dict_roundtrip.
  2:{ rewrite Hc. reflexivity. }
  2:{ rewrite Hc. simpl. rewrite Hp, Hx. reflexivity. }
  2:{ rewrite Hr. discriminate. }
  right. exists (tick (tick w)). split; [reflexivity|].
  destruct (process_action_request agent message action parameters context
              (tick (tick w)) Hc) as (Hredis & Hcontent).
  destruct (process_message agent message (tick (tick w))) as [response w2].
  simpl in *. destruct (response_fault (clock w2) url) as [e|]; simpl.
  - split; [exact Hredis|]. left. eauto.
  - split; [exact Hredis|]. right. eauto.
Qed.

Lemma action_response_valid (action : string) (r : res dict) :
  valid_content (action_response action r) = true.
Proof. destruct r; reflexivity. Qed.

Lemma iteration_of_update_state (r : gmap string (gmap string json))
    (task_id t : string) (updates : gmap string json) :
  updates !! "iteration" = None ->
  iteration_of (update_state r task_id updates) t = iteration_of r t.
Proof.
  intros Hu. unfold update_state. apply iteration_of_insert.
  apply lookup_union_r. exact Hu.
Qed.

Lemma evaluations_app (d1 d2 : list event) :
  evaluations (d1 ++ d2) = evaluations d1 ++ evaluations d2.
Proof.
  induction d1 as [|e d1 IH]; simpl; [reflexivity|].
  destruct e; simpl; rewrite IH; reflexivity.
Qed.

Lemma evaluations_stepped (task_id status current_agent agent action : string)
    (parameters : dict) (o : outcome dict) (d : list event) :
  stepped task_id status current_agent agent action parameters o d ->
  evaluations d = [].
Proof.
  intros (d' & -> & message & _ & Hd).
  destruct Hd as [[[->| ->] _]|(response & -> & _)]; reflexivity.
Qed.

#[local] Opaque http_post model_validate message_dict model_dump update_state.

Lemma real_step (task_id status current_agent agent action : string)
    (parameters : dict) (s : CState) :
  In agent agent_keys ->
  dict_compatible parameters = true ->
  let run := pipeline_step http_post task_id status current_agent agent action
               parameters s in
  let r0 := update_state (redis (env s)) task_id
              {[ "status" := JStr status; "current_agent" := JStr current_agent ]} in
  exists w_h,
    redis w_h = r0
    /\ ((redis (env (snd run)) = r0 /\ exists e, fst run = Raised e)
        \/ (redis (env (snd run))
            = redis (snd (handle_action (agent_for agent) action parameters [] w_h))
            /\ ((exists result,
                    fst (handle_action (agent_for agent) action parameters [] w_h)
                    = Ok result
                    /\ fst run = Returned result)
                \/ exists e, fst run = Raised e))).
Proof.
  intros Hin Hp. destruct (service_of_key agent Hin) as (url & Hurl & Hsvc).
  unfold pipeline_step, cbind, coordinator_update_state, call_agent_action,
    action_request, in_env, cbind. simpl.
  unfold send_message. rewrite Hurl.
  unfold try_except, cbind, log, in_env. simpl.
  match goal with
  | |- context [ http_post ?u (JObj (message_dict ?m)) ?w ] =>
      pose proof (http_post_request u (agent_for agent) m action parameters []
                    w Hsvc eq_refl Hp eq_refl eq_refl) as Hpost;
      destruct (http_post u (JObj (message_dict m)) w)
        as [[[code body]|e] w2]
  end; simpl in Hpost.
  - destruct Hpost as [(_ & e & He)|(w_h & Hw & Hredis & Hres)]; [discriminate|].
    exists w_h. split; [exact Hw|]. right.
    destruct Hres as [(e & He)|(response & [= -> ->] & Hcontent)]; [discriminate|].
    simpl.
    rewrite model_dump_roundtrip
      by (rewrite Hcontent; apply action_response_valid).
    simpl. split; [exact Hredis|].
    unfold response_result. rewrite Hcontent.
    destruct (fst (handle_action (agent_for agent) action parameters [] w_h))
      as [result|e]; simpl; eauto.
  - destruct Hpost as [(Hredis & _)|(w_h & Hw & Hredis & _)].
    + exists w2. split; [exact Hredis|]. left.
      split; [destruct (exn_class_of e); exact Hredis|].
      destruct (exn_class_of e); simpl; eauto.
    + exists w_h. split; [exact Hw|]. right.
      split; [destruct (exn_class_of e); exact Hredis|].
      right. destruct (exn_class_of e); simpl; eauto.
Qed.

(** A step served by an agent other than the search strategist leaves the
    counter of every task as it was, whatever the outcome of the step. *)
Lemma keep_step (task_id status current_agent agent action : string)
    (parameters : dict) (s : CState) :
  In agent ["topic_refiner"; "question_architect"; "data_analyst";
            "report_writer"] ->
  dict_compatible parameters = true ->
  let run := pipeline_step http_post task_id status current_agent agent action
               parameters s in
  exists d,
    events (snd run) = events s ++ d
    /\ evaluations d = []
    /\ forall t, iteration_of (redis (env (snd run))) t
                 = iteration_of (redis (env s)) t.
Proof.
  intros Hin Hp run.
  destruct (pipeline_step_emits http_post task_id status current_agent agent
              action parameters s) as (d & Hd & Hs).
  exists d. split; [exact Hd|]. split; [eapply evaluations_stepped, Hs|].
  intros t.
  assert (Hk : In agent agent_keys) by (simpl in *; tauto).
  destruct (real_step task_id status current_agent agent action parameters s
              Hk Hp) as (w_h & Hw & Hcases).
  fold run in Hcases.
  assert (H0 : iteration_of (redis w_h) t = iteration_of (redis (env s)) t).
  { rewrite Hw. apply iteration_of_update_state. reflexivity. }
  destruct Hcases as [(-> & _)|(-> & _)].
  - rewrite <- Hw. exact H0.
  - rewrite <- H0.
    assert (Hs' : exists uri, In (uri, agent_for agent) services
                              /\ uri <> "agent://search-strategist").
    { simpl in Hin. destruct Hin as [<-|[<-|[<-|[<-|[]]]]];
        eexists; (split; [|shelve]); unfold services; simpl; eauto 6.
      Unshelve. all: discriminate. }
    destruct Hs' as (uri & Hsvc & Hne).
    apply (keeps_other_agents uri _ action parameters [] Hsvc Hne).
Qed.

(** A successful search step adds one to the counter of the task. *)
Lemma search_step (task_id : string) (s : CState) :
  let run := pipeline_step http_post task_id "searching"
               "Agent Search Strategist" "search_strategist" "execute_search"
               [("task_id", JStr task_id); ("max_results", JInt 2)] s in
  exists d,
    events (snd run) = events s ++ d
    /\ evaluations d = []
    /\ forall n result,
         fst run = Returned result ->
         iteration_of (redis (env s)) task_id = Some (JInt n) ->
         iteration_of (redis (env (snd run))) task_id = Some (JInt (n + 1)).
Proof.
  intros run.
  destruct (pipeline_step_emits http_post task_id "searching"
              "Agent Search Strategist" "search_strategist" "execute_search"
              [("task_id", JStr task_id); ("max_results", JInt 2)] s)
    as (d & Hd & Hs).
  exists d. split; [exact Hd|]. split; [eapply evaluations_stepped, Hs|].
  intros n result Hret Hn.
  destruct (real_step task_id "searching" "Agent Search Strategist"
              "search_strategist" "execute_search"
              [("task_id", JStr task_id); ("max_results", JInt 2)] s)
    as (w_h & Hw & Hcases).
  { unfold agent_keys. simpl. tauto. }
  { reflexivity. }
  fold run in Hcases.
  destruct Hcases as [(_ & e & He)|(Hredis & Hres)]; [congruence|].
  destruct Hres as [(result' & Hh & _)|(e & He)]; [|congruence].
  rewrite Hredis.
  change (handle_action (agent_for "search_strategist") "execute_search")
    with _execute_search in *.
  destruct (_execute_search [("task_id", JStr task_id); ("max_results", JInt 2)]
              [] w_h) as [r w'] eqn:E. simpl in Hh. subst r.
  eapply execute_search_counts; [|exact E|].
  - reflexivity.
  - rewrite Hw. rewrite iteration_of_update_state by reflexivity. exact Hn.
Qed.

(** *** The evaluations of the continuation policy *)

Lemma counted_none (n : Z) (d : list event) : evaluations d = [] -> counted n d.
Proof. intros E k snapshot. rewrite E. discriminate. Qed.

Lemma counted_after (n : Z) (d1 d2 : list event) :
  evaluations d1 = [] -> counted n d2 -> counted n (d1 ++ d2).
Proof.
  intros E H2 k snapshot. rewrite evaluations_app, E. apply H2.
Qed.

Lemma counted_evaluated (n : Z) (state : gmap string json) (decision : res string)
    (d : list event) :
  state !! "iteration" = Some (JInt (n + 1)) ->
  counted (n + 1) d ->
  counted n (Evaluated (Some state) decision :: d).
Proof.
  intros Hs Hd [|k] snapshot; simpl.
  - intros [= <-]. exists state. split; [reflexivity|].
    rewrite Hs. do 2 f_equal. lia.
  - intros Hk. destruct (Hd k snapshot Hk) as (st & -> & Hst).
    exists st. split; [reflexivity|]. rewrite Hst. do 2 f_equal. lia.
Qed.

Lemma research_loop_turn (post : string -> json -> Env -> res http_response * Env)
    (fuel : nat) (task_id : string) (iteration : Z) (max_iterations : json) :
  research_loop post (S fuel) task_id iteration max_iterations
  = cbind (in_env (lift (py_int_lt iteration max_iterations)))
      (fun go_on : bool =>
         if go_on then
           cbind (pipeline_step post task_id "generating_questions"
                    "Prof. Question Architect" "question_architect"
                    "generate_questions" [("task_id", JStr task_id)])
             (fun _ =>
                cbind (pipeline_step post task_id "searching"
                         "Agent Search Strategist" "search_strategist"
                         "execute_search"
                         [("task_id", JStr task_id); ("max_results", JInt 2)])
                  (fun _ =>
                     cbind (pipeline_step post task_id "analyzing"
                              "Dr. Data Analyst" "data_analyst" "analyze_results"
                              [("task_id", JStr task_id)])
                       (fun result =>
                          cbind (check_format_2f
                                   (get_or "quality_score" (JInt 0) result))
                            (fun _ =>
                               cbind (coordinator_should_continue task_id)
                                 (fun decision =>
                                    if String.eqb decision "finalize"
                                    then cret tt
                                    else research_loop post fuel task_id
                                           (iteration + 1) max_iterations)))))
         else cret tt).
Proof. reflexivity. Qed.

Lemma check_format_2f_state (v : json) (s : CState) :
  snd (check_format_2f v s) = s.
Proof. destruct v; reflexivity. Qed.

Lemma check_slice_state (v : json) (s : CState) : snd (check_slice v s) = s.
Proof. destruct v; reflexivity. Qed.

Lemma loop_counted (fuel : nat) (task_id : string) (max_iterations : json) :
  forall (iteration : Z) (s : CState) (n : Z),
    iteration_of (redis (env s)) task_id = Some (JInt n) ->
    exists d,
      events (snd (research_loop http_post fuel task_id iteration
                     max_iterations s))
      = events s ++ d
      /\ counted n d.
Proof.
  induction fuel as [|fuel IH]; intros iteration s n Hn.
  - exists []. rewrite app_nil_r. split; [|apply counted_none; reflexivity].
    simpl. unfold cbind, in_env, lift.
    destruct (py_int_lt iteration max_iterations) as [[|]|e]; reflexivity.
  - rewrite research_loop_turn. unfold cbind at 1. unfold in_env, lift.
    destruct (py_int_lt iteration max_iterations) as [[|]|e]; cbn [env events].
    2-3: exists []; rewrite app_nil_r; split;
           [reflexivity|apply counted_none; reflexivity].
    set (s0 := {| env := env s; events := events s |}).
    assert (Hn0 : iteration_of (redis (env s0)) task_id = Some (JInt n)) by exact Hn.
    change (events s) with (events s0). clearbody s0. clear Hn.
    (* the question architect *)
    unfold cbind at 1.
    destruct (keep_step task_id "generating_questions" "Prof. Question Architect"
                "question_architect" "generate_questions"
                [("task_id", JStr task_id)] s0) as (d1 & Hd1 & He1 & Hk1);
      [simpl; tauto|reflexivity|].
    destruct (pipeline_step http_post task_id "generating_questions" _ _ _ _ s0)
      as [[r1|e1|] s1]; cbn [fst snd] in *.
    2-3: exists d1; split; [exact Hd1|apply counted_none, He1].
    (* the search strategist *)
    unfold cbind at 1.
    destruct (search_step task_id s1) as (d2 & Hd2 & He2 & Hk2).
    destruct (pipeline_step http_post task_id "searching" _ _ _ _ s1)
      as [[r2|e2|] s2]; cbn [fst snd] in *.
    2-3: exists (d1 ++ d2); split;
           [rewrite Hd2, Hd1, app_assoc; reflexivity
           |apply counted_none; rewrite evaluations_app, He1, He2; reflexivity].
    specialize (Hk2 n r2 eq_refl). rewrite Hk1 in Hk2. specialize (Hk2 Hn0).
    (* the data analyst *)
    unfold cbind at 1.
    destruct (keep_step task_id "analyzing" "Dr. Data Analyst"
                "data_analyst" "analyze_results"
                [("task_id", JStr task_id)] s2) as (d3 & Hd3 & He3 & Hk3);
      [simpl; tauto|reflexivity|].
    destruct (pipeline_step http_post task_id "analyzing" _ _ _ _ s2)
      as [[r3|e3|] s3]; cbn [fst snd] in *.
    2-3: exists (d1 ++ d2 ++ d3); split;
           [rewrite Hd3, Hd2, Hd1, !app_assoc; reflexivity
           |apply counted_none; rewrite !evaluations_app, He1, He2, He3;
            reflexivity].
    rewrite <- Hk3 in Hk2.
    assert (Hpre : events s3 = events s0 ++ (d1 ++ d2 ++ d3))
      by (rewrite Hd3, Hd2, Hd1, !app_assoc; reflexivity).
    assert (Epre : evaluations (d1 ++ d2 ++ d3) = [])
      by (rewrite !evaluations_app, He1, He2, He3; reflexivity).
    clear Hd1 Hd2 Hd3 He1 He2 He3 Hk1 Hk3 Hn0.
    (* the check of the quality score, then the policy *)
    unfold cbind at 1.
    pose proof (check_format_2f_state (get_or "quality_score" (JInt 0) r3) s3)
      as Hc.
    destruct (check_format_2f _ s3) as [[[]|e4|] s4]; cbn [fst snd] in *; subst s4.
    2-3: exists (d1 ++ d2 ++ d3); split;
           [exact Hpre|apply counted_none, Epre].
    unfold cbind at 1. unfold coordinator_should_continue.
    unfold iteration_of in Hk2.
    destruct (get_state (redis (env s3)) task_id) as [state|] eqn:Hst;
      [|discriminate].
    destruct (should_continue (redis (env s3)) task_id) as [decision|e5] eqn:Hdec.
    + destruct (String.eqb decision "finalize").
      * exists ((d1 ++ d2 ++ d3) ++ [Evaluated (Some state) (Ok decision)]).
        split; [cbn [snd events cret]; rewrite Hpre, <- !app_assoc; reflexivity|].
        apply counted_after; [exact Epre|].
        apply counted_evaluated; [exact Hk2|apply counted_none; reflexivity].
      * match goal with
        | |- context [ research_loop http_post fuel task_id ?i max_iterations ?s' ] =>
            destruct (IH i s' (n + 1)) as (d5 & Hd5 & Hc5)
        end.
        { unfold iteration_of. cbn [env]. rewrite Hst. exact Hk2. }
        exists ((d1 ++ d2 ++ d3) ++ Evaluated (Some state) (Ok decision) :: d5).
        split.
        -- rewrite Hd5. cbn [events]. rewrite Hpre, <- !app_assoc. reflexivity.
        -- apply counted_after; [exact Epre|].
           apply counted_evaluated; assumption.
    + exists ((d1 ++ d2 ++ d3) ++ [Evaluated (Some state) (Raise e5)]).
      split; [cbn [snd events]; rewrite Hpre, <- !app_assoc; reflexivity|].
      apply counted_after; [exact Epre|].
      apply counted_evaluated; [exact Hk2|apply counted_none; reflexivity].
Qed.

Lemma counted_before (n : Z) (d1 d2 : list event) :
  counted n d1 -> evaluations d2 = [] -> counted n (d1 ++ d2).
Proof.
  intros H1 E k snapshot. rewrite evaluations_app, E, app_nil_r. apply H1.
Qed.

Lemma body_counted (fuel : nat) (task_id : string) (s : CState) (n : Z) :
  iteration_of (redis (env s)) task_id = Some (JInt n) ->
  exists d,
    events (snd (workflow_body http_post fuel task_id s)) = events s ++ d
    /\ counted n d.
Proof.
  intros Hn. unfold workflow_body. unfold cbind at 1. cbn [fst snd].
  (* the topic refiner *)
  unfold cbind at 1.
  destruct (keep_step task_id "refining_topic" "Dr. Topic Refiner"
              "topic_refiner" "refine_topic" [("task_id", JStr task_id)] s)
    as (d1 & Hd1 & He1 & Hk1); [simpl; tauto|reflexivity|].
  destruct (pipeline_step http_post task_id "refining_topic" _ _ _ _ s)
    as [[r1|e1|] s1]; cbn [fst snd] in *.
  2-3: exists d1; split; [exact Hd1|apply counted_none, He1].
  rewrite <- Hk1 in Hn.
  unfold cbind at 1.
  pose proof (check_slice_state (get_or "refined_topic" (JStr "") r1) s1) as Hc.
  destruct (check_slice _ s1) as [[[]|e2|] s2]; cbn [fst snd] in *; subst s2.
  2-3: exists d1; split; [exact Hd1|apply counted_none, He1].
  unfold cbind at 1.
  destruct (get_state (redis (env s)) task_id) as [state|]; cbn [cret craise].
  2:{ exists d1. split; [exact Hd1|apply counted_none, He1]. }
  (* the loop *)
  unfold cbind at 1.
  destruct (loop_counted fuel task_id (state_get state "max_iterations" (JInt 2))
              0 s1 n Hn) as (d2 & Hd2 & Hc2).
  destruct (research_loop http_post fuel task_id 0 _ s1) as [[[]|e3|] s3];
    cbn [fst snd] in *.
  2-3: exists (d1 ++ d2); split;
         [rewrite Hd2, Hd1, app_assoc; reflexivity
         |apply counted_after; assumption].
  (* the report writer *)
  unfold cbind at 1.
  destruct (keep_step task_id "generating_report" "Dr. Report Writer"
              "report_writer" "generate_report" [("task_id", JStr task_id)] s3)
    as (d3 & Hd3 & He3 & _); [simpl; tauto|reflexivity|].
  destruct (pipeline_step http_post task_id "generating_report" _ _ _ _ s3)
    as [[r3|e4|] s4]; cbn [fst snd] in *.
  2-3: exists (d1 ++ d2 ++ d3); split;
         [rewrite Hd3, Hd2, Hd1, !app_assoc; reflexivity
         |apply counted_after; [assumption|];
          apply counted_before; assumption].
  unfold cbind at 1. unfold coordinator_update_state, cret. cbn [fst snd events].
  exists (d1 ++ d2 ++ d3 ++ [StateWrite task_id {[ "status" := JStr "completed" ]}]).
  split; [rewrite Hd3, Hd2, Hd1, <- !app_assoc; reflexivity|].
  apply counted_after; [assumption|].
  apply counted_before; [assumption|].
  rewrite evaluations_app, He3. reflexivity.
Qed.

Lemma workflow_counted (fuel : nat) (task_id : string) (s : CState) (n : Z) :
  iteration_of (redis (env s)) task_id = Some (JInt n) ->
  exists d,
    events (snd (run_workflow http_post fuel task_id s)) = events s ++ d
    /\ counted n d.
Proof.
  intros Hn. unfold run_workflow, try_except.
  destruct (body_counted fuel task_id s n Hn) as (d & Hd & Hc).
  destruct (workflow_body http_post fuel task_id s) as [[r|e|] s1];
    cbn [fst snd] in *.
  1,3: exists d; split; assumption.
  unfold workflow_failed, cbind, coordinator_update_state, cret.
  cbn [fst snd events].
  eexists. split; [rewrite Hd, <- app_assoc; reflexivity|].
  apply counted_before; [assumption|reflexivity].
Qed.

(** C9.  The record of a task has its ["iteration"] changed by the handler
    [execute_search] of the search strategist and by nothing else: the four
    other agents, and the other action of the search strategist, leave it as
    it was whatever they are asked; no write of the coordinator during a run
    sets it; a successful [execute_search] adds one to it.  So, in a run that
    starts from a record whose [iteration] is 0, the evaluation of
    [should_continue] number [k + 1] reads a record whose [iteration] is
    [k + 1]. *)
Theorem iteration_counts_searches (fuel : nat) (task_id : string) (s : CState) :
  (forall agent_uri agent action parameters context w t,
      In (agent_uri, agent) services ->
      agent_uri <> "agent://search-strategist" ->
      iteration_of (redis (snd (handle_action agent action parameters context w))) t
      = iteration_of (redis w) t)
  /\ (forall parameters context w t,
        iteration_of (redis (snd (_optimize_query parameters context w))) t
        = iteration_of (redis w) t)
  /\ (forall parameters context result w w' n,
        get_or_none "task_id" parameters = JStr task_id ->
        _execute_search parameters context w = (Ok result, w') ->
        iteration_of (redis w) task_id = Some (JInt n) ->
        iteration_of (redis w') task_id = Some (JInt (n + 1)))
  /\ exists d,
      events (snd (run_workflow http_post fuel task_id s)) = events s ++ d
      /\ (forall t u, In (StateWrite t u) d -> u !! "iteration" = None)
      /\ (iteration_of (redis (env s)) task_id = Some (JInt 0) ->
          forall (k : nat) snapshot,
            evaluations d !! k = Some snapshot ->
            exists state : gmap string json,
              snapshot = Some state
              /\ state !! "iteration" = Some (JInt (Z.of_nat k + 1))).
Proof.
  split; [|split; [|split]].
  - intros agent_uri agent action parameters context w t Hin Hne.
    apply (keeps_other_agents agent_uri agent action parameters context Hin Hne).
  - intros parameters context w t. apply keeps_optimize_query.
  - intros parameters context result w w' n Ht Hrun Hn.
    eapply execute_search_counts; eassumption.
  - destruct (spares_workflow http_post fuel task_id s) as (d & Hd & Hw).
    exists d. split; [exact Hd|]. split; [exact Hw|].
    intros H0 k snapshot Hk.
    destruct (workflow_counted fuel task_id s 0 H0) as (d' & Hd' & Hc).
    rewrite Hd in Hd'. apply app_inv_head in Hd'. subst d'.
    apply (Hc k snapshot Hk).
Qed.

End SystemFacts.

(** * Further properties *)

(** ** Envelopes on the wire *)

Section WireFacts.
Context `{Externals}.



(** X2.  The dict that [send_message] builds by hand holds, under every key, what
    [model_dump(by_alias=True, exclude_none=True)] holds, for an envelope with
    JSON values in its content and a [reply_to] that is absent or not
    empty. *)
Theorem message_dict_is_model_dump (m : A2AMessage) (k : string) :
  valid_content (content m) = true ->
  content_compatible (content m) = true ->
  reply_to m <> Some "" ->
  dict_get k (message_dict m)
  = dict_get k (model_dump {| by_alias := true; exclude_none := true |} m).
Proof.
  intros Hv Hc Hr. destruct m as [i t f c r ts md]. simpl in *.
  unfold message_dict, model_dump, super_model_dump. simpl.
  rewrite (content_model_dump_json_eq c Hv Hc).
  destruct r as [[|a r]|]; [congruence| |]; simpl;
    repeat match goal with
           | |- context [ String.eqb ?x ?s ] =>
               destruct (String.eqb_spec x s); subst
           end; try reflexivity; try discriminate;
    match goal with Hn : _ <> _ |- _ => exfalso; apply Hn; reflexivity end.
Qed.

Lemma has_error_vap_l {A B} (e : line_error) (f : validation (A -> B))
    (x : validation A) :
  has_error e f -> has_error e (f <*> x).
Proof.
  intros (errs & -> & Hin). destruct x as [a|e2]; simpl; eexists;
    (split; [reflexivity|]); [exact Hin|apply in_or_app; auto].
Qed.

Lemma has_error_vap_r {A B} (e : line_error) (f : validation (A -> B))
    (x : validation A) :
  has_error e x -> has_error e (f <*> x).
Proof.
  intros (errs & -> & Hin). destruct f as [g|e1]; simpl; eexists;
    (split; [reflexivity|]); [exact Hin|apply in_or_app; auto].
Qed.

Lemma required_missing {A} (d : dict) (alias name : string)
    (val : json -> validation A) :
  field d alias name = None ->
  has_error {| loc := [Key alias]; err_type := missing |}
    (required d alias name val).
Proof.
  intros Hf. unfold required. rewrite Hf. simpl.
  eexists. split; [reflexivity|]. left. reflexivity.
Qed.

(** X3.  An envelope without its [id], [to], [from] or [content] is not decoded:
    validation fails with an error [missing] at that field. *)
Theorem missing_field_rejected (now : string) (data : dict) (alias name : string) :
  In (alias, name)
     [("id", "id"); ("to", "to"); ("from", "from_agent"); ("content", "content")] ->
  field data alias name = None ->
  has_error {| loc := [Key alias]; err_type := missing |}
    (model_validate now data).
Proof.
  intros Hin Hf. unfold model_validate. simpl in Hin.
  destruct Hin as [[= <- <-]|[[= <- <-]|[[= <- <-]|[[= <- <-]|[]]]]].
  - do 6 apply has_error_vap_l. apply has_error_vap_r.
    apply required_missing, Hf.
  - do 5 apply has_error_vap_l. apply has_error_vap_r.
    apply required_missing, Hf.
  - do 4 apply has_error_vap_l. apply has_error_vap_r.
    apply required_missing, Hf.
  - do 3 apply has_error_vap_l. apply has_error_vap_r.
    apply required_missing, Hf.
Qed.










End WireFacts.

(** ** More of the workflow *)

Section WorkflowFacts.
Context `{Externals}.
Variable post : string -> json -> Env -> res http_response * Env.

Local Open Scope list_scope.

(** *** What a call returns *)

(** X5.  [call_agent_action] returns a result only when a response came back and
    said that the action was completed: an [ActionResponse] with the status
    [completed], whose result is returned, or a [StatusUpdate] with that
    status, for which the result is the empty dict. *)
Theorem call_returns_completed_result (agent_uri action : string)
    (parameters result : dict) (s : CState) :
  fst (call_agent_action post agent_uri action parameters s) = Returned result ->
  exists message response,
    events (snd (call_agent_action post agent_uri action parameters s))
    = events s ++ [MessageSent agent_uri message;
                   MessageReceived agent_uri response]
    /\ content message = A2AActionRequest action parameters []
    /\ ((exists a e md,
            content response = A2AActionResponse a result COMPLETED e md)
        \/ (result = []
            /\ exists p m, content response = A2AStatusUpdate COMPLETED p m)).
Proof.
  intros Hret.
  destruct (call_agent_action_emits post agent_uri action parameters s)
    as (d & Hd & message & Hc & Hcases).
  rewrite Hret in Hcases.
  destruct Hcases as [(_ & e & He)|(response & -> & Hres)]; [discriminate|].
  exists message, response. split; [exact Hd|]. split; [exact Hc|].
  unfold response_result in Hres.
  destruct (content response) as [a p ctx|a r [] e md| |caps ag|cd m dt|[] p m];
    try discriminate; injection Hres as ->; eauto 6.
Qed.

(** *** How a run ends *)

Lemma cbind_returned {A B} (m : C A) (k : A -> C B) (s s' : CState) (b : B) :
  cbind m k s = (Returned b, s') ->
  exists a s1, m s = (Returned a, s1) /\ k a s1 = (Returned b, s').
Proof.
  unfold cbind. destruct (m s) as [[a|e|] s1]; try discriminate. eauto.
Qed.

Lemma body_returned (fuel : nat) (task_id : string) (s s' : CState) (a : dict) :
  workflow_body post fuel task_id s = (Returned a, s') ->
  a = [("success", JBool true); ("task_id", JStr task_id)]
  /\ exists s0 r s1,
       pipeline_step post task_id "generating_report" "Dr. Report Writer"
         "report_writer" "generate_report" [("task_id", JStr task_id)] s0
       = (Returned r, s1)
       /\ s' = snd (coordinator_update_state task_id
                      {[ "status" := JStr "completed" ]} s1).
Proof.
  unfold workflow_body. intros E.
  do 4 (apply cbind_returned in E as (? & ? & _ & E)).
  apply cbind_returned in E as (? & s0 & _ & E).
  apply cbind_returned in E as (r & s1 & Er & E).
  apply cbind_returned in E as (? & s2 & E1 & E).
  unfold cret in E. injection E as <- <-.
  split; [reflexivity|]. exists s0, r, s1. rewrite E1. auto.
Qed.

Lemma status_after_update (r : gmap string (gmap string json))
    (task_id k : string) (v : json) (updates : gmap string json) :
  updates !! k = Some v ->
  exists state,
    get_state (update_state r task_id updates) task_id = Some state
    /\ state !! k = Some v.
Proof.
  intros Hu. eexists. unfold get_state, update_state.
  split; [apply lookup_insert_eq|]. apply lookup_union_Some_l, Hu.
Qed.

Lemma workflow_outcome (fuel : nat) (task_id : string) (s : CState) :
  (forall state, get_state (redis (env s)) task_id = Some state ->
     exists m, state_get state "max_iterations" (JInt 2) = JInt m
               /\ (Z.to_nat m <= fuel)%nat) ->
  exists result state,
    fst (run_workflow post fuel task_id s) = Returned result
    /\ get_state (redis (env (snd (run_workflow post fuel task_id s)))) task_id
       = Some state
    /\ ((result = [("success", JBool true); ("task_id", JStr task_id)]
         /\ state !! "status" = Some (JStr "completed"))
        \/ exists e,
             result = [("success", JBool false);
                       ("error", JStr ("Workflow error: " ++ e))]
             /\ state !! "status" = Some (JStr "failed")
             /\ state !! "error" = Some (JStr ("Workflow error: " ++ e))).
Proof.
  intros Hmax.
  destruct (run_workflow_finishes post fuel task_id s Hmax) as (result & Hret).
  unfold run_workflow, try_except in *.
  destruct (workflow_body post fuel task_id s) as [[r|e|] s1] eqn:E;
    simpl in *; [| |discriminate].
  - apply body_returned in E as (-> & _ & _ & s0 & _ & ->). injection Hret as <-.
    simpl.
    destruct (status_after_update (redis (env s0)) task_id "status"
                (JStr "completed") {[ "status" := JStr "completed" ]})
      as (state & Hs & Hst); [reflexivity|].
    exists [("success", JBool true); ("task_id", JStr task_id)], state. auto.
  - injection Hret as <-.
    eexists _, _. split; [reflexivity|].
    split; [unfold get_state, update_state; apply lookup_insert_eq|].
    right. exists (exn_str e). split; [reflexivity|].
    split; apply lookup_union_Some_l; reflexivity.
Qed.

(** X6.  [run_workflow] never raises.  Given as many turns of the loop as the
    [max_iterations] of the record, it returns, and what it returns agrees
    with the status it leaves in the record: success with ["completed"], or
    failure with ["failed"] and the same error in the record as in the
    result. *)
Theorem run_workflow_outcome (fuel : nat) (task_id : string) (s : CState) :
  (forall state, get_state (redis (env s)) task_id = Some state ->
     exists m, state_get state "max_iterations" (JInt 2) = JInt m
               /\ (Z.to_nat m <= fuel)%nat) ->
  exists result state,
    fst (run_workflow post fuel task_id s) = Returned result
    /\ get_state (redis (env (snd (run_workflow post fuel task_id s)))) task_id
       = Some state
    /\ ((result = [("success", JBool true); ("task_id", JStr task_id)]
         /\ state !! "status" = Some (JStr "completed"))
        \/ exists e,
             result = [("success", JBool false);
                       ("error", JStr ("Workflow error: " ++ e))]
             /\ state !! "status" = Some (JStr "failed")
             /\ state !! "error" = Some (JStr ("Workflow error: " ++ e))).
Proof. apply workflow_outcome. Qed.

(** *** The size of a run *)

Lemma count_sends_app (d1 d2 : list event) :
  count_sends (d1 ++ d2) = (count_sends d1 + count_sends d2)%nat.
Proof. unfold count_sends. rewrite filter_app, length_app. reflexivity. Qed.

Lemma within_weaken (e n e' n' : nat) {A} (m : C A) :
  (e <= e')%nat -> (n <= n')%nat ->
  emits (within e n) m -> emits (within e' n') m.
Proof.
  intros He Hn. apply emits_weaken. intros o d [H1 H2]. split; lia.
Qed.

Lemma within_bind (e1 n1 e2 n2 : nat) {A B} (m : C A) (k : A -> C B) :
  emits (within e1 n1) m -> (forall a, emits (within e2 n2) (k a)) ->
  emits (within (e1 + e2) (n1 + n2)) (cbind m k).
Proof.
  intros Hm Hk. eapply emits_bind; [exact Hm|exact Hk|..].
  - intros a d1 o d2 [H1 H2] [H3 H4]. unfold within.
    rewrite evaluations_app, length_app, count_sends_app. lia.
  - intros e d [H1 H2]. split; lia.
  - intros d [H1 H2]. split; lia.
Qed.

Lemma within_nil {A} (o : outcome A) : within 0 0 o [].
Proof. split; reflexivity. Qed.

Lemma within_step (task_id status current_agent agent action : string)
    (parameters : dict) :
  emits (within 0 1)
    (pipeline_step post task_id status current_agent agent action parameters).
Proof.
  eapply emits_weaken; [|apply pipeline_step_emits].
  intros o d (d' & -> & message & _ & Hd).
  destruct Hd as [[[->| ->] _]|(response & -> & _)]; split; unfold count_sends; simpl; lia.
Qed.

Lemma within_update (task_id : string) (updates : gmap string json) :
  emits (within 0 0) (coordinator_update_state task_id updates).
Proof. intros s. eexists. split; [reflexivity|]. split; unfold count_sends; simpl; lia. Qed.

Lemma within_should_continue (task_id : string) :
  emits (within 1 0) (coordinator_should_continue task_id).
Proof.
  intros s. unfold coordinator_should_continue.
  destruct (should_continue _ _); simpl; (eexists; split; [reflexivity|]);
    split; unfold count_sends; simpl; lia.
Qed.

Lemma within_check_slice (v : json) : emits (within 0 0) (check_slice v).
Proof.
  destruct v; first [apply emits_ret|apply emits_raise]; apply within_nil.
Qed.

Lemma within_check_format (v : json) : emits (within 0 0) (check_format_2f v).
Proof.
  destruct v; first [apply emits_ret|apply emits_raise]; apply within_nil.
Qed.

Lemma emits_lift_bind {A B} (Q : outcome B -> list event -> Prop) (a : A)
    (k : A -> C B) :
  emits Q (k a) -> emits Q (cbind (in_env (lift (Ok a))) k).
Proof.
  intros Hk s. unfold cbind, in_env, lift.
  destruct (Hk {| env := env s; events := events s |}) as (d & Hd & Hq).
  exists d. auto.
Qed.

Lemma loop_within (fuel : nat) (task_id : string) (m : Z) :
  forall iteration : Z,
    emits (within (Z.to_nat (m - iteration)) (3 * Z.to_nat (m - iteration)))
      (research_loop post fuel task_id iteration (JInt m)).
Proof.
  induction fuel as [|fuel IH]; intros iteration.
  - simpl. unfold py_int_lt. simpl. apply emits_lift_bind.
    destruct (iteration <? m).
    + intros s. exists []. simpl. rewrite app_nil_r.
      split; [reflexivity|]. split; unfold count_sends; simpl; lia.
    + apply emits_ret. split; unfold count_sends; simpl; lia.
  - rewrite research_loop_turn. unfold py_int_lt. simpl.
    apply emits_lift_bind.
    destruct (Z.ltb_spec iteration m) as [Hlt|Hge].
    2:{ apply emits_ret. split; unfold count_sends; simpl; lia. }
    apply (within_weaken (0 + (0 + (0 + (0 + (1 + Z.to_nat (m - (iteration + 1)))))))
             (1 + (1 + (1 + (0 + (0 + 3 * Z.to_nat (m - (iteration + 1))))))));
      [lia|lia|].
    apply within_bind; [apply within_step|intros _].
    apply within_bind; [apply within_step|intros _].
    apply within_bind; [apply within_step|intros result].
    apply within_bind; [apply within_check_format|intros _].
    apply within_bind; [apply within_should_continue|intros decision].
    destruct (String.eqb decision "finalize"); [|apply IH].
    apply emits_ret. split; unfold count_sends; simpl; lia.
Qed.

Lemma workflow_bounded (fuel : nat) (task_id : string) (s : CState) (m : Z) :
  (forall state, get_state (redis (env s)) task_id = Some state ->
     state_get state "max_iterations" (JInt 2) = JInt m) ->
  exists d,
    events (snd (run_workflow post fuel task_id s)) = events s ++ d
    /\ (length (evaluations d) <= Z.to_nat m)%nat
    /\ (count_sends d <= 3 * Z.to_nat m + 2)%nat.
Proof.
  intros Hmax. unfold run_workflow, try_except, workflow_body.
  unfold cbind at 1. cbn [fst snd].
  match goal with
  | |- context [ match ?body s with _ => _ end ] =>
      assert (Hbody : emits (within (Z.to_nat m) (3 * Z.to_nat m + 2)) body)
  end.
  { apply (within_weaken (0 + (0 + (Z.to_nat m + (0 + 0))))
             (1 + (0 + (3 * Z.to_nat m + (1 + 0))))); [lia|lia|].
    apply within_bind; [apply within_step|intros result].
    apply within_bind; [apply within_check_slice|intros _].
    destruct (get_state (redis (env s)) task_id) as [state|] eqn:Hst.
    - rewrite (Hmax state eq_refl). apply emits_ret_bind.
      apply (within_weaken (Z.to_nat (m - 0) + (0 + 0))
               (3 * Z.to_nat (m - 0) + (1 + 0)));
        [lia|lia|].
      apply within_bind; [apply loop_within|intros _].
      apply within_bind; [apply within_step|intros _].
      apply (within_weaken (0 + 0) (0 + 0)); [lia|lia|].
      apply within_bind; [apply within_update|intros _].
      apply emits_ret, within_nil.
    - apply emits_raise_bind. split; unfold count_sends; simpl; lia. }
  destruct (Hbody s) as (d & Hd & He & Hn).
  match goal with
  | |- context [ match ?body s with _ => _ end ] =>
      destruct (body s) as [[r|e|] s2]
  end; cbn [fst snd] in *.
  - exists d. split; [exact Hd|]. split; lia.
  - unfold workflow_failed, cbind, coordinator_update_state, cret.
    cbn [fst snd events].
    eexists. split; [rewrite Hd, <- app_assoc; reflexivity|].
    split; [rewrite evaluations_app, length_app|rewrite count_sends_app];
      unfold count_sends in *; simpl; lia.
  - exists d. split; [exact Hd|]. split; lia.
Qed.

(** X7.  A run evaluates [should_continue] at most [max_iterations] times and
    sends at most three messages for each of these turns, one before them
    and one after them. *)
Theorem run_is_bounded (fuel : nat) (task_id : string) (s : CState) (m : Z) :
  (forall state, get_state (redis (env s)) task_id = Some state ->
     state_get state "max_iterations" (JInt 2) = JInt m) ->
  exists d,
    events (snd (run_workflow post fuel task_id s)) = events s ++ d
    /\ (length (evaluations d) <= Z.to_nat m)%nat
    /\ (count_sends d <= 3 * Z.to_nat m + 2)%nat.
Proof. apply workflow_bounded. Qed.

(** *** The decision to finalize *)

Lemma no_evaluation_nil : no_evaluation [].
Proof. intros st dec []. Qed.

Lemma no_evaluation_app (d1 d2 : list event) :
  no_evaluation d1 -> no_evaluation d2 -> no_evaluation (d1 ++ d2).
Proof. intros H1 H2 st dec [Hin|Hin]%in_app_or; [eapply H1|eapply H2]; eauto. Qed.

Lemma no_evaluation_stepped (task_id status current_agent agent action : string)
    (parameters : dict) (o : outcome dict) (d : list event) :
  stepped task_id status current_agent agent action parameters o d ->
  no_evaluation d.
Proof.
  intros (d' & -> & message & _ & Hd) st dec Hin.
  destruct Hd as [[[->| ->] _]|(response & -> & _)]; simpl in Hin;
    intuition discriminate.
Qed.

Lemma quiet_step (task_id status current_agent agent action : string)
    (parameters : dict) :
  emits (fun _ d => no_evaluation d)
    (pipeline_step post task_id status current_agent agent action parameters).
Proof.
  eapply emits_weaken; [|apply pipeline_step_emits].
  intros o d Hs. eapply no_evaluation_stepped, Hs.
Qed.

Lemma quiet_check_format (v : json) :
  emits (fun _ d => no_evaluation d) (check_format_2f v).
Proof.
  destruct v; first [apply emits_ret|apply emits_raise]; apply no_evaluation_nil.
Qed.

Lemma quiet_check_slice (v : json) :
  emits (fun _ d => no_evaluation d) (check_slice v).
Proof.
  destruct v; first [apply emits_ret|apply emits_raise]; apply no_evaluation_nil.
Qed.

Lemma after_finalize_quiet {A} (P : outcome A -> list event -> Prop)
    (o : outcome A) (d : list event) :
  no_evaluation d -> after_finalize P o d.
Proof.
  intros Hno pre st rest ->. exfalso. apply (Hno st (Ok "finalize")).
  apply in_or_app. right. left. reflexivity.
Qed.

Lemma after_finalize_prefix {A B} (P : outcome B -> list event -> Prop)
    (m : C A) (k : A -> C B) :
  emits (fun _ d => no_evaluation d) m ->
  (forall a, emits (after_finalize P) (k a)) ->
  emits (after_finalize P) (cbind m k).
Proof.
  intros Hm Hk. eapply emits_bind; [exact Hm|exact Hk|..]; simpl.
  - intros a d1 o d2 H1 H2 pre st rest E. symmetry in E.
    apply app_eq_app_cons in E as [(r1 & -> & ->)|(p2 & -> & ->)].
    + exfalso. apply (H1 st (Ok "finalize")).
      apply in_or_app. right. left. reflexivity.
    + eapply H2. reflexivity.
  - intros e d Hno. apply after_finalize_quiet, Hno.
  - intros d Hno. apply after_finalize_quiet, Hno.
Qed.

Lemma loop_ends_at_finalize (fuel : nat) (task_id : string)
    (max_iterations : json) :
  forall iteration : Z,
    emits (after_finalize ends_loop)
      (research_loop post fuel task_id iteration max_iterations).
Proof.
  induction fuel as [|fuel IH]; intros iteration.
  - simpl. apply after_finalize_prefix.
    { apply emits_in_env. intros. apply no_evaluation_nil. }
    intros [|].
    + intros s. exists []. simpl. rewrite app_nil_r. split; [reflexivity|].
      apply after_finalize_quiet, no_evaluation_nil.
    + apply emits_ret, after_finalize_quiet, no_evaluation_nil.
  - rewrite research_loop_turn. apply after_finalize_prefix.
    { apply emits_in_env. intros. apply no_evaluation_nil. }
    intros [|]; [|apply emits_ret, after_finalize_quiet, no_evaluation_nil].
    apply after_finalize_prefix; [apply quiet_step|intros _].
    apply after_finalize_prefix; [apply quiet_step|intros _].
    apply after_finalize_prefix; [apply quiet_step|intros result].
    apply after_finalize_prefix; [apply quiet_check_format|intros _].
    intros s. unfold cbind, coordinator_should_continue. cbv zeta.
    destruct (should_continue (redis (env s)) task_id) as [decision|e].
    + destruct (String.eqb_spec decision "finalize") as [->|Hne].
      * eexists. split; [reflexivity|]. simpl.
        intros [|e0 [|e1 pre]] st rest E; simpl in E; inversion E.
        split; reflexivity.
      * match goal with
        | |- context [ research_loop post fuel task_id ?i max_iterations ?s' ] =>
            destruct (IH i s') as (d5 & Hd5 & Hq5)
        end.
        eexists. split.
        { rewrite Hd5. cbn [events]. rewrite <- app_assoc. reflexivity. }
        intros [|e0 pre] st rest E; simpl in E; injection E.
        -- intros _ Hd _. congruence.
        -- intros E' _. eapply Hq5. exact E'.
    + eexists. split; [reflexivity|]. simpl.
      intros [|e0 [|e1 pre]] st rest E; simpl in E; inversion E.
Qed.

Lemma reports_only_nil : reports_only [].
Proof. split; [apply no_evaluation_nil|intros u m []]. Qed.

Lemma reports_only_app (d1 d2 : list event) :
  reports_only d1 -> reports_only d2 -> reports_only (d1 ++ d2).
Proof.
  intros [H1 H2] [H3 H4]. split; [apply no_evaluation_app; assumption|].
  intros u m [Hin|Hin]%in_app_or; eauto.
Qed.

Lemma reports_only_write (task_id : string) (updates : gmap string json) :
  reports_only [StateWrite task_id updates].
Proof.
  split; [intros st dec [E|[]]; discriminate|intros u m [E|[]]; discriminate].
Qed.

Lemma report_step_reports_only (task_id status current_agent : string)
    (parameters : dict) :
  emits (fun _ d => reports_only d)
    (pipeline_step post task_id status current_agent "report_writer"
       "generate_report" parameters).
Proof.
  eapply emits_weaken; [|apply pipeline_step_emits].
  intros o d Hs. split; [eapply no_evaluation_stepped, Hs|].
  destruct Hs as (d' & -> & message & Hc & Hd).
  intros u m Hin.
  destruct Hd as [[[->| ->] _]|(response & -> & _)]; simpl in Hin;
    repeat destruct Hin as [Hin|Hin]; try discriminate; try contradiction;
    injection Hin as <- <-; eauto.
Qed.

Lemma body_after_finalize (fuel : nat) (task_id : string) :
  emits (after_finalize (fun _ rest => reports_only rest))
    (workflow_body post fuel task_id).
Proof.
  unfold workflow_body.
  apply after_finalize_prefix.
  { intros s. exists []. simpl. rewrite app_nil_r. split; [reflexivity|].
    apply no_evaluation_nil. }
  intros state.
  apply after_finalize_prefix; [apply quiet_step|intros result].
  apply after_finalize_prefix; [apply quiet_check_slice|intros _].
  apply after_finalize_prefix.
  { destruct state; [apply emits_ret|apply emits_raise]; apply no_evaluation_nil. }
  intros max_iterations.
  eapply emits_bind with (Qk := fun _ d => reports_only d);
    [apply loop_ends_at_finalize| |..].
  - intros _.
    eapply emits_bind with (Qk := fun _ d => reports_only d);
      [apply report_step_reports_only| |..]; simpl; auto.
    + intros _.
      eapply emits_bind with (Qk := fun _ d => reports_only d)
                             (Qm := fun _ d => reports_only d).
      * intros s. eexists. split; [reflexivity|]. apply reports_only_write.
      * intros _. apply emits_ret, reports_only_nil.
      * intros. apply reports_only_app; assumption.
      * auto.
      * auto.
    + intros. apply reports_only_app; assumption.
  - intros a d1 o d2 H1 [H2 H3] pre st rest E. symmetry in E.
    apply app_eq_app_cons in E as [(r1 & -> & ->)|(p2 & -> & ->)].
    + destruct (H1 pre st r1 eq_refl) as (-> & _). split; assumption.
    + exfalso. apply (H2 st (Ok "finalize")).
      apply in_or_app. right. left. reflexivity.
  - intros e d H1 pre st rest E.
    destruct (H1 pre st rest E) as (_ & He). discriminate.
  - intros d H1 pre st rest E.
    destruct (H1 pre st rest E) as (_ & He). discriminate.
Qed.

(** X8.  Once [should_continue] has decided to finalize, the research is over:
    in what follows in the run there is no further evaluation, and no message
    but the request to the report writer for its report. *)
Theorem finalize_ends_research (fuel : nat) (task_id : string) (s : CState) :
  exists d,
    events (snd (run_workflow post fuel task_id s)) = events s ++ d
    /\ forall pre state rest,
         d = pre ++ Evaluated state (Ok "finalize") :: rest ->
         (forall state' decision, ~ In (Evaluated state' decision) rest)
         /\ forall agent_uri message,
              In (MessageSent agent_uri message) rest ->
              agent_uri = AGENT_URIS "report_writer"
              /\ exists parameters context,
                   content message
                   = A2AActionRequest "generate_report" parameters context.
Proof.
  assert (Hrun : emits (after_finalize (fun _ rest => reports_only rest))
                   (run_workflow post fuel task_id)).
  2:{ destruct (Hrun s) as (d & Hd & Hq). exists d. split; [exact Hd|].
      intros pre st rest E. exact (Hq pre st rest E). }
  unfold run_workflow.
  eapply emits_try with (Qh := fun _ d => reports_only d);
    [apply body_after_finalize| |..]; simpl; auto.
  - intros e. unfold workflow_failed.
    eapply emits_bind with (Qk := fun _ d => reports_only d)
                           (Qm := fun _ d => reports_only d).
    + intros s0. eexists. split; [reflexivity|]. apply reports_only_write.
    + intros _. apply emits_ret, reports_only_nil.
    + intros. apply reports_only_app; assumption.
    + auto.
    + auto.
  - intros e d1 o d2 H1 [H2 H3] pre st rest E. symmetry in E.
    apply app_eq_app_cons in E as [(r1 & -> & ->)|(p2 & -> & ->)].
    + apply reports_only_app; [exact (H1 pre st r1 eq_refl)|split; assumption].
    + exfalso. apply (H2 st (Ok "finalize")).
      apply in_or_app. right. left. reflexivity.
Qed.

(** *** An agent that cannot be reached *)

(** X9.  When no connection can be made, the run ends at its first call: the
    coordinator sends one message, to the topic refiner, and the run returns
    the failure ["Cannot connect to agent"], which it also leaves in the
    record. *)
Theorem unreachable_agents_fail_the_run (fuel : nat) (task_id : string)
    (s : CState) :
  (forall url body w,
      exists text w', post url body w = (Raise (Exn ConnectError text), w')) ->
  let error_msg :=
    "Workflow error: Cannot connect to agent agent://topic-refiner" in
  fst (run_workflow post fuel task_id s)
  = Returned [("success", JBool false); ("error", JStr error_msg)]
  /\ exists message,
       events (snd (run_workflow post fuel task_id s))
       = events s
         ++ [StateWrite task_id
               {[ "status" := JStr "refining_topic";
                  "current_agent" := JStr "Dr. Topic Refiner" ]};
             MessageSent "agent://topic-refiner" message;
             StateWrite task_id
               {[ "status" := JStr "failed"; "error" := JStr error_msg ]}].
Proof.
  intros Hpost error_msg.
  assert (Hurl : exists url,
             assoc (AGENT_URIS "topic_refiner") AGENT_SERVICES = Some url).
  { unfold AGENT_SERVICES. destruct local_environment; eexists; reflexivity. }
  destruct Hurl as (url & Hurl).
  unfold run_workflow, workflow_body, pipeline_step, call_agent_action,
    action_request, send_message.
  rewrite Hurl.
  unfold try_except, cbind, in_env, log, coordinator_update_state. simpl.
  match goal with
  | |- context [ post ?u ?b ?w ] =>
      destruct (Hpost u b w) as (text & w' & ->)
  end.
  simpl. split; [reflexivity|].
  eexists. rewrite <- !app_assoc. reflexivity.
Qed.

End WorkflowFacts.

(** ** More of the agents *)

Section HandlerFacts.
Context `{Externals}.

Local Open Scope list_scope.

(** *** A handler without its task *)

Lemma load_task_missing (parameters : dict) (w : Env) :
  py_truthy (get_or_none "task_id" parameters) = false ->
  load_task parameters w = (Raise (Exn ValueError "task_id is required"), w).
Proof. intros Ht. unfold load_task. rewrite Ht. reflexivity. Qed.

Lemma load_task_unknown (parameters : dict) (w : Env) :
  py_truthy (get_or_none "task_id" parameters) = true ->
  (forall state,
      get_state (redis w) (py_str (get_or_none "task_id" parameters)) = Some state ->
      state = ∅) ->
  load_task parameters w
  = (Raise (Exn ValueError
              ("Task not found: " ++ py_str (get_or_none "task_id" parameters))),
     w).
Proof.
  intros Ht Hs. unfold load_task. rewrite Ht. simpl.
  destruct (get_state _ _) as [state|]; [|reflexivity].
  rewrite (Hs state eq_refl). reflexivity.
Qed.

Lemma load_task_raises (parameters context : dict) (w : Env) (e : exn)
    (status current_agent agent action : string) :
  In (status, current_agent, agent, action) pipeline ->
  load_task parameters w = (Raise e, w) ->
  handle_action (agent_for agent) action parameters context w = (Raise e, w).
Proof.
  intros Hin Hl. unfold pipeline in Hin. simpl in Hin.
  destruct Hin as [E|[E|[E|[E|[E|[]]]]]]; injection E as <- <- <- <-; simpl;
    [unfold topic_refiner_handle_action, _refine_topic
    |unfold question_architect_handle_action, _generate_questions
    |unfold search_strategist_handle_action, _execute_search
    |unfold data_analyst_handle_action, _analyze_results
    |unfold report_writer_handle_action, _generate_report];
    simpl; unfold mbind, M_bind, bind; rewrite Hl; reflexivity.
Qed.

(** X10.  Each action of the pipeline needs its task: asked without a [task_id],
    or for a task that has no record (or an empty one), the handler raises
    [ValueError] before it calls anything and leaves the world as it was. *)
Theorem handlers_need_a_task (status current_agent agent action : string)
    (parameters context : dict) (w : Env) :
  In (status, current_agent, agent, action) pipeline ->
  (py_truthy (get_or_none "task_id" parameters) = false ->
   handle_action (agent_for agent) action parameters context w
   = (Raise (Exn ValueError "task_id is required"), w))
  /\ (py_truthy (get_or_none "task_id" parameters) = true ->
      (forall state,
          get_state (redis w) (task_of parameters) = Some state -> state = ∅) ->
      handle_action (agent_for agent) action parameters context w
      = (Raise (Exn ValueError ("Task not found: " ++ task_of parameters)), w)).
Proof.
  intros Hin. split.
  - intros Ht. eapply load_task_raises; [exact Hin|].
    apply load_task_missing, Ht.
  - intros Ht Hs. eapply load_task_raises; [exact Hin|].
    apply load_task_unknown; assumption.
Qed.

(** *** The log of the agents *)

Lemma task_key_inj (t t' : string) : task_key t = task_key t' -> t = t'.
Proof. unfold task_key. intros E. cbv in E. congruence. Qed.

Lemma dict_get_set (k k' : string) (v : json) (d : dict) :
  dict_get k (dict_set k' v d)
  = if String.eqb k k' then Some v else dict_get k d.
Proof.
  induction d as [|[k0 v0] d IH]; simpl; [reflexivity|].
  destruct (String.eqb_spec k' k0) as [->|Hne]; simpl.
  - destruct (String.eqb k k0); reflexivity.
  - rewrite IH.
    destruct (String.eqb_spec k k0) as [->|Hk]; [|reflexivity].
    destruct (String.eqb_spec k0 k'); [congruence|reflexivity].
Qed.

Lemma fold_dict_set_get (k : string) (data base : dict) :
  dict_get k data = None ->
  dict_get k (fold_left (fun d kv => dict_set (fst kv) (snd kv) d) data base)
  = dict_get k base.
Proof.
  revert base. induction data as [|[k0 v0] data IH]; intros base Hk; simpl in *;
    [reflexivity|].
  destruct (String.eqb k k0) eqn:E; [discriminate|].
  rewrite (IH _ Hk), dict_get_set, E. reflexivity.
Qed.

Lemma field_of_insert (r : gmap string (gmap string json)) (t k : string)
    (state : gmap string json) :
  field_of (<[task_key t := state]> r) t k = state !! k.
Proof. unfold field_of, get_state. rewrite lookup_insert_eq. reflexivity. Qed.

Lemma get_state_insert_other (r : gmap string (gmap string json))
    (t t' : string) (state : gmap string json) :
  t' <> t -> get_state (<[task_key t := state]> r) t' = get_state r t'.
Proof.
  intros Hne. unfold get_state. apply lookup_insert_ne.
  intros E%task_key_inj. congruence.
Qed.

Lemma state_or_empty_update (r : gmap string (gmap string json)) (t : string)
    (updates : gmap string json) :
  state_or_empty (update_state r t updates) t = updates ∪ state_or_empty r t.
Proof.
  unfold state_or_empty at 1. unfold get_state, update_state.
  rewrite lookup_insert_eq. reflexivity.
Qed.

Lemma add_log_run (self : AgentInfo) (task_id action : string) (data : dict)
    (w : Env) (logs : list json) :
  state_get (state_or_empty (redis w) task_id) "agent_logs" (JArr []) = JArr logs ->
  add_log self task_id action data w
  = (Ok tt,
     {| redis :=
          <[task_key task_id :=
              <["agent_logs" :=
                  JArr (logs ++ [JObj (log_entry self action
                                         (isoformat_now (clock w)) data)])]>
                (state_or_empty (redis w) task_id)]> (redis w);
        clock := S (clock w) |}).
Proof. intros Hlogs. unfold add_log. rewrite Hlogs. reflexivity. Qed.

(** X11.  [add_log] on a record whose [agent_logs] is a list (or is missing):
    the entry is appended to the list, every other key of the record and
    every other record stay as they were; the entry holds the name and the
    identifier of the agent, the action and the time, under every key that
    the data does not define itself. *)
Theorem add_log_appends (self : AgentInfo) (task_id action : string)
    (data : dict) (w : Env) (logs : list json) :
  state_get (state_or_empty (redis w) task_id) "agent_logs" (JArr []) = JArr logs ->
  let entry := log_entry self action (isoformat_now (clock w)) data in
  let run := add_log self task_id action data w in
  fst run = Ok tt
  /\ field_of (redis (snd run)) task_id "agent_logs"
     = Some (JArr (logs ++ [JObj entry]))
  /\ (forall k, k <> "agent_logs" ->
        field_of (redis (snd run)) task_id k
        = state_or_empty (redis w) task_id !! k)
  /\ (forall t, t <> task_id ->
        get_state (redis (snd run)) t = get_state (redis w) t)
  /\ (forall k, dict_get k data = None ->
        dict_get k entry
        = dict_get k [("agent", JStr (name self));
                      ("agent_id", JStr (agent_id self));
                      ("action", JStr action);
                      ("timestamp", JStr (isoformat_now (clock w)))]).
Proof.
  intros Hlogs entry run. subst run. unfold add_log. rewrite Hlogs. simpl.
  split; [reflexivity|]. split; [|split; [|split]].
  - rewrite field_of_insert. apply lookup_insert_eq.
  - intros k Hk. rewrite field_of_insert. apply lookup_insert_ne. congruence.
  - intros t Ht. apply get_state_insert_other, Ht.
  - intros k Hk. apply fold_dict_set_get, Hk.
Qed.

(** *** The search *)

Lemma search_question_progress (max_results question : json) (w : Env)
    (queries results : list json) (c q : Z) :
  exists added found,
    fst (search_question max_results question
           {| search_results := JArr results; search_queries := JArr queries;
              new_results_count := c; queries_processed := q |} w)
    = Ok {| search_results := JArr (results ++ found);
            search_queries := JArr (queries ++ added);
            new_results_count := c + Z.of_nat (length found);
            queries_processed := q + Z.of_nat (length added) |}
    /\ incl added [question].
Proof.
  unfold search_question, mbind, M_bind, bind, lift, mret, M_ret, ret. simpl.
  destruct (existsb (py_eq question) queries).
  { exists [], []. simpl. rewrite !app_nil_r, !Z.add_0_r.
    split; [reflexivity|]. intros x []. }
  destruct (ddgs_text (clock w) question max_results) as [[|r found]|e]; simpl.
  - exists [question], []. simpl. rewrite !app_nil_r, !Z.add_0_r.
    split; [reflexivity|]. intros x Hx. exact Hx.
  - exists [question], (map format_result (r :: found)).
    rewrite length_map. simpl length.
    split; [reflexivity|]. intros x Hx. exact Hx.
  - exists [], []. simpl. rewrite !app_nil_r, !Z.add_0_r.
    split; [reflexivity|]. intros x [].
Qed.

Lemma search_questions_progress (max_results : json) (questions : list json) :
  forall (w : Env) (queries results : list json) (c q : Z),
  exists added found,
    fst (search_questions max_results questions
           {| search_results := JArr results; search_queries := JArr queries;
              new_results_count := c; queries_processed := q |} w)
    = Ok {| search_results := JArr (results ++ found);
            search_queries := JArr (queries ++ added);
            new_results_count := c + Z.of_nat (length found);
            queries_processed := q + Z.of_nat (length added) |}
    /\ incl added questions.
Proof.
  induction questions as [|question questions IH]; intros w queries results c q.
  - exists [], []. simpl. rewrite !app_nil_r, !Z.add_0_r.
    split; [reflexivity|]. intros x [].
  - simpl. unfold mbind, M_bind, bind.
    destruct (search_question_progress max_results question w queries results
                c q) as (a1 & f1 & E1 & Hi1).
    destruct (search_question _ _ _ w) as [r1 w1]. simpl in E1. subst r1.
    destruct (IH w1 (queries ++ a1) (results ++ f1)
                (c + Z.of_nat (length f1)) (q + Z.of_nat (length a1)))
      as (a2 & f2 & E2 & Hi2).
    exists (a1 ++ a2), (f1 ++ f2). rewrite E2.
    rewrite !app_assoc, !length_app, !Nat2Z.inj_add, !Z.add_assoc.
    split; [reflexivity|].
    intros x [Hx|Hx]%in_app_or; [left; destruct (Hi1 x Hx) as [->|[]]; reflexivity
                                |right; apply Hi2, Hx].
Qed.

(** X12.  [execute_search] on a record whose lists are lists and whose counter is
    an integer returns, whatever the search engine does: an error of the
    search is not an error of the step.  The counter goes up by one, the
    questions that were searched are added to [search_queries] and the
    results found to [search_results], and the result counts them. *)
Theorem search_errors_do_not_fail_the_step (parameters context : dict)
    (w : Env) (task_id : string) (state : gmap string json)
    (questions queries results logs : list json) (n : Z) :
  get_or_none "task_id" parameters = JStr task_id -> task_id <> "" ->
  get_state (redis w) task_id = Some state -> state <> ∅ ->
  state_get state "research_questions" (JArr []) = JArr questions ->
  state_get state "search_queries" (JArr []) = JArr queries ->
  state_get state "search_results" (JArr []) = JArr results ->
  state_get state "agent_logs" (JArr []) = JArr logs ->
  state_get state "iteration" (JInt 0) = JInt n ->
  let run := _execute_search parameters context w in
  exists added found,
    incl added questions
    /\ fst run
       = Ok [("results_count", JInt (Z.of_nat (length found)));
             ("queries_processed", JInt (Z.of_nat (length added)));
             ("total_results", JInt (Z.of_nat (length (results ++ found))))]
    /\ field_of (redis (snd run)) task_id "iteration" = Some (JInt (n + 1))
    /\ field_of (redis (snd run)) task_id "status"
       = Some (JStr "search_completed")
    /\ field_of (redis (snd run)) task_id "search_queries"
       = Some (JArr (queries ++ added))
    /\ field_of (redis (snd run)) task_id "search_results"
       = Some (JArr (results ++ found)).
Proof.
  intros Ht Hne Hs Hstate Hq Hsq Hsr Hl Hn run. subst run.
  unfold _execute_search, mbind, M_bind, bind.
  assert (Hload : load_task parameters w = (Ok (task_id, state), w)).
  { unfold load_task. rewrite Ht. simpl.
    destruct (String.eqb_spec task_id ""); [congruence|]. simpl.
    rewrite Hs. rewrite bool_decide_eq_false_2 by exact Hstate. reflexivity. }
  rewrite Hload, Hq, Hsq, Hsr, Hn. simpl.
  destruct (search_questions_progress (get_or "max_results" (JInt 2) parameters)
              questions w queries results 0 0) as (added & found & E & Hincl).
  pose proof (search_questions_redis (get_or "max_results" (JInt 2) parameters)
                questions
                {| search_results := JArr results; search_queries := JArr queries;
                   new_results_count := 0; queries_processed := 0 |} w) as Hr.
  destruct (search_questions _ _ _ w) as [r1 w1]. simpl in E, Hr. subst r1.
  simpl.
  exists added, found. split; [exact Hincl|].
  unfold agent_update_state.
  match goal with
  | |- context [ add_log ?i ?t ?a ?d ?w2 ] =>
      rewrite (add_log_run i t a d w2 logs)
  end.
  2:{ simpl. rewrite state_or_empty_update. unfold state_get.
      rewrite lookup_union_r by reflexivity.
      unfold state_or_empty. rewrite Hr, Hs. exact Hl. }
  simpl. split; [reflexivity|].
  rewrite !field_of_insert, state_or_empty_update.
  repeat split; (rewrite lookup_insert_ne by discriminate);
    apply lookup_union_Some_l; reflexivity.
Qed.

(** *** What the questions and the analysis leave in the record *)

Lemma add_log_ok (self : AgentInfo) (task_id action : string) (data : dict)
    (w w' : Env) (u : unit) :
  add_log self task_id action data w = (Ok u, w') ->
  exists logs,
    w' = {| redis :=
              <[task_key task_id :=
                  <["agent_logs" :=
                      JArr (logs ++ [JObj (log_entry self action
                                             (isoformat_now (clock w)) data)])]>
                    (state_or_empty (redis w) task_id)]> (redis w);
            clock := S (clock w) |}.
Proof.
  unfold add_log.
  destruct (state_get (state_or_empty (redis w) task_id) "agent_logs" (JArr []))
    as [ | | | | |logs| ]; simpl; try discriminate.
  intros E. injection E as E. subst w'. exists logs. reflexivity.
Qed.

Lemma numbered_lines_length (n : nat) (response : string) :
  (length (numbered_lines n response) <= n)%nat.
Proof. unfold numbered_lines. apply firstn_le_length. Qed.

Lemma quality_of_at_most_one (findings results : Z) :
  PrimFloat.ltb 1 (quality_of findings results) = false.
Proof.
  unfold quality_of.
  set (x := (float_of_len findings * _ + _)%float).
  destruct (PrimFloat.ltb 1 x) eqn:E; [reflexivity|exact E].
Qed.

(** X13.  A [generate_questions] that returns has added at most three questions
    to the [research_questions] of the record, those that it returns, and
    counted them. *)
Theorem questions_are_added (parameters context result : dict) (w : Env)
    (task_id : string) :
  get_or_none "task_id" parameters = JStr task_id ->
  fst (_generate_questions parameters context w) = Ok result ->
  exists state old new,
    get_state (redis w) task_id = Some state
    /\ state_get state "research_questions" (JArr []) = JArr old
    /\ (length new <= 3)%nat
    /\ result = [("questions", JArr (map JStr new));
                 ("count", JInt (Z.of_nat (length new)));
                 ("total_questions",
                  JInt (Z.of_nat (length (old ++ map JStr new))))]
    /\ field_of (redis (snd (_generate_questions parameters context w)))
         task_id "research_questions"
       = Some (JArr (old ++ map JStr new))
    /\ field_of (redis (snd (_generate_questions parameters context w)))
         task_id "status"
       = Some (JStr "questions_generated").
Proof.
  intros Ht. unfold _generate_questions, mbind, M_bind, bind.
  destruct (load_task parameters w) as [[[t state]|e] w1] eqn:El;
    [|discriminate].
  apply load_task_ok in El as (-> & -> & Hs). rewrite Ht in *.
  change (py_str (JStr task_id)) with task_id in *.
  unfold invoke_llm.
  destruct (llm_invoke _ _ _ _) as [response|e]; [|discriminate].
  destruct (state_get state "research_questions" (JArr []))
    as [ | | | | |old| ] eqn:Hq; try discriminate.
  unfold lift, py_add_list, agent_update_state.
  match goal with
  | |- context [ add_log ?i ?t ?a ?d ?w2 ] =>
      destruct (add_log i t a d w2) as [[u|e] w3] eqn:Ea; [|discriminate];
      apply add_log_ok in Ea as (logs & ->)
  end.
  cbn [py_len fst snd ret redis set_redis tick].
  intros [= <-].
  exists state, old, (numbered_lines 3 response).
  split; [exact Hs|]. split; [exact Hq|].
  split; [apply numbered_lines_length|]. split; [reflexivity|].
  rewrite !field_of_insert, state_or_empty_update.
  split; (rewrite lookup_insert_ne by discriminate);
    apply lookup_union_Some_l; reflexivity.
Qed.

(** X14.  An [analyze_results] that returns has added at most five findings to
    the [key_findings] of the record, and has stored a quality score that is
    not above 1, the one it returns.  Without search results it calls no
    model: the one finding says that there is no data, and the score is 0. *)
Theorem analysis_is_recorded (parameters context result : dict) (w : Env)
    (task_id : string) :
  get_or_none "task_id" parameters = JStr task_id ->
  fst (_analyze_results parameters context w) = Ok result ->
  exists state old findings quality_score,
    get_state (redis w) task_id = Some state
    /\ state_get state "key_findings" (JArr []) = JArr old
    /\ (length findings <= 5)%nat
    /\ PrimFloat.ltb 1 quality_score = false
    /\ result = [("findings", JArr (map JStr findings));
                 ("quality_score", JFloat quality_score);
                 ("findings_count", JInt (Z.of_nat (length findings)));
                 ("total_findings",
                  JInt (Z.of_nat (length (old ++ map JStr findings))))]
    /\ field_of (redis (snd (_analyze_results parameters context w)))
         task_id "key_findings"
       = Some (JArr (old ++ map JStr findings))
    /\ field_of (redis (snd (_analyze_results parameters context w)))
         task_id "quality_score"
       = Some (JFloat quality_score)
    /\ (py_truthy (state_get state "search_results" (JArr [])) = false ->
        findings = ["No data available for analysis"]
        /\ quality_score = 0%float
        /\ clock (snd (_analyze_results parameters context w)) = S (clock w)).
Proof.
  intros Ht. unfold _analyze_results, mbind, M_bind, bind.
  destruct (load_task parameters w) as [[[t state]|e] w1] eqn:El;
    [|discriminate].
  apply load_task_ok in El as (-> & -> & Hs). rewrite Ht in *.
  change (py_str (JStr task_id)) with task_id in *.
  destruct (py_truthy (state_get state "search_results" (JArr []))) eqn:Hdata;
    cbn [negb].
  - unfold mbind, M_bind, bind, invoke_llm.
    destruct (llm_invoke _ _ _ _) as [response|e]; [|discriminate].
    unfold lift.
    destruct (py_len (state_get state "search_results" (JArr [])))
      as [total|e]; [|discriminate].
    cbn [ret].
    destruct (state_get state "key_findings" (JArr []))
      as [ | | | | |old| ] eqn:Hk; try discriminate.
    unfold py_add_list, agent_update_state.
    match goal with
    | |- context [ add_log ?i ?t ?a ?d ?w2 ] =>
        destruct (add_log i t a d w2) as [[u|e] w3] eqn:Ea; [|discriminate];
        apply add_log_ok in Ea as (logs & ->)
    end.
    cbn [py_len fst snd ret redis set_redis tick].
    intros [= <-].
    exists state, old, (numbered_lines 5 response),
      (quality_of (Z.of_nat (length (numbered_lines 5 response))) total).
    split; [exact Hs|]. split; [exact Hk|].
    split; [apply numbered_lines_length|].
    split; [apply quality_of_at_most_one|]. split; [reflexivity|].
    rewrite !field_of_insert, state_or_empty_update.
    split; [|split; [|intros Hf; rewrite Hdata in Hf; discriminate]];
      (rewrite lookup_insert_ne by discriminate);
      apply lookup_union_Some_l; reflexivity.
  - cbn [ret].
    destruct (state_get state "key_findings" (JArr []))
      as [ | | | | |old| ] eqn:Hk; try discriminate.
    unfold lift, py_add_list, agent_update_state.
    match goal with
    | |- context [ add_log ?i ?t ?a ?d ?w2 ] =>
        destruct (add_log i t a d w2) as [[u|e] w3] eqn:Ea; [|discriminate];
        apply add_log_ok in Ea as (logs & ->)
    end.
    cbn [py_len fst snd ret redis set_redis tick clock].
    intros [= <-].
    exists state, old, ["No data available for analysis"], 0%float.
    split; [exact Hs|]. split; [exact Hk|].
    split; [simpl; lia|]. split; [reflexivity|]. split; [reflexivity|].
    rewrite !field_of_insert, state_or_empty_update.
    split; [|split; [|intros _; repeat split; reflexivity]];
      (rewrite lookup_insert_ne by discriminate);
      apply lookup_union_Some_l; reflexivity.
Qed.

(** *** What the refiner and the writer leave in the record *)

(** X15.  A [refine_topic] that returns has replaced the [topic] of the record by
    the refined topic that it returns; what it returns as [original_topic]
    is the topic that the record held before. *)
Theorem topic_is_refined (parameters context result : dict) (w : Env)
    (task_id : string) :
  get_or_none "task_id" parameters = JStr task_id ->
  fst (_refine_topic parameters context w) = Ok result ->
  exists state refined,
    get_state (redis w) task_id = Some state
    /\ result = [("refined_topic", JStr refined);
                 ("original_topic", state_get state "topic" (JStr ""))]
    /\ field_of (redis (snd (_refine_topic parameters context w))) task_id
         "topic"
       = Some (JStr refined)
    /\ field_of (redis (snd (_refine_topic parameters context w))) task_id
         "status"
       = Some (JStr "topic_refined").
Proof.
  intros Ht. unfold _refine_topic, mbind, M_bind, bind.
  destruct (load_task parameters w) as [[[t state]|e] w1] eqn:El;
    [|discriminate].
  apply load_task_ok in El as (-> & -> & Hs). rewrite Ht in *.
  change (py_str (JStr task_id)) with task_id in *.
  unfold invoke_llm.
  destruct (llm_invoke _ _ _ _) as [text|e]; [|discriminate].
  unfold agent_update_state.
  match goal with
  | |- context [ add_log ?i ?t ?a ?d ?w2 ] =>
      destruct (add_log i t a d w2) as [[u|e] w3] eqn:Ea; [|discriminate];
      apply add_log_ok in Ea as (logs & ->)
  end.
  cbn [fst snd ret redis set_redis tick].
  intros [= <-].
  exists state, (py_strip text).
  split; [exact Hs|]. split; [reflexivity|].
  rewrite !field_of_insert, state_or_empty_update.
  split; (rewrite lookup_insert_ne by discriminate);
    apply lookup_union_Some_l; reflexivity.
Qed.

Lemma report_recorded (parameters context result : dict) (w : Env)
    (task_id : string) :
  get_or_none "task_id" parameters = JStr task_id ->
  fst (_generate_report parameters context w) = Ok result ->
  exists report,
    dict_get "report" result = Some (JStr report)
    /\ field_of (redis (snd (_generate_report parameters context w))) task_id
         "final_report"
       = Some (JStr report)
    /\ field_of (redis (snd (_generate_report parameters context w))) task_id
         "status"
       = Some (JStr "report_completed")
    /\ field_of (redis (snd (_generate_report parameters context w))) task_id
         "current_agent"
       = Some (JStr "Dr. Report Writer").
Proof.
  intros Ht. unfold _generate_report, mbind, M_bind, bind.
  destruct (load_task parameters w) as [[[t state]|e] w1] eqn:El;
    [|discriminate].
  apply load_task_ok in El as (-> & -> & Hs). rewrite Ht in *.
  change (py_str (JStr task_id)) with task_id in *.
  unfold invoke_llm.
  destruct (llm_invoke _ _ _ _) as [text|e]; [|discriminate].
  cbn [clock tick].
  destruct (report_footer _ _) as [footer|e]; [|discriminate].
  unfold agent_update_state.
  match goal with
  | |- context [ add_log ?i ?t ?a ?d ?w2 ] =>
      destruct (add_log i t a d w2) as [[u|e] w3] eqn:Ea; [|discriminate];
      apply add_log_ok in Ea as (logs & ->)
  end.
  cbn [fst snd ret redis set_redis tick].
  intros [= <-].
  exists (text ++ footer)%string.
  split; [reflexivity|].
  rewrite !field_of_insert, state_or_empty_update.
  repeat split; (rewrite lookup_insert_ne by discriminate);
    apply lookup_union_Some_l; reflexivity.
Qed.

(** X16.  A [generate_report] that returns has stored the report that it returns
    as the [final_report] of the record. *)
Theorem report_is_recorded (parameters context result : dict) (w : Env)
    (task_id : string) :
  get_or_none "task_id" parameters = JStr task_id ->
  fst (_generate_report parameters context w) = Ok result ->
  exists report,
    dict_get "report" result = Some (JStr report)
    /\ field_of (redis (snd (_generate_report parameters context w))) task_id
         "final_report"
       = Some (JStr report)
    /\ field_of (redis (snd (_generate_report parameters context w))) task_id
         "status"
       = Some (JStr "report_completed")
    /\ field_of (redis (snd (_generate_report parameters context w))) task_id
         "current_agent"
       = Some (JStr "Dr. Report Writer").
Proof. apply report_recorded. Qed.

End HandlerFacts.

(** ** What a run leaves alone *)

Section FrameFacts.
Context `{Externals}.

Local Open Scope list_scope.

Lemma untouched_refl (t : string) (r : gmap string (gmap string json)) :
  untouched t r r.
Proof. split; reflexivity. Qed.

Lemma untouched_trans (t : string) (r1 r2 r3 : gmap string (gmap string json)) :
  untouched t r1 r2 -> untouched t r2 r3 -> untouched t r1 r3.
Proof.
  intros [H1 H2] [H3 H4]. split.
  - intros t' Hne. rewrite H3, H1 by exact Hne. reflexivity.
  - intros k Hk. rewrite H4, H2 by exact Hk. reflexivity.
Qed.

Lemma untouched_insert (t : string) (r : gmap string (gmap string json))
    (state : gmap string json) :
  (forall k, ~ In k written_keys -> state !! k = state_or_empty r t !! k) ->
  untouched t r (<[task_key t := state]> r).
Proof.
  intros Hs. split.
  - intros t' Hne. apply get_state_insert_other, Hne.
  - intros k Hk. rewrite field_of_insert, (Hs k Hk).
    unfold field_of, state_or_empty. destruct (get_state r t); reflexivity.
Qed.

Lemma untouched_update_state (t : string) (r : gmap string (gmap string json))
    (updates : gmap string json) :
  (forall k, ~ In k written_keys -> updates !! k = None) ->
  untouched t r (update_state r t updates).
Proof.
  intros Hu. unfold update_state. apply untouched_insert.
  intros k Hk. apply lookup_union_r, Hu, Hk.
Qed.

(** *** The handlers *)

Lemma confined_ret (t : string) {A} (a : A) : confined t (ret a).
Proof. intros w. apply untouched_refl. Qed.

Lemma confined_raise (t : string) {A} (e : exn) : confined t (@raise A e).
Proof. intros w. apply untouched_refl. Qed.

Lemma confined_lift (t : string) {A} (r : res A) : confined t (lift r).
Proof. intros w. apply untouched_refl. Qed.

Lemma confined_invoke_llm (t : string) (self : AgentInfo) (p : prompt) :
  confined t (invoke_llm self p).
Proof. intros w. apply untouched_refl. Qed.

Lemma confined_mbind (t : string) {A B} (m : M A) (k : A -> M B) :
  confined t m -> (forall a, confined t (k a)) -> confined t (m ≫= k).
Proof.
  intros Hm Hk w. unfold mbind, M_bind, bind. specialize (Hm w).
  destruct (m w) as [[a|e] w1]; simpl in *; [|exact Hm].
  eapply untouched_trans; [exact Hm|apply Hk].
Qed.

Lemma confined_update_state (t : string) (updates : gmap string json) :
  (forall k, ~ In k written_keys -> updates !! k = None) ->
  confined t (agent_update_state t updates).
Proof. intros Hu w. apply untouched_update_state, Hu. Qed.

Lemma confined_add_log (self : AgentInfo) (t action : string) (data : dict) :
  confined t (add_log self t action data).
Proof.
  intros w. unfold add_log.
  destruct (py_append _ _) as [logs|e]; simpl; [|apply untouched_refl].
  apply untouched_insert. intros k Hk. apply lookup_insert_ne.
  intros <-. apply Hk. unfold written_keys. simpl. tauto.
Qed.

Lemma confined_search_questions (t : string) (max_results : json)
    (questions : list json) (p : search_progress) :
  confined t (search_questions max_results questions p).
Proof.
  intros w. rewrite search_questions_redis. apply untouched_refl.
Qed.

Lemma load_task_world (parameters : dict) (w : Env) :
  snd (load_task parameters w) = w.
Proof.
  unfold load_task. destruct (negb _); [reflexivity|].
  destruct (get_state _ _) as [state|]; [|reflexivity].
  destruct (bool_decide _); reflexivity.
Qed.

Lemma confined_with_task {A} (parameters : dict)
    (k : string * gmap string json -> M A) :
  (forall state, confined (task_of parameters) (k (task_of parameters, state))) ->
  confined (task_of parameters) (load_task parameters ≫= k).
Proof.
  intros Hk w. unfold mbind, M_bind, bind.
  pose proof (load_task_world parameters w) as Hw.
  destruct (load_task parameters w) as [[[t state]|e] w1] eqn:El; simpl in Hw;
    subst w1.
  - apply load_task_ok in El as (_ & -> & _). apply Hk.
  - apply untouched_refl.
Qed.

Ltac not_written :=
  let k := fresh "k" in
  let Hk := fresh "Hk" in
  intros k Hk;
  repeat (rewrite lookup_insert_ne;
          [|intros <-; apply Hk; unfold written_keys; simpl; tauto]);
  apply lookup_singleton_ne; intros <-; apply Hk; unfold written_keys; simpl;
  tauto.

Ltac confine :=
  repeat first
    [ apply confined_ret | apply confined_raise | apply confined_lift
    | apply confined_invoke_llm | apply confined_add_log
    | apply confined_search_questions
    | apply confined_update_state; not_written
    | apply confined_mbind; [|intros ?]
    | match goal with |- confined _ (let '(_, _) := ?p in _) => destruct p end
    | match goal with |- confined _ (if ?b then _ else _) => destruct b end ].

Lemma confined_refine_topic (parameters context : dict) :
  confined (task_of parameters) (_refine_topic parameters context).
Proof.
  unfold _refine_topic. apply confined_with_task. intros state.
  cbn beta iota. confine.
Qed.

Lemma confined_generate_questions (parameters context : dict) :
  confined (task_of parameters) (_generate_questions parameters context).
Proof.
  unfold _generate_questions. apply confined_with_task. intros state.
  cbn beta iota. confine.
Qed.

Lemma confined_execute_search (parameters context : dict) :
  confined (task_of parameters) (_execute_search parameters context).
Proof.
  unfold _execute_search. apply confined_with_task. intros state.
  cbn beta iota. confine.
Qed.

Lemma confined_analyze_results (parameters context : dict) :
  confined (task_of parameters) (_analyze_results parameters context).
Proof.
  unfold _analyze_results. apply confined_with_task. intros state.
  cbn beta iota. confine.
Qed.

Lemma confined_generate_report (parameters context : dict) :
  confined (task_of parameters) (_generate_report parameters context).
Proof.
  unfold _generate_report. apply confined_with_task. intros state.
  cbn beta iota. confine.
  intros w. apply untouched_refl.
Qed.

Lemma confined_optimize_query (t : string) (parameters context : dict) :
  confined t (_optimize_query parameters context).
Proof. unfold _optimize_query. confine. Qed.

(** Whatever a service is asked, its handler changes nothing but the written
    keys of the record of the task named in the parameters. *)
Lemma confined_handle_action (agent_uri : string) (agent : A2ABaseAgent)
    (action : string) (parameters context : dict) :
  In (agent_uri, agent) services ->
  confined (task_of parameters) (handle_action agent action parameters context).
Proof.
  intros Hin. unfold services in Hin. simpl in Hin.
  destruct Hin as [E|[E|[E|[E|[E|[]]]]]]; inversion E; subst; clear E; simpl.
  - unfold topic_refiner_handle_action.
    destruct (String.eqb _ _); [apply confined_refine_topic|apply confined_raise].
  - unfold question_architect_handle_action.
    destruct (String.eqb _ _);
      [apply confined_generate_questions|apply confined_raise].
  - unfold search_strategist_handle_action.
    destruct (String.eqb _ _); [apply confined_execute_search|].
    destruct (String.eqb _ _); [apply confined_optimize_query|apply confined_raise].
  - unfold data_analyst_handle_action.
    destruct (String.eqb _ _); [apply confined_analyze_results|apply confined_raise].
  - unfold report_writer_handle_action.
    destruct (String.eqb _ _); [apply confined_generate_report|apply confined_raise].
Qed.

(** *** The coordinator *)

Lemma leaves_ret (t : string) {A} (a : A) : leaves t (cret a).
Proof. intros s. apply untouched_refl. Qed.

Lemma leaves_raise (t : string) {A} (e : exn) : leaves t (@craise A e).
Proof. intros s. apply untouched_refl. Qed.

Lemma leaves_bind (t : string) {A B} (m : C A) (k : A -> C B) :
  leaves t m -> (forall a, leaves t (k a)) -> leaves t (cbind m k).
Proof.
  intros Hm Hk s. unfold cbind. specialize (Hm s).
  destruct (m s) as [[a|e|] s1]; simpl in *; try exact Hm.
  eapply untouched_trans; [exact Hm|apply Hk].
Qed.

Lemma leaves_try (t : string) {A} (body : C A) (handler : exn -> C A) :
  leaves t body -> (forall e, leaves t (handler e)) ->
  leaves t (try_except body handler).
Proof.
  intros Hb Hh s. unfold try_except. specialize (Hb s).
  destruct (body s) as [[a|e|] s1]; simpl in *; try exact Hb.
  eapply untouched_trans; [exact Hb|apply Hh].
Qed.

Lemma leaves_lift (t : string) {A} (r : res A) : leaves t (in_env (lift r)).
Proof. intros s. unfold in_env, lift. destruct r; apply untouched_refl. Qed.

Lemma leaves_update (t : string) (updates : gmap string json) :
  (forall k, ~ In k written_keys -> updates !! k = None) ->
  leaves t (coordinator_update_state t updates).
Proof. intros Hu s. apply untouched_update_state, Hu. Qed.

Lemma leaves_should_continue (t : string) :
  leaves t (coordinator_should_continue t).
Proof.
  intros s. unfold coordinator_should_continue.
  destruct (should_continue _ _); apply untouched_refl.
Qed.

Lemma leaves_check_slice (t : string) (v : json) : leaves t (check_slice v).
Proof. destruct v; first [apply leaves_ret|apply leaves_raise]. Qed.

Lemma leaves_check_format (t : string) (v : json) :
  leaves t (check_format_2f v).
Proof. destruct v; first [apply leaves_ret|apply leaves_raise]. Qed.

Lemma agent_for_service (agent : string) :
  In agent agent_keys -> exists uri, In (uri, agent_for agent) services.
Proof.
  unfold agent_keys, services. simpl.
  intros [<-|[<-|[<-|[<-|[<-|[]]]]]]; eexists; simpl; eauto 6.
Qed.

Lemma leaves_step (task_id status current_agent agent action : string)
    (parameters : dict) :
  In agent agent_keys -> dict_compatible parameters = true ->
  task_of parameters = task_id ->
  leaves task_id
    (pipeline_step http_post task_id status current_agent agent action
       parameters).
Proof.
  intros Hin Hp Ht s.
  destruct (real_step task_id status current_agent agent action parameters s
              Hin Hp) as (w_h & Hw & Hcases).
  assert (H0 : untouched task_id (redis (env s)) (redis w_h)).
  { rewrite Hw. apply untouched_update_state. not_written. }
  destruct Hcases as [(-> & _)|(-> & _)].
  - rewrite <- Hw. exact H0.
  - eapply untouched_trans; [exact H0|].
    destruct (agent_for_service agent Hin) as (uri & Hsvc).
    rewrite <- Ht. eapply confined_handle_action, Hsvc.
Qed.

Ltac leave_step :=
  apply leaves_step; [unfold agent_keys; simpl; tauto|reflexivity|reflexivity].

Lemma leaves_loop (fuel : nat) (task_id : string) (max_iterations : json) :
  forall iteration : Z,
    leaves task_id
      (research_loop http_post fuel task_id iteration max_iterations).
Proof.
  induction fuel as [|fuel IH]; intros iteration.
  - simpl. apply leaves_bind; [apply leaves_lift|].
    intros [|]; [intros s; apply untouched_refl|apply leaves_ret].
  - rewrite research_loop_turn.
    apply leaves_bind; [apply leaves_lift|].
    intros [|]; [|apply leaves_ret].
    apply leaves_bind; [leave_step|intros _].
    apply leaves_bind; [leave_step|intros _].
    apply leaves_bind; [leave_step|intros result].
    apply leaves_bind; [apply leaves_check_format|intros _].
    apply leaves_bind; [apply leaves_should_continue|intros decision].
    destruct (String.eqb decision "finalize"); [apply leaves_ret|apply IH].
Qed.

(** X17.  A run of the workflow over the five services changes the record of its
    task and no other, and in that record the keys that the coordinator and
    the agents write and no other: [task_id], [original_topic],
    [max_iterations] and [protocol] stay as [start_research] stored them. *)
Theorem run_touches_only_its_task (fuel : nat) (task_id : string) (s : CState) :
  let r := redis (env s) in
  let r' := redis (env (snd (run_workflow http_post fuel task_id s))) in
  (forall t, t <> task_id -> get_state r' t = get_state r t)
  /\ (forall k, ~ In k written_keys ->
        field_of r' task_id k = field_of r task_id k)
  /\ (forall k,
        In k ["task_id"; "original_topic"; "max_iterations"; "protocol"] ->
        field_of r' task_id k = field_of r task_id k).
Proof.
  assert (Hrun : leaves task_id (run_workflow http_post fuel task_id)).
  { unfold run_workflow. apply leaves_try.
    - unfold workflow_body.
      apply leaves_bind; [intros s0; apply untouched_refl|intros state].
      apply leaves_bind; [leave_step|intros result].
      apply leaves_bind; [apply leaves_check_slice|intros _].
      apply leaves_bind.
      { destruct state; [apply leaves_ret|apply leaves_raise]. }
      intros max_iterations.
      apply leaves_bind; [apply leaves_loop|intros _].
      apply leaves_bind; [leave_step|intros _].
      apply leaves_bind; [apply leaves_update; not_written|intros _].
      apply leaves_ret.
    - intros e. unfold workflow_failed.
      apply leaves_bind; [apply leaves_update; not_written|intros _].
      apply leaves_ret. }
  destruct (Hrun s) as (Hother & Hkeys). cbv zeta.
  split; [exact Hother|]. split; [exact Hkeys|].
  intros k Hk. apply Hkeys. unfold written_keys. simpl in *.
  intros Hw. intuition (subst; discriminate).
Qed.

End FrameFacts.

(** ** A task from its start to its end *)

Section EndpointFacts.
Context `{Externals}.
Variable post : string -> json -> Env -> res http_response * Env.

Local Open Scope list_scope.

Lemma initial_state_max_iterations (task_id topic : string) (m : Z) :
  initial_state task_id topic m !! "max_iterations" = Some (JInt m).
Proof. reflexivity. Qed.

Lemma initial_state_status (task_id topic : string) (m : Z) :
  initial_state task_id topic m !! "status" = Some (JStr "initialized").
Proof. reflexivity. Qed.

Lemma get_task_status_found (r : gmap string (gmap string json))
    (task_id k : string) (state : gmap string json) (v : json) :
  get_state r task_id = Some state -> state !! k = Some v ->
  get_task_status r task_id = inl state.
Proof.
  intros Hs Hk. unfold get_task_status. rewrite Hs.
  rewrite bool_decide_eq_false_2; [reflexivity|].
  intros ->. rewrite lookup_empty in Hk. discriminate.
Qed.

(** X18.  [start_research] answers the identifier of the new task, and from then
    on [get_task_status] finds its record: the initial record, every key of
    it, over whatever the store held under that identifier.  The records of
    the other tasks are as they were. *)
Theorem started_task_is_stored (topic : string) (max_iterations : Z)
    (s : CState) :
  let run := start_research topic max_iterations s in
  let task_id := uuid4 (clock (env s)) in
  exists response state,
    fst run = Returned (task_id, response)
    /\ dict_get "task_id" response = Some (JStr task_id)
    /\ get_task_status (redis (env (snd run))) task_id = inl state
    /\ state = initial_state task_id topic max_iterations
               ∪ state_or_empty (redis (env s)) task_id
    /\ (forall k v,
          initial_state task_id topic max_iterations !! k = Some v ->
          state !! k = Some v)
    /\ (forall t, t <> task_id ->
          get_state (redis (env (snd run))) t = get_state (redis (env s)) t).
Proof.
  cbv zeta. unfold start_research, cbind, in_env, new_uuid,
    coordinator_update_state, cret. cbn [fst snd env redis set_redis tick].
  eexists _, _. split; [reflexivity|]. split; [reflexivity|].
  split; [|split; [reflexivity|split]].
  - eapply get_task_status_found.
    + unfold get_state, update_state. apply lookup_insert_eq.
    + apply lookup_union_Some_l, initial_state_status.
  - intros k v Hk. apply lookup_union_Some_l, Hk.
  - intros t Hne. unfold update_state. apply get_state_insert_other, Hne.
Qed.

Lemma research_task_run (fuel : nat) (topic : string) (max_iterations : Z)
    (s : CState) :
  let task_id := uuid4 (clock (env s)) in
  let s1 :=
    {| env := set_redis (tick (env s))
                (update_state (redis (env s)) task_id
                   (initial_state task_id topic max_iterations));
       events := events s
                 ++ [StateWrite task_id
                       (initial_state task_id topic max_iterations)] |} in
  research_task post fuel topic max_iterations s
  = match run_workflow post fuel task_id s1 with
    | (Returned result, s2) => (Returned (task_id, result), s2)
    | (Raised e, s2) => (Raised e, s2)
    | (Unfinished, s2) => (Unfinished, s2)
    end.
Proof. reflexivity. Qed.

(** X19.  A task started by [start_research] comes to an end.  Its workflow, given
    [max_iterations] turns of the loop, returns and does not raise; it has
    evaluated [should_continue] at most [max_iterations] times and sent at
    most [3 * max_iterations + 2] messages; and [get_task_status] then finds
    the record with the status ["completed"] when the workflow returned
    success, and with the status ["failed"] and the error returned when it
    returned failure. *)
Theorem started_task_runs_to_an_end (topic : string) (max_iterations : Z)
    (s : CState) :
  let run := research_task post (Z.to_nat max_iterations) topic max_iterations s in
  exists task_id result state d,
    fst run = Returned (task_id, result)
    /\ events (snd run) = events s ++ d
    /\ (length (evaluations d) <= Z.to_nat max_iterations)%nat
    /\ (count_sends d <= 3 * Z.to_nat max_iterations + 2)%nat
    /\ get_task_status (redis (env (snd run))) task_id = inl state
    /\ ((result = [("success", JBool true); ("task_id", JStr task_id)]
         /\ state !! "status" = Some (JStr "completed"))
        \/ exists e,
             result = [("success", JBool false);
                       ("error", JStr ("Workflow error: " ++ e))]
             /\ state !! "status" = Some (JStr "failed")
             /\ state !! "error" = Some (JStr ("Workflow error: " ++ e))).
Proof.
  cbv zeta. rewrite research_task_run. cbv zeta.
  set (task_id := uuid4 (clock (env s))).
  set (s1 := {| env := _; events := _ |}).
  assert (Hstate : forall state,
             get_state (redis (env s1)) task_id = Some state ->
             state_get state "max_iterations" (JInt 2) = JInt max_iterations).
  { intros state. subst s1. unfold set_redis, tick. cbn [env redis].
    unfold get_state, update_state.
    rewrite lookup_insert_eq. intros [= <-]. unfold state_get.
    erewrite lookup_union_Some_l by apply initial_state_max_iterations.
    reflexivity. }
  destruct (workflow_outcome post (Z.to_nat max_iterations) task_id s1)
    as (result & state & Hret & Hs & Hres).
  { intros state Hst. exists max_iterations. split; [apply Hstate, Hst|lia]. }
  destruct (workflow_bounded post (Z.to_nat max_iterations) task_id s1
              max_iterations Hstate) as (d & Hd & He & Hn).
  destruct (run_workflow post (Z.to_nat max_iterations) task_id s1)
    as [o s2]. cbn [fst snd] in *. subst o. cbn [fst snd].
  exists task_id, result, state,
    (StateWrite task_id (initial_state task_id topic max_iterations) :: d).
  split; [reflexivity|].
  split; [rewrite Hd; subst s1; cbn [events]; rewrite <- app_assoc; reflexivity|].
  split; [exact He|]. split; [exact Hn|].
  split; [|exact Hres].
  destruct Hres as [(_ & Hst)|(e & _ & Hst & _)];
    eapply get_task_status_found; eassumption.
Qed.

End EndpointFacts.

(** ** The services behind the pipeline *)

Section ServiceFacts.
Context `{Externals}.

Local Open Scope list_scope.

(** X20.  A request for capabilities is answered without a change to the store:
    with the capabilities of the agent and its description when
    [get_capabilities] returns them, and with the error [PROCESSING_ERROR]
    that carries the text of the exception when it raises. *)
Theorem capability_request_answered (self : A2ABaseAgent)
    (message : A2AMessage) (w : Env) :
  content message = A2ACapabilityRequest ->
  redis (snd (process_message self message w)) = redis w
  /\ (forall capabilities,
        get_capabilities self = Ok capabilities ->
        content (fst (process_message self message w))
        = A2ACapabilityResponse capabilities
            {| agent_info_id := agent_id self;
               agent_info_name := name self;
               agent_info_version := "1.0.0";
               agent_info_capabilities := capabilities;
               agent_info_metadata :=
                 [("role", JStr (role self));
                  ("expertise", JStr (expertise self));
                  ("temperature", JFloat (temperature self))] |})
  /\ (forall e,
        get_capabilities self = Raise e ->
        content (fst (process_message self message w))
        = A2AError "PROCESSING_ERROR" (exn_str e) None).
Proof.
  intros Hc. unfold process_message, _handle_capability_request. rewrite Hc.
  destruct (get_capabilities self) as [capabilities|e]; simpl.
  - split; [reflexivity|]. split; [intros caps [= <-]; reflexivity|].
    intros e' [=].
  - split; [reflexivity|]. split; [intros caps [=]|].
    intros e' [= <-]. reflexivity.
Qed.

(** X21.  The tables agree.  For each step of the pipeline, the URI that the
    coordinator calls has a service URL, the service that listens there is
    the agent with that URI as its identifier, the name that the coordinator
    writes to the record as [current_agent] is the name of that agent, and
    the action that the coordinator asks for is one of the capabilities that
    the agent answers. *)
Theorem pipeline_reaches_its_agents (status current_agent agent action : string) :
  In (status, current_agent, agent, action) pipeline ->
  exists url capabilities,
    assoc (AGENT_URIS agent) AGENT_SERVICES = Some url
    /\ service_at (url ++ "/message") services = Some (agent_for agent)
    /\ agent_id (agent_for agent) = AGENT_URIS agent
    /\ name (agent_for agent) = current_agent
    /\ get_capabilities (agent_for agent) = Ok capabilities
    /\ In action (map cap_name capabilities)
    /\ In action (action_table (AGENT_URIS agent)).
Proof.
  intros Hin. unfold pipeline in Hin. simpl in Hin.
  assert (Hk : In agent agent_keys).
  { unfold agent_keys. simpl.
    destruct Hin as [E|[E|[E|[E|[E|[]]]]]]; injection E as <- <- <- <-; tauto. }
  destruct (service_of_key agent Hk) as (url & Hurl & Hsvc).
  exists url.
  destruct Hin as [E|[E|[E|[E|[E|[]]]]]]; injection E as <- <- <- <-;
    eexists; (split; [exact Hurl|]); (split; [exact Hsvc|]);
    (split; [reflexivity|]); (split; [reflexivity|]);
    (split; [reflexivity|]); simpl; tauto.
Qed.


Lemma field_of_update_state_other (r : gmap string (gmap string json))
    (t k : string) (v : json) (updates : gmap string json) :
  updates !! k = None -> field_of r t k = Some v ->
  field_of (update_state r t updates) t k = Some v.
Proof.
  intros Hu Hk. unfold update_state. rewrite field_of_insert.
  rewrite lookup_union_r by exact Hu.
  unfold field_of in Hk. unfold state_or_empty.
  destruct (get_state r t); [exact Hk|discriminate].
Qed.

(** X23.  A run over the five services that returns success leaves a record that
    holds the report: the [final_report] that the report writer stored, the
    status ["completed"], and the report writer as the last agent. *)
Theorem completed_task_has_its_report (fuel : nat) (task_id : string)
    (s : CState) :
  fst (run_workflow http_post fuel task_id s)
  = Returned [("success", JBool true); ("task_id", JStr task_id)] ->
  exists report,
    field_of (redis (env (snd (run_workflow http_post fuel task_id s))))
      task_id "final_report"
    = Some (JStr report)
    /\ field_of (redis (env (snd (run_workflow http_post fuel task_id s))))
         task_id "status"
       = Some (JStr "completed")
    /\ field_of (redis (env (snd (run_workflow http_post fuel task_id s))))
         task_id "current_agent"
       = Some (JStr "Dr. Report Writer").
Proof.
  unfold run_workflow, try_except.
  destruct (workflow_body http_post fuel task_id s) as [[a|e|] s'] eqn:E;
    cbn [fst snd]; try discriminate.
  intros _.
  apply body_returned in E as (_ & s0 & r & s1 & Hstep & ->).
  destruct (real_step task_id "generating_report" "Dr. Report Writer"
              "report_writer" "generate_report" [("task_id", JStr task_id)] s0)
    as (w_h & Hw & Hcases).
  { unfold agent_keys. simpl. tauto. }
  { reflexivity. }
  rewrite Hstep in Hcases. cbn [fst snd] in Hcases.
  destruct Hcases as [(_ & e & He)|(Hredis & Hres)]; [discriminate|].
  destruct Hres as [(r' & Hh & _)|(e & He)]; [|discriminate].
  change (handle_action (agent_for "report_writer") "generate_report")
    with _generate_report in *.
  destruct (report_recorded [("task_id", JStr task_id)] [] r' w_h task_id
              eq_refl Hh) as (report & _ & Hreport & _ & Hagent).
  rewrite <- Hredis in Hreport, Hagent.
  exists report. unfold coordinator_update_state. cbn [snd env redis set_redis].
  split; [|split].
  - apply field_of_update_state_other; [reflexivity|exact Hreport].
  - unfold update_state. rewrite field_of_insert.
    apply lookup_union_Some_l. reflexivity.
  - apply field_of_update_state_other; [reflexivity|exact Hagent].
Qed.

(** *** The turn that ends the loop *)

Lemma tracks_quiet (t : string) {A} (m : C A) :
  leaves t m -> emits (fun _ d => no_evaluation d) m -> tracks t m.
Proof.
  intros Hl Hq s. destruct (Hq s) as (d & Hd & Hno).
  exists d. split; [exact Hd|]. split; [apply Hl|].
  intros st dec Hin. destruct (Hno st dec Hin).
Qed.

Lemma evaluated_from_later (t : string) (r0 r1 : gmap string (gmap string json))
    (d : list event) :
  untouched t r0 r1 -> evaluated_from t r1 d -> evaluated_from t r0 d.
Proof.
  intros H01 Hd st dec Hin. destruct (Hd st dec Hin) as (r & Hr & Hst & Hdec).
  exists r. split; [eapply untouched_trans; eassumption|auto].
Qed.

Lemma evaluated_from_app (t : string) (r0 : gmap string (gmap string json))
    (d1 d2 : list event) :
  evaluated_from t r0 d1 -> evaluated_from t r0 d2 ->
  evaluated_from t r0 (d1 ++ d2).
Proof. intros H1 H2 st dec [Hin|Hin]%in_app_or; eauto. Qed.

Lemma tracks_bind (t : string) {A B} (m : C A) (k : A -> C B) :
  tracks t m -> (forall a, tracks t (k a)) -> tracks t (cbind m k).
Proof.
  intros Hm Hk s. unfold cbind. destruct (Hm s) as (d1 & Hd1 & Hu1 & He1).
  destruct (m s) as [[a|e|] s1]; cbn [fst snd] in *.
  - destruct (Hk a s1) as (d2 & Hd2 & Hu2 & He2).
    exists (d1 ++ d2). split; [rewrite Hd2, Hd1, app_assoc; reflexivity|].
    split; [eapply untouched_trans; eassumption|].
    apply evaluated_from_app; [exact He1|].
    eapply evaluated_from_later; eassumption.
  - exists d1. auto.
  - exists d1. auto.
Qed.

Lemma tracks_try (t : string) {A} (body : C A) (handler : exn -> C A) :
  tracks t body -> (forall e, tracks t (handler e)) ->
  tracks t (try_except body handler).
Proof.
  intros Hb Hh s. unfold try_except. destruct (Hb s) as (d1 & Hd1 & Hu1 & He1).
  destruct (body s) as [[a|e|] s1]; cbn [fst snd] in *.
  - exists d1. auto.
  - destruct (Hh e s1) as (d2 & Hd2 & Hu2 & He2).
    exists (d1 ++ d2). split; [rewrite Hd2, Hd1, app_assoc; reflexivity|].
    split; [eapply untouched_trans; eassumption|].
    apply evaluated_from_app; [exact He1|].
    eapply evaluated_from_later; eassumption.
  - exists d1. auto.
Qed.

Lemma tracks_ret (t : string) {A} (a : A) : tracks t (cret a).
Proof.
  apply tracks_quiet; [apply leaves_ret|apply emits_ret, no_evaluation_nil].
Qed.

Lemma tracks_raise (t : string) {A} (e : exn) : tracks t (@craise A e).
Proof.
  apply tracks_quiet; [apply leaves_raise|apply emits_raise, no_evaluation_nil].
Qed.

Lemma tracks_step (task_id status current_agent agent action : string)
    (parameters : dict) :
  In agent agent_keys -> dict_compatible parameters = true ->
  task_of parameters = task_id ->
  tracks task_id
    (pipeline_step http_post task_id status current_agent agent action
       parameters).
Proof.
  intros Hin Hp Ht.
  apply tracks_quiet; [apply leaves_step; assumption|apply quiet_step].
Qed.

Lemma tracks_update (t : string) (updates : gmap string json) :
  (forall k, ~ In k written_keys -> updates !! k = None) ->
  tracks t (coordinator_update_state t updates).
Proof.
  intros Hu. apply tracks_quiet; [apply leaves_update, Hu|].
  intros s. eexists. split; [reflexivity|].
  intros st dec [E|[]]. discriminate.
Qed.

Lemma tracks_should_continue (t : string) :
  tracks t (coordinator_should_continue t).
Proof.
  intros s. unfold coordinator_should_continue.
  exists [Evaluated (get_state (redis (env s)) t)
            (should_continue (redis (env s)) t)].
  split; [destruct (should_continue _ _); reflexivity|].
  split; [destruct (should_continue _ _); apply untouched_refl|].
  intros st dec [[= <- <-]|[]].
  exists (redis (env s)). split; [apply untouched_refl|auto].
Qed.

Ltac track_step :=
  apply tracks_step; [unfold agent_keys; simpl; tauto|reflexivity|reflexivity].

Lemma tracks_loop (fuel : nat) (task_id : string) (max_iterations : json) :
  forall iteration : Z,
    tracks task_id
      (research_loop http_post fuel task_id iteration max_iterations).
Proof.
  induction fuel as [|fuel IH]; intros iteration.
  - simpl. apply tracks_bind.
    { apply tracks_quiet; [apply leaves_lift|].
      apply emits_in_env. intros. apply no_evaluation_nil. }
    intros [|]; [|apply tracks_ret].
    intros s. exists []. simpl. rewrite app_nil_r. split; [reflexivity|].
    split; [apply untouched_refl|intros st dec []].
  - rewrite research_loop_turn. apply tracks_bind.
    { apply tracks_quiet; [apply leaves_lift|].
      apply emits_in_env. intros. apply no_evaluation_nil. }
    intros [|]; [|apply tracks_ret].
    apply tracks_bind; [track_step|intros _].
    apply tracks_bind; [track_step|intros _].
    apply tracks_bind; [track_step|intros result].
    apply tracks_bind.
    { apply tracks_quiet; [apply leaves_check_format|apply quiet_check_format]. }
    intros _.
    apply tracks_bind; [apply tracks_should_continue|intros decision].
    destruct (String.eqb decision "finalize"); [apply tracks_ret|apply IH].
Qed.

Lemma tracks_workflow (fuel : nat) (task_id : string) :
  tracks task_id (run_workflow http_post fuel task_id).
Proof.
  unfold run_workflow. apply tracks_try.
  - unfold workflow_body. apply tracks_bind.
    { intros s. exists []. simpl. rewrite app_nil_r. split; [reflexivity|].
      split; [apply untouched_refl|intros st dec []]. }
    intros state.
    apply tracks_bind; [track_step|intros result].
    apply tracks_bind.
    { apply tracks_quiet; [apply leaves_check_slice|apply quiet_check_slice]. }
    intros _.
    apply tracks_bind.
    { destruct state; [apply tracks_ret|apply tracks_raise]. }
    intros max_iterations.
    apply tracks_bind; [apply tracks_loop|intros _].
    apply tracks_bind; [track_step|intros _].
    apply tracks_bind; [apply tracks_update|intros _; apply tracks_ret].
    intros k Hk. apply lookup_singleton_ne. intros <-. apply Hk.
    unfold written_keys. simpl. tauto.
  - intros e. unfold workflow_failed.
    apply tracks_bind; [apply tracks_update|intros _; apply tracks_ret].
    intros k Hk. rewrite lookup_insert_ne.
    + apply lookup_singleton_ne. intros <-. apply Hk.
      unfold written_keys. simpl. tauto.
    + intros <-. apply Hk. unfold written_keys. simpl. tauto.
Qed.

Lemma evaluations_middle (pre rest : list event)
    (state : option (gmap string json)) (decision : res string) :
  evaluations (pre ++ Evaluated state decision :: rest)
    !! length (evaluations pre)
  = Some state.
Proof. rewrite evaluations_app. simpl. apply list_lookup_middle. reflexivity. Qed.

(** X24.  In a run over the five services that starts from a record whose
    [iteration] is 0 and whose [max_iterations] is [m], every evaluation of
    [should_continue] reads a record with that same [max_iterations] and with
    the number of the turn as its [iteration], and from the turn number [m]
    on it decides to finalize: it is the policy, and not the condition of the
    loop, that ends the research after a turn. *)
Theorem turn_limit_is_decided_by_the_policy (fuel : nat) (task_id : string)
    (s : CState) (m : Z) :
  field_of (redis (env s)) task_id "iteration" = Some (JInt 0) ->
  field_of (redis (env s)) task_id "max_iterations" = Some (JInt m) ->
  exists d,
    events (snd (run_workflow http_post fuel task_id s)) = events s ++ d
    /\ forall pre state decision rest,
         d = pre ++ Evaluated state decision :: rest ->
         exists record,
           state = Some record
           /\ record !! "iteration"
              = Some (JInt (Z.of_nat (length (evaluations pre)) + 1))
           /\ record !! "max_iterations" = Some (JInt m)
           /\ (m <= Z.of_nat (length (evaluations pre)) + 1 ->
               decision = Ok "finalize").
Proof.
  intros Hi Hm.
  destruct (tracks_workflow fuel task_id s) as (d & Hd & _ & He).
  destruct (workflow_counted fuel task_id s 0 Hi) as (d' & Hd' & Hc).
  rewrite Hd in Hd'. apply app_inv_head in Hd'. subst d'.
  exists d. split; [exact Hd|].
  intros pre state decision rest ->.
  destruct (Hc _ _ (evaluations_middle pre rest state decision))
    as (record & -> & Hrec).
  destruct (He (Some record) decision) as (r & (_ & Hkeys) & Hst & Hdec).
  { apply in_or_app. right. left. reflexivity. }
  assert (Hmax : record !! "max_iterations" = Some (JInt m)).
  { specialize (Hkeys "max_iterations"). unfold field_of in Hkeys at 1.
    rewrite <- Hst in Hkeys. rewrite Hkeys; [exact Hm|].
    unfold written_keys. simpl. intuition discriminate. }
  exists record. split; [reflexivity|].
  split; [rewrite Hrec; do 2 f_equal; lia|]. split; [exact Hmax|].
  intros Hle. rewrite Hdec. unfold should_continue. rewrite <- Hst.
  unfold state_get. rewrite Hrec, Hmax. simpl.
  destruct (Z.leb_spec m (0 + Z.of_nat (length (evaluations pre)) + 1));
    [reflexivity|lia].
Qed.

End ServiceFacts.

(** ** The properties at sample values *)

Lemma envelope_roundtrip_witness :
  valid_content (content sample_update) = true
  /\ content_compatible (content sample_update) = true
  /\ reply_to sample_update <> Some ""
  /\ (forall kw : dump_kwargs,
        @model_validate plain_externals "now" (model_dump kw sample_update)
        = Valid sample_update
        /\ encoded_tag (type_key kw) (model_dump kw sample_update)
           = Some (JStr "StatusUpdate"))
  /\ encoded_tag "@type" (message_dict sample_update) = Some (JStr "StatusUpdate")
  /\ @model_validate plain_externals "now" (message_dict sample_update)
     = Valid sample_update.
Proof.
  pose proof (@envelope_roundtrip plain_externals "now" sample_update eq_refl)
    as (H1 & H2 & H3).
  split; [reflexivity|]. split; [reflexivity|]. split; [discriminate|].
  split; [exact H1|]. split; [exact H2|].
  apply H3; [reflexivity|discriminate].
Defined.

(** C1, as the claim states it, fails on the dict that [send_message] posts:
    an empty [reply_to] is left out and decodes to [None]. *)
Lemma empty_reply_to_lost :
  valid_content (content empty_reply) = true
  /\ content_compatible (content empty_reply) = true
  /\ @model_validate plain_externals "now" (message_dict empty_reply)
     = Valid {| id := "m-2"; to := "agent://coordinator";
                from_agent := "agent://data-analyst";
                content := A2ACapabilityRequest; reply_to := None;
                timestamp := "t"; metadata := [] |}
  /\ @model_validate plain_externals "now" (message_dict empty_reply)
     <> Valid empty_reply.
Proof.
  repeat split; try reflexivity. vm_compute. discriminate.
Qed.

Lemma unknown_content_type_witness :
  field untagged_body "content" "content"
  = Some (JObj [("action", JStr "refine_topic")])
  /\ dict_get "@type" [("action", JStr "refine_topic")] = None
  /\ dict_get "type" [("action", JStr "refine_topic")] = None
  /\ exists errs,
      @model_validate plain_externals "now" untagged_body = Invalid errs
      /\ In {| loc := [Key "content"];
               err_type := value_error "Unknown content type: " |} errs.
Proof.
  split; [reflexivity|]. split; [reflexivity|]. split; [reflexivity|].
  apply (@unknown_content_type plain_externals "now" untagged_body
           [("action", JStr "refine_topic")]).
  - reflexivity.
  - left. split; reflexivity.
Defined.

Lemma should_continue_policy_witness :
  get_state sample_redis "t1" = Some sample_state
  /\ sample_state !! "iteration" = Some (JInt 1)
  /\ sample_state !! "max_iterations" = Some (JInt 3)
  /\ sample_state !! "quality_score" = Some (JFloat 0.85)
  /\ sample_state !! "key_findings" = Some (JArr [JStr "a finding"])
  /\ should_continue sample_redis "t1" = Ok "finalize".
Proof.
  repeat (split; [reflexivity|]).
  exact (should_continue_policy sample_redis "t1" sample_state 1 3 0.85
           [JStr "a finding"] eq_refl eq_refl eq_refl eq_refl eq_refl).
Defined.

Lemma handler_exception_witness :
  content sample_request = A2AActionRequest "summarize" [("task_id", JStr "t1")] []
  /\ In ("agent://data-analyst", @DataAnalystAgent plain_externals)
        (@services plain_externals)
  /\ ~ In "summarize" (action_table "agent://data-analyst")
  /\ content (fst (@process_message plain_externals
                     (@DataAnalystAgent plain_externals) sample_request
                     sample_env))
     = A2AActionResponse "summarize" [] FAILED
         (Some "Unknown action: summarize") [].
Proof.
  assert (Hin : In ("agent://data-analyst", @DataAnalystAgent plain_externals)
                   (@services plain_externals))
    by (unfold services; simpl; tauto).
  assert (Hno : ~ In "summarize" (action_table "agent://data-analyst"))
    by (intros [E|[]]; discriminate).
  split; [reflexivity|]. split; [exact Hin|]. split; [exact Hno|].
  exact (proj2 (@handler_exception_becomes_failed_response plain_externals
                  (@DataAnalystAgent plain_externals) sample_request "summarize"
                  [("task_id", JStr "t1")] [] sample_env eq_refl)
           "agent://data-analyst" Hin Hno).
Defined.

(** C6, as the claim states it, fails: a body that does not decode is
    answered with the status 422 and no envelope, not with an error envelope
    that replies to it. *)
Lemma undecodable_body_gets_no_envelope :
  (exists errs,
      @model_validate plain_externals
        (@isoformat_now plain_externals (clock sample_env))
        untagged_body = Invalid errs)
  /\ fst (@receive_message plain_externals (@TopicRefinerAgent plain_externals)
            (JObj untagged_body) sample_env)
     = (422, JObj [("detail", JArr [])])
  /\ @answered_envelope plain_externals "now"
       (fst (@receive_message plain_externals
               (@TopicRefinerAgent plain_externals) (JObj untagged_body)
               sample_env))
     = None.
Proof.
  split; [eexists; vm_compute; reflexivity|]. split; reflexivity.
Qed.

(** ** The further properties at sample values *)


Lemma message_dict_is_model_dump_witness :
  valid_content (content sample_update) = true
  /\ content_compatible (content sample_update) = true
  /\ reply_to sample_update <> Some ""
  /\ dict_get "content" (message_dict sample_update)
     = dict_get "content"
         (model_dump {| by_alias := true; exclude_none := true |} sample_update).
Proof.
  split; [reflexivity|]. split; [reflexivity|]. split; [discriminate|].
  apply (message_dict_is_model_dump sample_update "content");
    [reflexivity|reflexivity|discriminate].
Defined.

Lemma missing_field_rejected_witness :
  In ("to", "to")
     [("id", "id"); ("to", "to"); ("from", "from_agent"); ("content", "content")]
  /\ field id_only_body "to" "to" = None
  /\ has_error {| loc := [Key "to"]; err_type := missing |}
       (@model_validate plain_externals "now" id_only_body).
Proof.
  assert (Hin : In ("to", "to")
                   [("id", "id"); ("to", "to"); ("from", "from_agent");
                    ("content", "content")]) by (simpl; tauto).
  split; [exact Hin|]. split; [reflexivity|].
  apply (@missing_field_rejected plain_externals "now" id_only_body "to" "to" Hin).
  reflexivity.
Defined.


Lemma call_returns_completed_result_witness :
  fst (@call_agent_action plain_externals (@http_post plain_externals)
         "agent://topic-refiner" "refine_topic" [("task_id", JStr "t1")] started)
  = Returned [("refined_topic", JStr ""); ("original_topic", JStr "cars")]
  /\ exists message response,
       events (snd (@call_agent_action plain_externals
                      (@http_post plain_externals) "agent://topic-refiner"
                      "refine_topic" [("task_id", JStr "t1")] started))
       = (events started
          ++ [MessageSent "agent://topic-refiner" message;
              MessageReceived "agent://topic-refiner" response])%list
       /\ content message
          = A2AActionRequest "refine_topic" [("task_id", JStr "t1")] []
       /\ ((exists a e md,
               content response
               = A2AActionResponse a
                   [("refined_topic", JStr ""); ("original_topic", JStr "cars")]
                   COMPLETED e md)
           \/ ([("refined_topic", JStr ""); ("original_topic", JStr "cars")] = []
               /\ exists p m, content response = A2AStatusUpdate COMPLETED p m)).
Proof.
  assert (Hret : fst (@call_agent_action plain_externals
                        (@http_post plain_externals) "agent://topic-refiner"
                        "refine_topic" [("task_id", JStr "t1")] started)
                 = Returned [("refined_topic", JStr "");
                             ("original_topic", JStr "cars")])
    by (vm_compute; reflexivity).
  split; [exact Hret|].
  exact (@call_returns_completed_result plain_externals
           (@http_post plain_externals) "agent://topic-refiner" "refine_topic"
           [("task_id", JStr "t1")]
           [("refined_topic", JStr ""); ("original_topic", JStr "cars")]
           started Hret).
Defined.

Lemma run_workflow_outcome_witness :
  get_state (redis (env started)) "t1" = Some (initial_state "t1" "cars" 1)
  /\ state_get (initial_state "t1" "cars" 1) "max_iterations" (JInt 2) = JInt 1
  /\ exists result state,
       fst (@run_workflow plain_externals (@http_post plain_externals) 1 "t1"
              started)
       = Returned result
       /\ get_state
            (redis (env (snd (@run_workflow plain_externals
                                (@http_post plain_externals) 1 "t1" started))))
            "t1"
          = Some state
       /\ ((result = [("success", JBool true); ("task_id", JStr "t1")]
            /\ state !! "status" = Some (JStr "completed"))
           \/ exists e,
                result = [("success", JBool false);
                          ("error", JStr ("Workflow error: " ++ e))]
                /\ state !! "status" = Some (JStr "failed")
                /\ state !! "error" = Some (JStr ("Workflow error: " ++ e))).
Proof.
  assert (Hs : get_state (redis (env started)) "t1"
               = Some (initial_state "t1" "cars" 1))
    by (vm_compute; reflexivity).
  split; [exact Hs|]. split; [reflexivity|].
  apply (@run_workflow_outcome plain_externals (@http_post plain_externals) 1
           "t1" started).
  intros state Hstate. rewrite Hs in Hstate. injection Hstate as <-.
  exists 1. split; [reflexivity|]. simpl. lia.
Defined.

Lemma run_is_bounded_witness :
  get_state (redis (env started)) "t1" = Some (initial_state "t1" "cars" 1)
  /\ state_get (initial_state "t1" "cars" 1) "max_iterations" (JInt 2) = JInt 1
  /\ exists d,
       events (snd (@run_workflow plain_externals (@http_post plain_externals)
                      1 "t1" started))
       = (events started ++ d)%list
       /\ (length (evaluations d) <= Z.to_nat 1)%nat
       /\ (count_sends d <= 3 * Z.to_nat 1 + 2)%nat.
Proof.
  assert (Hs : get_state (redis (env started)) "t1"
               = Some (initial_state "t1" "cars" 1))
    by (vm_compute; reflexivity).
  split; [exact Hs|]. split; [reflexivity|].
  apply (@run_is_bounded plain_externals (@http_post plain_externals) 1 "t1"
           started 1).
  intros state Hstate. rewrite Hs in Hstate. injection Hstate as <-.
  reflexivity.
Defined.

Lemma unreachable_agents_fail_the_run_witness :
  (forall url body w,
      exists text w',
        no_network url body w = (Raise (Exn ConnectError text), w'))
  /\ fst (@run_workflow plain_externals no_network 1 "t1" started)
     = Returned
         [("success", JBool false);
          ("error",
           JStr "Workflow error: Cannot connect to agent agent://topic-refiner")]
  /\ exists message,
       events (snd (@run_workflow plain_externals no_network 1 "t1" started))
       = (events started
          ++ [StateWrite "t1"
                {[ "status" := JStr "refining_topic";
                   "current_agent" := JStr "Dr. Topic Refiner" ]};
              MessageSent "agent://topic-refiner" message;
              StateWrite "t1"
                {[ "status" := JStr "failed";
                   "error" :=
                     JStr "Workflow error: Cannot connect to agent agent://topic-refiner" ]}])%list.
Proof.
  assert (Hdown : forall url body w,
             exists text w',
               no_network url body w = (Raise (Exn ConnectError text), w'))
    by (intros url body w; eexists _, _; reflexivity).
  split; [exact Hdown|].
  exact (@unreachable_agents_fail_the_run plain_externals no_network 1 "t1"
           started Hdown).
Defined.

Lemma handlers_need_a_task_witness :
  In ("analyzing", "Dr. Data Analyst", "data_analyst", "analyze_results") pipeline
  /\ py_truthy (get_or_none "task_id" []) = false
  /\ handle_action (@agent_for plain_externals "data_analyst") "analyze_results"
       [] [] sample_env
     = (Raise (Exn ValueError "task_id is required"), sample_env).
Proof.
  assert (Hin : In ("analyzing", "Dr. Data Analyst", "data_analyst",
                    "analyze_results") pipeline)
    by (unfold pipeline; simpl; tauto).
  split; [exact Hin|]. split; [reflexivity|].
  exact (proj1 (@handlers_need_a_task plain_externals "analyzing"
                  "Dr. Data Analyst" "data_analyst" "analyze_results" [] []
                  sample_env Hin)
           eq_refl).
Defined.

Lemma add_log_appends_witness :
  state_get (state_or_empty (redis sample_env) "t1") "agent_logs" (JArr [])
  = JArr []
  /\ fst (@add_log plain_externals data_analyst_info "t1" "analyzed_data"
            [("findings_extracted", JInt 1)] sample_env)
     = Ok tt
  /\ field_of
       (redis (snd (@add_log plain_externals data_analyst_info "t1"
                      "analyzed_data" [("findings_extracted", JInt 1)]
                      sample_env)))
       "t1" "agent_logs"
     = Some (JArr [JObj [("agent", JStr "Dr. Data Analyst");
                         ("agent_id", JStr "agent://data-analyst");
                         ("action", JStr "analyzed_data");
                         ("timestamp", JStr "");
                         ("findings_extracted", JInt 1)]]).
Proof.
  assert (Hlogs : state_get (state_or_empty (redis sample_env) "t1")
                    "agent_logs" (JArr []) = JArr [])
    by (vm_compute; reflexivity).
  split; [exact Hlogs|].
  pose proof (@add_log_appends plain_externals data_analyst_info "t1"
                "analyzed_data" [("findings_extracted", JInt 1)] sample_env []
                Hlogs) as (Hok & Hfield & _).
  split; [exact Hok|exact Hfield].
Defined.

Lemma search_errors_do_not_fail_the_step_witness :
  get_or_none "task_id" [("task_id", JStr "t1")] = JStr "t1"
  /\ "t1" <> ""
  /\ get_state (redis asking_env) "t1" = Some asking_state
  /\ asking_state <> ∅
  /\ exists added found,
       incl added [JStr "how far"]
       /\ fst (@_execute_search plain_externals [("task_id", JStr "t1")] []
                 asking_env)
          = Ok [("results_count", JInt (Z.of_nat (length found)));
                ("queries_processed", JInt (Z.of_nat (length added)));
                ("total_results", JInt (Z.of_nat (length ([] ++ found))))]
       /\ field_of
            (redis (snd (@_execute_search plain_externals
                           [("task_id", JStr "t1")] [] asking_env)))
            "t1" "iteration"
          = Some (JInt (0 + 1))
       /\ field_of
            (redis (snd (@_execute_search plain_externals
                           [("task_id", JStr "t1")] [] asking_env)))
            "t1" "status"
          = Some (JStr "search_completed")
       /\ field_of
            (redis (snd (@_execute_search plain_externals
                           [("task_id", JStr "t1")] [] asking_env)))
            "t1" "search_queries"
          = Some (JArr ([] ++ added))
       /\ field_of
            (redis (snd (@_execute_search plain_externals
                           [("task_id", JStr "t1")] [] asking_env)))
            "t1" "search_results"
          = Some (JArr ([] ++ found)).
Proof.
  assert (Hs : get_state (redis asking_env) "t1" = Some asking_state)
    by (vm_compute; reflexivity).
  assert (Hne : asking_state <> ∅).
  { intros E. apply (f_equal (fun m : gmap string json => m !! "iteration")) in E.
    vm_compute in E. discriminate. }
  split; [reflexivity|]. split; [discriminate|]. split; [exact Hs|].
  split; [exact Hne|].
  apply (@search_errors_do_not_fail_the_step plain_externals
           [("task_id", JStr "t1")] [] asking_env "t1" asking_state
           [JStr "how far"] [] [] [] 0);
    first [exact Hs|exact Hne|discriminate|vm_compute; reflexivity].
Defined.

Lemma questions_are_added_witness :
  get_or_none "task_id" [("task_id", JStr "t1")] = JStr "t1"
  /\ fst (@_generate_questions plain_externals [("task_id", JStr "t1")] []
            asking_env)
     = Ok [("questions", JArr []); ("count", JInt 0);
           ("total_questions", JInt 1)]
  /\ exists state old new,
       get_state (redis asking_env) "t1" = Some state
       /\ state_get state "research_questions" (JArr []) = JArr old
       /\ (length new <= 3)%nat
       /\ [("questions", JArr []); ("count", JInt 0);
           ("total_questions", JInt 1)]
          = [("questions", JArr (map JStr new));
             ("count", JInt (Z.of_nat (length new)));
             ("total_questions",
              JInt (Z.of_nat (length (old ++ map JStr new))))]
       /\ field_of
            (redis (snd (@_generate_questions plain_externals
                           [("task_id", JStr "t1")] [] asking_env)))
            "t1" "research_questions"
          = Some (JArr (old ++ map JStr new))
       /\ field_of
            (redis (snd (@_generate_questions plain_externals
                           [("task_id", JStr "t1")] [] asking_env)))
            "t1" "status"
          = Some (JStr "questions_generated").
Proof.
  assert (Hrun : fst (@_generate_questions plain_externals
                        [("task_id", JStr "t1")] [] asking_env)
                 = Ok [("questions", JArr []); ("count", JInt 0);
                       ("total_questions", JInt 1)])
    by (vm_compute; reflexivity).
  split; [reflexivity|]. split; [exact Hrun|].
  exact (@questions_are_added plain_externals [("task_id", JStr "t1")] []
           [("questions", JArr []); ("count", JInt 0);
            ("total_questions", JInt 1)]
           asking_env "t1" eq_refl Hrun).
Defined.

Lemma analysis_is_recorded_witness :
  get_or_none "task_id" [("task_id", JStr "t1")] = JStr "t1"
  /\ fst (@_analyze_results plain_externals [("task_id", JStr "t1")] []
            sample_env)
     = Ok [("findings", JArr [JStr "No data available for analysis"]);
           ("quality_score", JFloat 0);
           ("findings_count", JInt 1);
           ("total_findings", JInt 2)]
  /\ field_of
       (redis (snd (@_analyze_results plain_externals [("task_id", JStr "t1")]
                      [] sample_env)))
       "t1" "quality_score"
     = Some (JFloat 0).
Proof.
  assert (Hrun : fst (@_analyze_results plain_externals
                        [("task_id", JStr "t1")] [] sample_env)
                 = Ok [("findings", JArr [JStr "No data available for analysis"]);
                       ("quality_score", JFloat 0);
                       ("findings_count", JInt 1);
                       ("total_findings", JInt 2)])
    by (vm_compute; reflexivity).
  split; [reflexivity|]. split; [exact Hrun|].
  destruct (@analysis_is_recorded plain_externals [("task_id", JStr "t1")] []
              _ sample_env "t1" eq_refl Hrun)
    as (state & old & findings & q & _ & _ & _ & _ & Hres & _ & Hq & _).
  injection Hres as _ <-. exact Hq.
Defined.

Lemma capability_request_answered_witness :
  content empty_reply = A2ACapabilityRequest
  /\ redis (snd (@process_message plain_externals
                   (@TopicRefinerAgent plain_externals) empty_reply sample_env))
     = redis sample_env
  /\ content (fst (@process_message plain_externals
                     (@TopicRefinerAgent plain_externals) empty_reply
                     sample_env))
     = A2ACapabilityResponse topic_refiner_capabilities
         {| agent_info_id := "agent://topic-refiner";
            agent_info_name := "Dr. Topic Refiner";
            agent_info_version := "1.0.0";
            agent_info_capabilities := topic_refiner_capabilities;
            agent_info_metadata :=
              [("role", JStr "Research Topic Specialist");
               ("expertise",
                JStr "Clarifying research objectives and scoping studies");
               ("temperature", JFloat 0.5)] |}.
Proof.
  split; [reflexivity|].
  pose proof (@capability_request_answered plain_externals
                (@TopicRefinerAgent plain_externals) empty_reply sample_env
                eq_refl) as (Hredis & Hcaps & _).
  split; [exact Hredis|]. exact (Hcaps topic_refiner_capabilities eq_refl).
Defined.

Lemma pipeline_reaches_its_agents_witness :
  In ("searching", "Agent Search Strategist", "search_strategist",
      "execute_search") pipeline
  /\ exists url capabilities,
       assoc (AGENT_URIS "search_strategist") (@AGENT_SERVICES plain_externals)
       = Some url
       /\ @service_at plain_externals (url ++ "/message")
            (@services plain_externals)
          = Some (@agent_for plain_externals "search_strategist")
       /\ agent_id (@agent_for plain_externals "search_strategist")
          = AGENT_URIS "search_strategist"
       /\ name (@agent_for plain_externals "search_strategist")
          = "Agent Search Strategist"
       /\ get_capabilities (@agent_for plain_externals "search_strategist")
          = Ok capabilities
       /\ In "execute_search" (map cap_name capabilities)
       /\ In "execute_search" (action_table (AGENT_URIS "search_strategist")).
Proof.
  assert (Hin : In ("searching", "Agent Search Strategist", "search_strategist",
                    "execute_search") pipeline)
    by (unfold pipeline; simpl; tauto).
  split; [exact Hin|].
  exact (@pipeline_reaches_its_agents plain_externals "searching"
           "Agent Search Strategist" "search_strategist" "execute_search" Hin).
Defined.


Lemma topic_is_refined_witness :
  get_or_none "task_id" [("task_id", JStr "t1")] = JStr "t1"
  /\ fst (@_refine_topic plain_externals [("task_id", JStr "t1")] []
            (env started))
     = Ok [("refined_topic", JStr ""); ("original_topic", JStr "cars")]
  /\ exists state refined,
       get_state (redis (env started)) "t1" = Some state
       /\ [("refined_topic", JStr ""); ("original_topic", JStr "cars")]
          = [("refined_topic", JStr refined);
             ("original_topic", state_get state "topic" (JStr ""))]
       /\ field_of
            (redis (snd (@_refine_topic plain_externals
                           [("task_id", JStr "t1")] [] (env started))))
            "t1" "topic"
          = Some (JStr refined)
       /\ field_of
            (redis (snd (@_refine_topic plain_externals
                           [("task_id", JStr "t1")] [] (env started))))
            "t1" "status"
          = Some (JStr "topic_refined").
Proof.
  assert (Hrun : fst (@_refine_topic plain_externals [("task_id", JStr "t1")]
                        [] (env started))
                 = Ok [("refined_topic", JStr "");
                       ("original_topic", JStr "cars")])
    by (vm_compute; reflexivity).
  split; [reflexivity|]. split; [exact Hrun|].
  exact (@topic_is_refined plain_externals [("task_id", JStr "t1")] []
           [("refined_topic", JStr ""); ("original_topic", JStr "cars")]
           (env started) "t1" eq_refl Hrun).
Defined.

Lemma report_is_recorded_witness :
  get_or_none "task_id" [("task_id", JStr "t1")] = JStr "t1"
  /\ fst (@_generate_report plain_externals [("task_id", JStr "t1")] []
            (env started))
     = Ok [("report", JStr ""); ("report_length", JInt 0)]
  /\ exists report,
       dict_get "report" [("report", JStr ""); ("report_length", JInt 0)]
       = Some (JStr report)
       /\ field_of
            (redis (snd (@_generate_report plain_externals
                           [("task_id", JStr "t1")] [] (env started))))
            "t1" "final_report"
          = Some (JStr report)
       /\ field_of
            (redis (snd (@_generate_report plain_externals
                           [("task_id", JStr "t1")] [] (env started))))
            "t1" "status"
          = Some (JStr "report_completed")
       /\ field_of
            (redis (snd (@_generate_report plain_externals
                           [("task_id", JStr "t1")] [] (env started))))
            "t1" "current_agent"
          = Some (JStr "Dr. Report Writer").
Proof.
  assert (Hrun : fst (@_generate_report plain_externals
                        [("task_id", JStr "t1")] [] (env started))
                 = Ok [("report", JStr ""); ("report_length", JInt 0)])
    by (vm_compute; reflexivity).
  split; [reflexivity|]. split; [exact Hrun|].
  exact (@report_is_recorded plain_externals [("task_id", JStr "t1")] []
           [("report", JStr ""); ("report_length", JInt 0)]
           (env started) "t1" eq_refl Hrun).
Defined.

Lemma completed_task_has_its_report_witness :
  fst (@run_workflow plain_externals (@http_post plain_externals) 1 "t1" started)
  = Returned [("success", JBool true); ("task_id", JStr "t1")]
  /\ exists report,
       field_of
         (redis (env (snd (@run_workflow plain_externals
                             (@http_post plain_externals) 1 "t1" started))))
         "t1" "final_report"
       = Some (JStr report)
       /\ field_of
            (redis (env (snd (@run_workflow plain_externals
                                (@http_post plain_externals) 1 "t1" started))))
            "t1" "status"
          = Some (JStr "completed")
       /\ field_of
            (redis (env (snd (@run_workflow plain_externals
                                (@http_post plain_externals) 1 "t1" started))))
            "t1" "current_agent"
          = Some (JStr "Dr. Report Writer").
Proof.
  assert (Hrun : fst (@run_workflow plain_externals (@http_post plain_externals)
                        1 "t1" started)
                 = Returned [("success", JBool true); ("task_id", JStr "t1")])
    by (vm_compute; reflexivity).
  split; [exact Hrun|].
  exact (@completed_task_has_its_report plain_externals 1 "t1" started Hrun).
Defined.

Lemma turn_limit_is_decided_by_the_policy_witness :
  field_of (redis (env started)) "t1" "iteration" = Some (JInt 0)
  /\ field_of (redis (env started)) "t1" "max_iterations" = Some (JInt 1)
  /\ exists d,
       events (snd (@run_workflow plain_externals (@http_post plain_externals)
                      1 "t1" started))
       = (events started ++ d)%list
       /\ forall pre state decision rest,
            d = (pre ++ Evaluated state decision :: rest)%list ->
            exists record,
              state = Some record
              /\ record !! "iteration"
                 = Some (JInt (Z.of_nat (length (evaluations pre)) + 1))
              /\ record !! "max_iterations" = Some (JInt 1)
              /\ (1 <= Z.of_nat (length (evaluations pre)) + 1 ->
                  decision = Ok "finalize").
Proof.
  assert (Hi : field_of (redis (env started)) "t1" "iteration" = Some (JInt 0))
    by (vm_compute; reflexivity).
  assert (Hm : field_of (redis (env started)) "t1" "max_iterations"
               = Some (JInt 1))
    by (vm_compute; reflexivity).
  split; [exact Hi|]. split; [exact Hm|].
  exact (@turn_limit_is_decided_by_the_policy plain_externals 1 "t1" started 1
           Hi Hm).
Defined.
